(** * Echo Dashboard v2: the five layer calculators and the admission gate

    A shallow embedding of the TypeScript sources:
    - [ReasoningProvenanceLayer] (RPL), [QuestionEntropyMonitor] (QEM),
      [LaggedOutcomeAttribution] (LOA), [ObserverLoadIndex] (OLI) and
      [PurposeDriftSentinel] (PDS), the in-memory layer classes;
    - [api/src/index.ts], the Express routes with their middleware, over the
      tables of [api/src/db/schema.sql].

    Conventions of the embedding.
    - A JavaScript [number] is an extended rational: [NaN], the two
      infinities, or an exact finite value.  Binary64 rounding of finite
      values is abstracted away; what is kept is everything the sources
      branch on: [0/0 = NaN], [x/0 = ±Infinity], comparisons with [NaN] are
      false, [Math.max] and [Math.round] propagate [NaN].  The fatigue
      score of the update-load route is the exception: it is computed in
      binary64 ([JS.binary64]).
    - A [Date] is its epoch time in milliseconds ([Z]); [new Date()] and
      [Date.now()] are the explicit argument [now].
    - A string is the sequence of its characters, one [ascii] each.
    - [crypto.randomUUID()] is an explicit argument (the fresh id) and
      [Math.random()] is an explicit argument (the draw, in [0,1)).
    - A class instance is a record of its private fields; a method is a
      function from the record to the new record (and the returned value).
    - A JS [Map] keeps insertion order, which [forEach] and [values()]
      expose: it is an association list updated in place ([JsMap]).  A SQL
      table addressed by primary key is a [gmap]. *)

From Stdlib Require Import ZArith QArith Qround Qreduction Qabs.
From Stdlib Require Import List String Ascii Bool Lia Lqa DecimalString.
From Stdlib Require Import Floats.
From stdpp Require Import gmap strings.
Import ListNotations.

Set Default Proof Using "Type".
Open Scope Z_scope.

(** * JavaScript numbers *)

Module JS.

Inductive number : Type :=
| NaN
| PosInf
| NegInf
| Fin (q : Q).

(** Finite values are kept in lowest terms, so that equal values are equal
    terms. *)
Definition num (q : Q) : number := Fin (Qred q).
Definition of_Z (z : Z) : number := Fin (inject_Z z).
Definition of_nat (n : nat) : number := of_Z (Z.of_nat n).

Definition signed_inf (s : Z) : number :=
  match s with
  | Z0 => NaN
  | Zpos _ => PosInf
  | Zneg _ => NegInf
  end.

(** Sign of a non-[NaN] number; zero is unsigned. *)
Definition sgn (x : number) : Z :=
  match x with
  | NaN => 0
  | PosInf => 1
  | NegInf => -1
  | Fin q => Z.sgn (Qnum q)
  end.

Definition neg (x : number) : number :=
  match x with
  | NaN => NaN
  | PosInf => NegInf
  | NegInf => PosInf
  | Fin q => num (- q)
  end.

Definition add (x y : number) : number :=
  match x, y with
  | NaN, _ | _, NaN => NaN
  | PosInf, NegInf | NegInf, PosInf => NaN
  | PosInf, _ | _, PosInf => PosInf
  | NegInf, _ | _, NegInf => NegInf
  | Fin a, Fin b => num (a + b)
  end.

Definition sub (x y : number) : number := add x (neg y).

Definition mul (x y : number) : number :=
  match x, y with
  | NaN, _ | _, NaN => NaN
  | Fin a, Fin b => num (a * b)
  | _, _ => signed_inf (sgn x * sgn y)
  end.

(** [0/0] is [NaN]; a nonzero finite value over zero is an infinity. *)
Definition div (x y : number) : number :=
  match x, y with
  | NaN, _ | _, NaN => NaN
  | Fin a, Fin b =>
      if Qeq_bool b 0 then signed_inf (Z.sgn (Qnum a)) else num (a / b)
  | Fin _, _ => Fin 0
  | _, Fin b => signed_inf (sgn x * (if Qeq_bool b 0 then 1 else Z.sgn (Qnum b)))
  | _, _ => NaN
  end.

(** [x < y]; false as soon as one side is [NaN]. *)
Definition ltb (x y : number) : bool :=
  match x, y with
  | NaN, _ | _, NaN => false
  | Fin a, Fin b => negb (Qle_bool b a)
  | NegInf, NegInf => false
  | NegInf, _ => true
  | _, NegInf => false
  | PosInf, _ => false
  | Fin _, PosInf => true
  end.

(** [x <= y]. *)
Definition leb (x y : number) : bool :=
  match x, y with
  | NaN, _ | _, NaN => false
  | Fin a, Fin b => Qle_bool a b
  | NegInf, _ => true
  | _, PosInf => true
  | _, _ => false
  end.

Definition gtb (x y : number) : bool := ltb y x.
Definition geb (x y : number) : bool := leb y x.

(** A value that may be [undefined], read where a number is expected. *)
Definition ToNumber (o : option number) : number :=
  match o with
  | Some x => x
  | None => NaN
  end.

(** [String(n)] for a non-negative integer count. *)
Definition string_of_nat (n : nat) : string :=
  NilZero.string_of_uint (Nat.to_uint n).

(** [x.toFixed(0)]: the nearest integer, a tie going away from zero,
    written in decimal (below [1e21], where JS switches notation). *)
Definition toFixed0 (x : number) : string :=
  match x with
  | NaN => "NaN"
  | PosInf => "Infinity"
  | NegInf => "-Infinity"
  | Fin q =>
      let n := Qfloor (Qabs q + (1 # 2)) in
      let digits := NilZero.string_of_uint (N.to_uint (Z.to_N n)) in
      if Qle_bool 0 q then digits else String.append "-" digits
  end.

(** The IEEE double nearest to a rational, a tie going to the even
    mantissa: what [JSON.parse] and the compiler make of a numeric literal.
    Beyond the range of doubles the result is an infinity, and zero below
    the smallest subnormal. *)
Definition nearest (q : Q) : float :=
  match Qnum q with
  | Z0 => 0%float
  | Zpos n =>
      SF2Prim (SFdiv prec emax (S754_finite false n 0) (S754_finite false (Qden q) 0))
  | Zneg n =>
      SF2Prim (SFdiv prec emax (S754_finite true n 0) (S754_finite false (Qden q) 0))
  end.

Definition binary64 (x : number) : float :=
  match x with
  | NaN => nan
  | PosInf => infinity
  | NegInf => neg_infinity
  | Fin q => nearest q
  end.

(** A finite number between two rational bounds. *)
Definition within (lo hi : Q) (x : number) : Prop :=
  match x with
  | Fin q => (lo <= q)%Q /\ (q <= hi)%Q
  | _ => False
  end.

Declare Scope js_scope.
Delimit Scope js_scope with js.
Bind Scope js_scope with number.
Infix "+" := add : js_scope.
Infix "-" := sub : js_scope.
Infix "*" := mul : js_scope.
Infix "/" := div : js_scope.
Infix "<?" := ltb : js_scope.
Infix "<=?" := leb : js_scope.
Infix ">?" := gtb : js_scope.
Infix ">=?" := geb : js_scope.

End JS.

Export JS (number, NaN, PosInf, NegInf, Fin, num).

(** The [Math] object. *)
Module Math.
Import JS.

Definition max (x y : number) : number :=
  match x, y with
  | NaN, _ | _, NaN => NaN
  | _, _ => if ltb x y then y else x
  end.

Definition min (x y : number) : number :=
  match x, y with
  | NaN, _ | _, NaN => NaN
  | _, _ => if ltb y x then y else x
  end.

Definition floor (x : number) : number :=
  match x with
  | Fin q => of_Z (Qfloor q)
  | _ => x
  end.

Definition ceil (x : number) : number :=
  match x with
  | Fin q => of_Z (Qceiling q)
  | _ => x
  end.

(** Nearest integer, a tie going up. *)
Definition round (x : number) : number :=
  match x with
  | Fin q => of_Z (Qfloor (q + (1 # 2)))
  | _ => x
  end.

(** The root of [n/d] is [sqrt (n*d) / d], taken with [Z.sqrt] after
    scaling by [4^64]: exact on squares of rationals (in particular at 0),
    truncated otherwise. *)
Definition Qsqrt (q : Q) : Q :=
  let d := Zpos (Qden q) in
  Z.sqrt (Qnum q * d * 4 ^ 64) # Z.to_pos (d * 2 ^ 64).

Definition sqrt (x : number) : number :=
  match x with
  | NaN | NegInf => NaN
  | PosInf => PosInf
  | Fin q => if Qle_bool 0 q then num (Qsqrt q) else NaN
  end.

(** [Math.pow(x, n)] for a literal natural exponent. *)
Fixpoint pow (x : number) (n : nat) : number :=
  match n with
  | O => of_Z 1
  | S n' => mul x (pow x n')
  end.

End Math.

(** * The ambient runtime of one call

    [now] is what [new Date()] and [Date.now()] read, [randomUUID k] is the
    value of the [k]-th call of [crypto.randomUUID()] made during the call
    and [random k] the value of its [k]-th call of [Math.random()]. *)

Record Runtime : Type := {
  now : Z;
  randomUUID : nat -> string;
  random : nat -> number
}.

(** * JS [Map] with string keys: insertion-ordered, [set] updates in place *)

Module JsMap.

Section Ops.
Context {V : Type}.

Fixpoint get (m : list (string * V)) (k : string) : option V :=
  match m with
  | [] => None
  | (k', v) :: rest => if String.eqb k' k then Some v else get rest k
  end.

Fixpoint set (m : list (string * V)) (k : string) (v : V) : list (string * V) :=
  match m with
  | [] => [(k, v)]
  | (k', v') :: rest =>
      if String.eqb k' k then (k', v) :: rest else (k', v') :: set rest k v
  end.

Definition keys (m : list (string * V)) : list string := List.map fst m.
Definition values (m : list (string * V)) : list V := List.map snd m.
Definition size (m : list (string * V)) : nat := List.length m.

End Ops.

End JsMap.

(** [x || d] on numbers: [0] and [NaN] are falsy. *)
Definition number_or (x d : number) : number :=
  match x with
  | NaN => d
  | Fin q => if Qeq_bool q 0 then d else x
  | _ => x
  end.

Inductive RiskLevel : Type := LOW | MEDIUM | HIGH.

(** * QEM: [dashboard/src/modules/qem/QuestionEntropyMonitor.tsx] *)

Module QEM.
Import JS.

Module Question.
Record t : Type := mk {
  id : string;
  domain : string;
  questionText : string;
  askedBy : string;
  askedAt : Z;
  answered : bool;
  answerDate : option Z;
  complexity : number;
  sensitivity : number
}.
End Question.

(** The argument of [registerQuestion]: a question without its id; the
    method supplies defaults for a missing [askedAt] and for falsy
    [answered], [complexity] and [sensitivity]. *)
Module QuestionInput.
Record t : Type := mk {
  domain : string;
  questionText : string;
  askedBy : string;
  askedAt : option Z;
  answered : bool;
  answerDate : option Z;
  complexity : number;
  sensitivity : number
}.
End QuestionInput.

Inductive Trend : Type := RISING | STABLE | DROPPING.

Module EntropyMetrics.
Record t : Type := mk {
  domain : string;
  historicalFrequency : number;
  currentFrequency : number;
  gapScore : number;
  trend : Trend;
  lastCalculated : Z
}.
End EntropyMetrics.

Module EntropyAlert.
Record t : Type := mk {
  id : string;
  domain : string;
  gapScore : number;
  threshold : number;
  detectedAt : Z;
  missingQuestions : list string;
  riskLevel : RiskLevel
}.
End EntropyAlert.

(** The private fields of the class. *)
Record State : Type := {
  questionRegistry : list (string * list Question.t);
  entropyAlerts : list EntropyAlert.t;
  suppressedQuestions : list (string * list string)
}.

Definition initial : State :=
  {| questionRegistry := []; entropyAlerts := []; suppressedQuestions := [] |}.

Definition calculateEntropy (st : State) (rt : Runtime) (domain : string)
  : EntropyMetrics.t :=
  let questions := default [] (JsMap.get (questionRegistry st) domain) in
  if (List.length questions <? 20)%nat then
    EntropyMetrics.mk domain (of_Z 0) (of_Z 0) (of_Z 0) STABLE (now rt)
  else
    let twelveWeeksAgo := now rt - 12 * 7 * 24 * 60 * 60 * 1000 in
    let fourWeeksAgo := now rt - 4 * 7 * 24 * 60 * 60 * 1000 in
    let historicalQuestions :=
      List.filter (fun q => (Question.askedAt q <? fourWeeksAgo)
                            && (twelveWeeksAgo <=? Question.askedAt q)) questions in
    let recentQuestions :=
      List.filter (fun q => fourWeeksAgo <=? Question.askedAt q) questions in
    let historicalFrequency := (of_nat (List.length historicalQuestions) / of_Z 12)%js in
    let currentFrequency := (of_nat (List.length recentQuestions) / of_Z 4)%js in
    let gapScore :=
      if (historicalFrequency >? of_Z 0)%js
      then ((historicalFrequency - currentFrequency) / historicalFrequency * of_Z 100)%js
      else of_Z 0 in
    let trend :=
      if (gapScore >? of_Z 10)%js then DROPPING
      else if (gapScore <? of_Z (-10))%js then RISING
      else STABLE in
    EntropyMetrics.mk domain historicalFrequency currentFrequency gapScore trend (now rt).

(** The template table is an object literal indexed by the domain; only its
    own three keys are modelled.  For a domain that names a member the
    object inherits ([toString], [constructor], ...) the source yields that
    member instead of a list of questions; the fallback list given here for
    such a domain is not what the source stores. *)
Definition generateMissingQuestions (domain : string) : list string :=
  if String.eqb domain "vendor-oversight" then
    [ "Who audits the auditors?";
      "What conflicts of interest exist in vendor selection?";
      "How are vendor performance metrics independently verified?";
      "What happens when vendors fail to meet SLAs?" ]%string
  else if String.eqb domain "financial-controls" then
    [ "Who has override authority for financial controls?";
      "How often are override logs reviewed?";
      "What triggers an independent financial audit?";
      "Who benefits from budget reallocations?" ]%string
  else if String.eqb domain "policy-compliance" then
    [ "Who determines when policies can be waived?";
      "How are policy exceptions documented?";
      "What percentage of operations have policy waivers?";
      "Who reviews waiver justifications?" ]%string
  else
    [ "What questions should we be asking about this domain?";
      "Who benefits from not asking certain questions?";
      "What assumptions are we not challenging?" ]%string.

(** [k] is the number of UUIDs already drawn in the current call. *)
Definition triggerEntropyAlert (st : State) (rt : Runtime) (k : nat)
    (domain : string) (metrics : EntropyMetrics.t) : State :=
  let missingQuestions := generateMissingQuestions domain in
  let alert :=
    EntropyAlert.mk (randomUUID rt k) domain (EntropyMetrics.gapScore metrics)
      (of_Z 50) (now rt) missingQuestions
      (if (EntropyMetrics.gapScore metrics >? of_Z 75)%js then HIGH
       else if (EntropyMetrics.gapScore metrics >? of_Z 60)%js then MEDIUM
       else LOW) in
  {| questionRegistry := questionRegistry st;
     entropyAlerts := entropyAlerts st ++ [alert];
     suppressedQuestions := JsMap.set (suppressedQuestions st) domain missingQuestions |}.

Definition checkEntropy (st : State) (rt : Runtime) (k : nat) (domain : string) : State :=
  let metrics := calculateEntropy st rt domain in
  if (EntropyMetrics.gapScore metrics >? of_Z 50)%js
  then triggerEntropyAlert st rt k domain metrics
  else st.

Definition registerQuestion (st : State) (rt : Runtime) (question : QuestionInput.t)
  : State :=
  let id := randomUUID rt 0 in
  let newQuestion :=
    Question.mk id
      (QuestionInput.domain question)
      (QuestionInput.questionText question)
      (QuestionInput.askedBy question)
      (default (now rt) (QuestionInput.askedAt question))
      (QuestionInput.answered question || false)
      (QuestionInput.answerDate question)
      (number_or (QuestionInput.complexity question) (of_Z 1))
      (number_or (QuestionInput.sensitivity question) (of_Z 1)) in
  let domainQuestions :=
    default [] (JsMap.get (questionRegistry st) (QuestionInput.domain question))
      ++ [newQuestion] in
  let st1 :=
    {| questionRegistry :=
         JsMap.set (questionRegistry st) (QuestionInput.domain question) domainQuestions;
       entropyAlerts := entropyAlerts st;
       suppressedQuestions := suppressedQuestions st |} in
  if (List.length domainQuestions mod 10 =? 0)%nat
  then checkEntropy st1 rt 1 (QuestionInput.domain question)
  else st1.

Definition getEntropyAlerts (st : State) : list EntropyAlert.t := entropyAlerts st.

Definition getSuppressedQuestions (st : State) (domain : string) : list string :=
  default [] (JsMap.get (suppressedQuestions st) domain).

Definition calculateResilience (st : State) (rt : Runtime) : number :=
  let '(totalGapScore, domainCount) :=
    List.fold_left
      (fun acc domain =>
         let metrics := calculateEntropy st rt domain in
         ((fst acc + EntropyMetrics.gapScore metrics)%js, S (snd acc)))
      (JsMap.keys (questionRegistry st)) (of_Z 0, O) in
  if (domainCount =? 0)%nat then of_Z 100
  else
    let avgGapScore := (totalGapScore / of_nat domainCount)%js in
    Math.max (of_Z 0) (Math.round (of_Z 100 - avgGapScore)%js).

(** An alert as [triggerEntropyAlert] grades it: a finite gap above the
    threshold 50, and the level that goes with the gap. *)
Definition graded (alert : EntropyAlert.t) : Prop :=
  exists g,
    EntropyAlert.gapScore alert = Fin g
    /\ (50 < g)%Q /\ (g <= 100)%Q
    /\ EntropyAlert.threshold alert = of_Z 50
    /\ ((75 < g)%Q -> EntropyAlert.riskLevel alert = HIGH)
    /\ ((60 < g)%Q -> (g <= 75)%Q -> EntropyAlert.riskLevel alert = MEDIUM)
    /\ ((g <= 60)%Q -> EntropyAlert.riskLevel alert = LOW).

(** The states of the monitor: the initial one, then any sequence of
    registered questions. *)
Inductive reachable : State -> Prop :=
| reachable_initial : reachable initial
| reachable_register (st : State) (rt : Runtime) (question : QuestionInput.t) :
    reachable st -> reachable (registerQuestion st rt question).

End QEM.

(** * LOA: [dashboard/src/modules/loa/LaggedOutcomeAttribution.tsx] *)

Module LOA.
Import JS.

Module LaggedOutcome.
Record t : Type := mk {
  id : string;
  decisionId : string;
  decisionDate : Z;
  beneficiary : string;
  benefitRealizedDate : Z;
  lagDays : number;
  riskScore : number;
  detectedAt : Z;
  context : option string
}.
End LaggedOutcome.

(** The argument of [trackOutcome]: an outcome without [id], [lagDays],
    [riskScore] and [detectedAt]. *)
Module OutcomeInput.
Record t : Type := mk {
  decisionId : string;
  decisionDate : Z;
  beneficiary : string;
  benefitRealizedDate : Z;
  context : option string
}.
End OutcomeInput.

Module BeneficiaryPattern.
Record t : Type := mk {
  beneficiary : string;
  occurrences : number;
  avgLagDays : number;
  totalRiskScore : number;
  firstDetected : Z;
  lastDetected : Z
}.
End BeneficiaryPattern.

Module LagAlert.
Record t : Type := mk {
  id : string;
  pattern : string;
  riskScore : number;
  threshold : number;
  detectedAt : Z;
  affectedDecisions : list string;
  riskLevel : RiskLevel
}.
End LagAlert.

Record State : Type := {
  outcomes : list (string * LaggedOutcome.t);
  lagAlerts : list LagAlert.t;
  beneficiaryPatterns : list (string * BeneficiaryPattern.t)
}.

Definition initial : State :=
  {| outcomes := []; lagAlerts := []; beneficiaryPatterns := [] |}.

(** [Array.from(this.outcomes.values()).filter(o => o.beneficiary === b)] *)
Definition outcomesOf (st : State) (beneficiary : string) : list LaggedOutcome.t :=
  List.filter (fun o => String.eqb (LaggedOutcome.beneficiary o) beneficiary)
    (JsMap.values (outcomes st)).

Definition calculateConsistency (st : State) (beneficiary : string) : number :=
  let beneficiaryOutcomes := outcomesOf st beneficiary in
  if (List.length beneficiaryOutcomes <? 2)%nat then of_Z 0
  else
    let n := of_nat (List.length beneficiaryOutcomes) in
    let avgLag :=
      (List.fold_left (fun sum o => sum + LaggedOutcome.lagDays o)
         beneficiaryOutcomes (of_Z 0) / n)%js in
    let variance :=
      (List.fold_left
         (fun sum o => sum + Math.pow (LaggedOutcome.lagDays o - avgLag) 2)
         beneficiaryOutcomes (of_Z 0) / n)%js in
    let stdDev := Math.sqrt variance in
    Math.max (of_Z 0) (of_Z 1 - stdDev / avgLag)%js.

Definition calculateRiskScore (st : State) (lagDays : number) (beneficiary : string)
  : number :=
  let score := of_Z 0 in
  (* 1. Lag duration (max 4 points) *)
  let score :=
    if (lagDays >? of_Z 180)%js then (score + of_Z 4)%js
    else if (lagDays >? of_Z 90)%js then (score + of_Z 3)%js
    else if (lagDays >? of_Z 30)%js then (score + of_Z 2)%js
    else if (lagDays >? of_Z 7)%js then (score + of_Z 1)%js
    else score in
  (* 2. Beneficiary frequency (max 3 points) *)
  let pattern := JsMap.get (beneficiaryPatterns st) beneficiary in
  let score :=
    match pattern with
    | Some p =>
        if (BeneficiaryPattern.occurrences p >? of_Z 10)%js then (score + of_Z 3)%js
        else if (BeneficiaryPattern.occurrences p >? of_Z 5)%js then (score + of_Z 2)%js
        else if (BeneficiaryPattern.occurrences p >? of_Z 2)%js then (score + of_Z 1)%js
        else score
    | None => score
    end in
  (* 3. Pattern consistency (max 3 points) *)
  let score :=
    match pattern with
    | Some p =>
        if (BeneficiaryPattern.avgLagDays p >? of_Z 60)%js then
          let consistency := calculateConsistency st beneficiary in
          if (consistency >? num 0.8)%js then (score + of_Z 3)%js
          else if (consistency >? num 0.6)%js then (score + of_Z 2)%js
          else if (consistency >? num 0.4)%js then (score + of_Z 1)%js
          else score
        else score
    | None => score
    end in
  Math.min (of_Z 10) score.

Definition updateBeneficiaryPattern (st : State) (rt : Runtime)
    (beneficiary : string) (lagDays riskScore : number) : State :=
  let pattern :=
    match JsMap.get (beneficiaryPatterns st) beneficiary with
    | Some p => p
    | None =>
        BeneficiaryPattern.mk beneficiary (of_Z 0) (of_Z 0) (of_Z 0) (now rt) (now rt)
    end in
  let occurrences := (BeneficiaryPattern.occurrences pattern + of_Z 1)%js in
  let avgLagDays :=
    ((BeneficiaryPattern.avgLagDays pattern * (occurrences - of_Z 1) + lagDays)
     / occurrences)%js in
  let totalRiskScore := (BeneficiaryPattern.totalRiskScore pattern + riskScore)%js in
  let pattern' :=
    BeneficiaryPattern.mk (BeneficiaryPattern.beneficiary pattern)
      occurrences avgLagDays totalRiskScore
      (BeneficiaryPattern.firstDetected pattern) (now rt) in
  {| outcomes := outcomes st;
     lagAlerts := lagAlerts st;
     beneficiaryPatterns := JsMap.set (beneficiaryPatterns st) beneficiary pattern' |}.

(** The text of an alert, which is also its deduplication key. *)
Definition patternText (pattern : BeneficiaryPattern.t) (affectedDecisions : list string)
  : string :=
  (BeneficiaryPattern.beneficiary pattern +:+ " - "
   +:+ string_of_nat (List.length affectedDecisions) +:+ " decisions with avg "
   +:+ toFixed0 (BeneficiaryPattern.avgLagDays pattern) +:+ "-day lag")%string.

(** [k] is the number of UUIDs already drawn in the current call.  The
    source reads the clock for the date of the new alert and again in the
    test, each time it compares a date; here every read gives [now rt].
    What is proved about the test is stated on the clock of the test and
    does not use the date given to the new alert. *)
Definition triggerLagAlert (st : State) (rt : Runtime) (k : nat)
    (pattern : BeneficiaryPattern.t) (affectedDecisions : list string) : State :=
  let avgRisk :=
    (BeneficiaryPattern.totalRiskScore pattern / BeneficiaryPattern.occurrences pattern)%js in
  let alert :=
    LagAlert.mk (randomUUID rt k) (patternText pattern affectedDecisions)
      avgRisk (of_Z 7) (now rt) affectedDecisions
      (if (avgRisk >? num 8.5)%js then HIGH
       else if (avgRisk >? num 7.5)%js then MEDIUM
       else LOW) in
  (* Only add if not already alerted *)
  let exists_ :=
    List.existsb
      (fun a => String.eqb (LagAlert.pattern a) (LagAlert.pattern alert)
                && (now rt - 7 * 24 * 60 * 60 * 1000 <? LagAlert.detectedAt a))
      (lagAlerts st) in
  if negb exists_ then
    {| outcomes := outcomes st;
       lagAlerts := lagAlerts st ++ [alert];
       beneficiaryPatterns := beneficiaryPatterns st |}
  else st.

Definition isHighRisk (p : BeneficiaryPattern.t) : bool :=
  (BeneficiaryPattern.totalRiskScore p / BeneficiaryPattern.occurrences p >? of_Z 7)%js.

Definition affectedDecisionsOf (st : State) (p : BeneficiaryPattern.t) : list string :=
  List.map LaggedOutcome.decisionId (outcomesOf st (BeneficiaryPattern.beneficiary p)).

(** One turn of the [forEach] over the high-risk patterns; the accumulator
    is the state and the number of UUIDs drawn so far. *)
Definition checkOnePattern (rt : Runtime) (acc : State * nat)
    (pattern : BeneficiaryPattern.t) : State * nat :=
  let affectedDecisions := affectedDecisionsOf (fst acc) pattern in
  if (3 <=? List.length affectedDecisions)%nat
  then (triggerLagAlert (fst acc) rt (snd acc) pattern affectedDecisions, S (snd acc))
  else acc.

Definition checkLagPatterns (st : State) (rt : Runtime) (k : nat) : State :=
  let highRiskPatterns :=
    List.filter isHighRisk (JsMap.values (beneficiaryPatterns st)) in
  fst (List.fold_left (checkOnePattern rt) highRiskPatterns (st, k)).

Definition trackOutcome (st : State) (rt : Runtime) (outcome : OutcomeInput.t) : State :=
  let id := randomUUID rt 0 in
  let lagDays :=
    Math.floor
      (of_Z (OutcomeInput.benefitRealizedDate outcome - OutcomeInput.decisionDate outcome)
       / of_Z (1000 * 60 * 60 * 24))%js in
  let riskScore := calculateRiskScore st lagDays (OutcomeInput.beneficiary outcome) in
  let newOutcome :=
    LaggedOutcome.mk id
      (OutcomeInput.decisionId outcome)
      (OutcomeInput.decisionDate outcome)
      (OutcomeInput.beneficiary outcome)
      (OutcomeInput.benefitRealizedDate outcome)
      lagDays riskScore (now rt)
      (OutcomeInput.context outcome) in
  let st1 :=
    {| outcomes := JsMap.set (outcomes st) id newOutcome;
       lagAlerts := lagAlerts st;
       beneficiaryPatterns := beneficiaryPatterns st |} in
  (* Update beneficiary patterns *)
  let st2 := updateBeneficiaryPattern st1 rt (OutcomeInput.beneficiary outcome)
               lagDays riskScore in
  (* Check for suspicious patterns *)
  checkLagPatterns st2 rt 1.

Definition getLagAlerts (st : State) : list LagAlert.t := lagAlerts st.

Definition calculateResilience (st : State) : number :=
  let highRiskOutcomes :=
    List.length
      (List.filter (fun o => (LaggedOutcome.riskScore o >? of_Z 7)%js)
         (JsMap.values (outcomes st))) in
  let totalOutcomes := JsMap.size (outcomes st) in
  if (totalOutcomes =? 0)%nat then of_Z 100
  else
    let highRiskPercentage :=
      (of_nat highRiskOutcomes / of_nat totalOutcomes * of_Z 100)%js in
    Math.max (of_Z 0) (Math.round (of_Z 100 - highRiskPercentage)%js).

(** Some alert of the state carries the current text of [p]. *)
Definition covered (st : State) (p : BeneficiaryPattern.t) : Prop :=
  exists a,
    In a (lagAlerts st)
    /\ LagAlert.pattern a = patternText p (affectedDecisionsOf st p).

(** The most [calculateRiskScore] can give to an outcome of a beneficiary
    with [k] earlier outcomes: 4 points for the lag; 1, 2 or 3 points for
    the frequency once the pattern counts more than 2, 5 or 10 occurrences;
    3 points for the consistency, which needs two stored outcomes. *)
Definition max_score (k : nat) : Z :=
  if (k <? 2)%nat then 4
  else if (k <? 3)%nat then 7
  else if (k <? 6)%nat then 8
  else if (k <? 11)%nat then 9
  else 10.

(** The most the first [k] outcomes of a beneficiary can total. *)
Fixpoint cumulated (k : nat) : Z :=
  match k with
  | O => 0
  | S k' => cumulated k' + max_score k'
  end.

(** The bookkeeping of the patterns: a pattern counts [k >= 1] occurrences,
    totals a whole risk score within [cumulated k] and has at most [k]
    stored outcomes; a beneficiary without pattern has no stored outcome. *)
Definition accounted (st : State) : Prop :=
  forall beneficiary,
    match JsMap.get (beneficiaryPatterns st) beneficiary with
    | Some p =>
        exists (k : nat) (s : Z),
          (1 <= k)%nat
          /\ BeneficiaryPattern.occurrences p = of_nat k
          /\ BeneficiaryPattern.totalRiskScore p = of_Z s
          /\ 0 <= s <= cumulated k
          /\ (List.length (outcomesOf st beneficiary) <= k)%nat
    | None => outcomesOf st beneficiary = []
    end.

(** The states of the layer: the initial one, then any sequence of
    tracked outcomes. *)
Inductive reachable : State -> Prop :=
| reachable_initial : reachable initial
| reachable_track (st : State) (rt : Runtime) (outcome : OutcomeInput.t) :
    reachable st -> reachable (trackOutcome st rt outcome).

End LOA.

(** * OLI: the [ObserverLoadIndex] class *)

Module OLI.
Import JS.

Inductive FatigueRisk : Type := low | medium | high.

Definition FatigueRisk_eqb (a b : FatigueRisk) : bool :=
  match a, b with
  | low, low | medium, medium | high, high => true
  | _, _ => false
  end.

Module ObserverMetrics.
Record t : Type := mk {
  observerId : string;
  auditsReviewed : number;
  correctionRate : number;
  contradictionExposure : number;
  fatigueRisk : FatigueRisk;
  lastActivity : Z
}.
End ObserverMetrics.

Inductive Action : Type := WARNING | MANDATORY_COOLDOWN.

(** The alert's [metrics] field is a reference to the observer's record in
    [observers]; it is read through [observerId]. *)
Module LoadAlert.
Record t : Type := mk {
  id : string;
  observerId : string;
  fatigueScore : number;
  triggeredAt : Z;
  action : Action
}.
End LoadAlert.

Module CooldownEntry.
Record t : Type := mk {
  observerId : string;
  startTime : Z;
  duration : number;
  reason : string
}.
End CooldownEntry.

Module ReviewTask.
Record t : Type := mk {
  id : string;
  observerId : string;
  taskType : string;
  completedAt : Z;
  correctionsRequired : number;
  contradictionsFound : number
}.
End ReviewTask.

Record State : Type := {
  observers : list (string * ObserverMetrics.t);
  loadAlerts : list LoadAlert.t;
  cooldownQueue : list CooldownEntry.t;
  lastBreaks : list (string * Z)
}.

Definition initial : State :=
  {| observers := []; loadAlerts := []; cooldownQueue := []; lastBreaks := [] |}.

Definition initializeObserver (rt : Runtime) (observerId : string) : ObserverMetrics.t :=
  ObserverMetrics.mk observerId (of_Z 0) (of_Z 0) (of_Z 0) low (now rt).

(** Placeholders of the source: one [Math.random()] draw each. *)
Definition calculateCorrectionRate (draw : number) (observerId : string) : number :=
  (draw * num 0.6)%js.

Definition calculateContradictionExposure (draw : number) (observerId : string) : number :=
  (draw * num 0.8)%js.

Definition getHoursSinceLastBreak (st : State) (rt : Runtime) (observerId : string)
  : number :=
  match JsMap.get (lastBreaks st) observerId with
  | None => of_Z 72
  | Some lastBreak => (of_Z (now rt - lastBreak) / of_Z (1000 * 60 * 60))%js
  end.

Definition calculateFatigueScore (st : State) (rt : Runtime) (metrics : ObserverMetrics.t)
  : number :=
  let score := of_Z 0 in
  (* 1. Audit volume (max 3 points) *)
  let score :=
    if (ObserverMetrics.auditsReviewed metrics >? of_Z 20)%js then (score + of_Z 3)%js
    else if (ObserverMetrics.auditsReviewed metrics >? of_Z 10)%js then (score + of_Z 2)%js
    else if (ObserverMetrics.auditsReviewed metrics >? of_Z 5)%js then (score + of_Z 1)%js
    else score in
  (* 2. Correction rate stress (max 3 points) *)
  let score :=
    if (ObserverMetrics.correctionRate metrics >? num 0.5)%js then (score + of_Z 3)%js
    else if (ObserverMetrics.correctionRate metrics >? num 0.25)%js then (score + of_Z 2)%js
    else if (ObserverMetrics.correctionRate metrics >? num 0.1)%js then (score + of_Z 1)%js
    else score in
  (* 3. Contradiction exposure (max 2 points) *)
  let score :=
    if (ObserverMetrics.contradictionExposure metrics >? num 0.7)%js then (score + of_Z 2)%js
    else if (ObserverMetrics.contradictionExposure metrics >? num 0.4)%js then (score + of_Z 1)%js
    else score in
  (* 4. Time since last break (max 2 points) *)
  let hoursSinceBreak := getHoursSinceLastBreak st rt (ObserverMetrics.observerId metrics) in
  let score :=
    if (hoursSinceBreak >? of_Z 48)%js then (score + of_Z 2)%js
    else if (hoursSinceBreak >? of_Z 24)%js then (score + of_Z 1)%js
    else score in
  Math.min (of_Z 10) score.

Definition calculateFatigueRisk (st : State) (rt : Runtime) (metrics : ObserverMetrics.t)
  : FatigueRisk :=
  let score := calculateFatigueScore st rt metrics in
  if (score >=? of_Z 7)%js then high
  else if (score >=? of_Z 4)%js then medium
  else low.

Definition calculateCooldownDuration (st : State) (rt : Runtime)
    (metrics : ObserverMetrics.t) : number :=
  let score := calculateFatigueScore st rt metrics in
  if (score >=? of_Z 9)%js then of_Z 72
  else if (score >=? of_Z 7)%js then of_Z 48
  else of_Z 24.

(** [blockObserverAssignments] only writes to the console. *)
Definition triggerFatigueAlert (st : State) (rt : Runtime) (k : nat)
    (observerId : string) (metrics : ObserverMetrics.t) : State :=
  let fatigueScore := calculateFatigueScore st rt metrics in
  let alert :=
    LoadAlert.mk (randomUUID rt k) observerId fatigueScore (now rt) MANDATORY_COOLDOWN in
  let duration := calculateCooldownDuration st rt metrics in
  {| observers := observers st;
     loadAlerts := loadAlerts st ++ [alert];
     cooldownQueue :=
       cooldownQueue st
         ++ [CooldownEntry.mk observerId (now rt) duration "high_fatigue_risk"];
     lastBreaks := lastBreaks st |}.

(** The metrics of the observer after the update, before the fatigue check. *)
Definition updatedMetrics (st : State) (rt : Runtime) (observerId : string)
  : ObserverMetrics.t :=
  let metrics :=
    match JsMap.get (observers st) observerId with
    | Some m => m
    | None => initializeObserver rt observerId
    end in
  let metrics1 :=
    ObserverMetrics.mk (ObserverMetrics.observerId metrics)
      (ObserverMetrics.auditsReviewed metrics + of_Z 1)%js
      (calculateCorrectionRate (random rt 0) observerId)
      (calculateContradictionExposure (random rt 1) observerId)
      (ObserverMetrics.fatigueRisk metrics)
      (now rt) in
  ObserverMetrics.mk (ObserverMetrics.observerId metrics1)
    (ObserverMetrics.auditsReviewed metrics1)
    (ObserverMetrics.correctionRate metrics1)
    (ObserverMetrics.contradictionExposure metrics1)
    (calculateFatigueRisk st rt metrics1)
    (ObserverMetrics.lastActivity metrics1).

(** The [task] argument is not read by the source. *)
Definition updateObserverLoad (st : State) (rt : Runtime) (observerId : string)
    (task : ReviewTask.t) : State :=
  let metrics := updatedMetrics st rt observerId in
  let st1 :=
    {| observers := JsMap.set (observers st) observerId metrics;
       loadAlerts := loadAlerts st;
       cooldownQueue := cooldownQueue st;
       lastBreaks := lastBreaks st |} in
  if FatigueRisk_eqb (ObserverMetrics.fatigueRisk metrics) high
  then triggerFatigueAlert st1 rt 0 observerId metrics
  else st1.

Definition getLoadAlerts (st : State) : list LoadAlert.t := loadAlerts st.
Definition getCooldownQueue (st : State) : list CooldownEntry.t := cooldownQueue st.

Definition calculateResilience (st : State) : number :=
  let highRiskCount :=
    List.length
      (List.filter (fun m => FatigueRisk_eqb (ObserverMetrics.fatigueRisk m) high)
         (JsMap.values (observers st))) in
  let totalObservers := JsMap.size (observers st) in
  if (totalObservers =? 0)%nat then of_Z 100
  else
    let highRiskPercentage :=
      (of_nat highRiskCount / of_nat totalObservers * of_Z 100)%js in
    Math.max (of_Z 0) (Math.round (of_Z 100 - highRiskPercentage * of_Z 2)%js).

(** The states of the index: the initial one, then any sequence of
    updates. *)
Inductive reachable : State -> Prop :=
| reachable_initial : reachable initial
| reachable_update (st : State) (rt : Runtime) (observerId : string) (task : ReviewTask.t) :
    reachable st -> reachable (updateObserverLoad st rt observerId task).

End OLI.

(** * Strings: the fragments of [String.prototype] the sources use

    Text is ASCII; a byte above 127 is left as it is by [toLowerCase] and is
    a non-word character for [\W]. *)

Module Str.

Definition is_upper (c : ascii) : bool :=
  let n := nat_of_ascii c in ((65 <=? n) && (n <=? 90))%nat.

Definition lower_char (c : ascii) : ascii :=
  if is_upper c then ascii_of_nat (nat_of_ascii c + 32) else c.

Fixpoint toLowerCase (s : string) : string :=
  match s with
  | EmptyString => EmptyString
  | String c rest => String (lower_char c) (toLowerCase rest)
  end.

(** [\w]: a letter, a digit or the underscore. *)
Definition is_word_char (c : ascii) : bool :=
  let n := nat_of_ascii c in
  ((48 <=? n) && (n <=? 57) || (65 <=? n) && (n <=? 90)
   || (97 <=? n) && (n <=? 122) || (n =? 95))%nat.

(** [s.split(/\W+/)], scanning left to right: [cur] is the piece being
    read (reversed) and [in_sep] tells that the previous character was a
    separator.  Every maximal run of separators ends one piece, so a text
    that starts or ends with a separator yields an empty first or last
    piece, and the empty text yields one empty piece. *)
Fixpoint split_loop (s : string) (cur : list ascii) (in_sep : bool) : list string :=
  match s with
  | EmptyString => [string_of_list_ascii (List.rev cur)]
  | String c rest =>
      if is_word_char c then split_loop rest (c :: cur) false
      else if in_sep then split_loop rest cur true
      else string_of_list_ascii (List.rev cur) :: split_loop rest [] true
  end.

Definition split_nonword (s : string) : list string := split_loop s [] false.

(** [xs.includes(x)] on an array of strings. *)
Definition includes (xs : list string) (x : string) : bool :=
  List.existsb (String.eqb x) xs.

(** [new Set(xs)] as the list of distinct elements in first-occurrence
    order; [size] is its length. *)
Definition to_set (xs : list string) : list string :=
  List.fold_left (fun acc x => if includes acc x then acc else acc ++ [x]) xs [].

(** [xs.slice(-n)]: the last [n] elements. *)
Definition last_n {A : Type} (n : nat) (xs : list A) : list A :=
  List.skipn (List.length xs - n) xs.

End Str.

(** * PDS: the [PurposeDriftSentinel] class *)

Module PDS.
Import JS.

Module SystemPurpose.
Record t : Type := mk {
  id : string;
  originalIntent : string;
  declaredAt : Z;
  lastRecommitment : Z;
  domain : string
}.
End SystemPurpose.

(** The argument of [registerPurpose]. *)
Module PurposeInput.
Record t : Type := mk {
  originalIntent : string;
  declaredAt : option Z;
  domain : string
}.
End PurposeInput.

Module UsageEvent.
Record t : Type := mk {
  id : string;
  purposeId : string;
  eventType : string;
  description : string;
  occurredAt : Z;
  semanticVector : option (list number)
}.
End UsageEvent.

(** The argument of [trackUsage]. *)
Module EventInput.
Record t : Type := mk {
  eventType : string;
  description : string;
  occurredAt : option Z;
  semanticVector : option (list number)
}.
End EventInput.

Inductive Trend : Type := STABLE | DRIFTING | CRITICAL.

Module DriftMetrics.
Record t : Type := mk {
  purposeId : string;
  semanticDivergence : number;
  usagePatternShift : number;
  overallDrift : number;
  trend : Trend;
  lastCalculated : Z
}.
End DriftMetrics.

Inductive Action : Type := PAUSE_SYSTEM | REQUIRE_RECOMMITMENT.

Module DriftAlert.
Record t : Type := mk {
  id : string;
  purposeId : string;
  divergence : number;
  threshold : number;
  detectedAt : Z;
  action : Action;
  deadline : option Z
}.
End DriftAlert.

Record State : Type := {
  purposes : list (string * SystemPurpose.t);
  usageEvents : list (string * list UsageEvent.t);
  driftAlerts : list DriftAlert.t;
  systemPaused : bool
}.

Definition initial : State :=
  {| purposes := []; usageEvents := []; driftAlerts := []; systemPaused := false |}.

Definition registerPurpose (st : State) (rt : Runtime) (purpose : PurposeInput.t)
  : State * string :=
  let id := randomUUID rt 0 in
  let newPurpose :=
    SystemPurpose.mk id
      (PurposeInput.originalIntent purpose)
      (default (now rt) (PurposeInput.declaredAt purpose))
      (now rt)
      (PurposeInput.domain purpose) in
  ({| purposes := JsMap.set (purposes st) id newPurpose;
      usageEvents := JsMap.set (usageEvents st) id [];
      driftAlerts := driftAlerts st;
      systemPaused := systemPaused st |}, id).

Definition extractKeywords (text : string) : list string :=
  List.filter (fun word => (3 <? String.length word)%nat)
    (Str.split_nonword (Str.toLowerCase text)).

Definition calculateSemanticDivergence (purpose : SystemPurpose.t)
    (events : list UsageEvent.t) : number :=
  let intentKeywords := extractKeywords (SystemPurpose.originalIntent purpose) in
  let recentEvents := Str.last_n 20 events in
  let matchScore :=
    List.fold_left
      (fun matchScore event =>
         let eventKeywords := extractKeywords (UsageEvent.description event) in
         let overlap :=
           List.length (List.filter (fun k => Str.includes eventKeywords k) intentKeywords) in
         (matchScore + of_nat overlap / of_nat (List.length intentKeywords))%js)
      recentEvents (of_Z 0) in
  let avgMatchScore := (matchScore / of_nat (List.length recentEvents))%js in
  (of_Z 1 - avgMatchScore)%js.

Definition calculateUsagePatternShift (events : list UsageEvent.t) : number :=
  if (List.length events <? 20)%nat then of_Z 0
  else
    let earlyEvents := List.firstn 10 events in
    let recentEvents := Str.last_n 10 events in
    let earlyTypes := Str.to_set (List.map UsageEvent.eventType earlyEvents) in
    let recentTypes := Str.to_set (List.map UsageEvent.eventType recentEvents) in
    let intersection :=
      Str.to_set (List.filter (fun t => Str.includes recentTypes t) earlyTypes) in
    let union := Str.to_set (earlyTypes ++ recentTypes) in
    let jaccardSimilarity :=
      (of_nat (List.length intersection) / of_nat (List.length union))%js in
    (of_Z 1 - jaccardSimilarity)%js.

Definition calculateDrift (st : State) (rt : Runtime) (purposeId : string)
  : DriftMetrics.t :=
  let purpose := JsMap.get (purposes st) purposeId in
  let events := default [] (JsMap.get (usageEvents st) purposeId) in
  match purpose with
  | None => DriftMetrics.mk purposeId (of_Z 0) (of_Z 0) (of_Z 0) STABLE (now rt)
  | Some purpose =>
      if (List.length events <? 10)%nat then
        DriftMetrics.mk purposeId (of_Z 0) (of_Z 0) (of_Z 0) STABLE (now rt)
      else
        let semanticDivergence := calculateSemanticDivergence purpose events in
        let usagePatternShift := calculateUsagePatternShift events in
        let overallDrift :=
          (semanticDivergence * num 0.7 + usagePatternShift * num 0.3)%js in
        let trend :=
          if (overallDrift >? num 0.4)%js then CRITICAL
          else if (overallDrift >? num 0.2)%js then DRIFTING
          else STABLE in
        DriftMetrics.mk purposeId semanticDivergence usagePatternShift overallDrift
          trend (now rt)
  end.

Definition pauseSystem (st : State) : State :=
  {| purposes := purposes st;
     usageEvents := usageEvents st;
     driftAlerts := driftAlerts st;
     systemPaused := true |}.

Definition Action_eqb (a b : Action) : bool :=
  match a, b with
  | PAUSE_SYSTEM, PAUSE_SYSTEM | REQUIRE_RECOMMITMENT, REQUIRE_RECOMMITMENT => true
  | _, _ => false
  end.

(** [k] is the number of UUIDs already drawn in the current call. *)
Definition triggerDriftAlert (st : State) (rt : Runtime) (k : nat)
    (purposeId : string) (metrics : DriftMetrics.t) : State :=
  let alert :=
    DriftAlert.mk (randomUUID rt k) purposeId (DriftMetrics.overallDrift metrics)
      (num 0.3) (now rt)
      (if (DriftMetrics.overallDrift metrics >? num 0.5)%js
       then PAUSE_SYSTEM else REQUIRE_RECOMMITMENT)
      (Some (now rt + 7 * 24 * 60 * 60 * 1000)) in
  let st1 :=
    {| purposes := purposes st;
       usageEvents := usageEvents st;
       driftAlerts := driftAlerts st ++ [alert];
       systemPaused := systemPaused st |} in
  if Action_eqb (DriftAlert.action alert) PAUSE_SYSTEM then pauseSystem st1 else st1.

Definition checkDrift (st : State) (rt : Runtime) (k : nat) (purposeId : string) : State :=
  let metrics := calculateDrift st rt purposeId in
  if (DriftMetrics.overallDrift metrics >? num 0.3)%js
  then triggerDriftAlert st rt k purposeId metrics
  else st.

Definition trackUsage (st : State) (rt : Runtime) (purposeId : string)
    (event : EventInput.t) : State :=
  let id := randomUUID rt 0 in
  let newEvent :=
    UsageEvent.mk id purposeId
      (EventInput.eventType event)
      (EventInput.description event)
      (default (now rt) (EventInput.occurredAt event))
      (EventInput.semanticVector event) in
  let events := default [] (JsMap.get (usageEvents st) purposeId) ++ [newEvent] in
  let st1 :=
    {| purposes := purposes st;
       usageEvents := JsMap.set (usageEvents st) purposeId events;
       driftAlerts := driftAlerts st;
       systemPaused := systemPaused st |} in
  if (List.length events mod 10 =? 0)%nat then checkDrift st1 rt 1 purposeId else st1.

Definition verifyRecommitmentAlignment (originalIntent recommitment : string) : number :=
  let originalKeywords := extractKeywords originalIntent in
  let recommitmentKeywords := extractKeywords recommitment in
  let overlap :=
    List.length
      (List.filter (fun k => Str.includes recommitmentKeywords k) originalKeywords) in
  (of_nat overlap / of_nat (List.length originalKeywords))%js.

Definition recommit (st : State) (rt : Runtime) (purposeId recommitmentStatement : string)
  : State * bool :=
  match JsMap.get (purposes st) purposeId with
  | None => (st, false)
  | Some purpose =>
      (* Verify recommitment aligns with original intent *)
      let alignment :=
        verifyRecommitmentAlignment (SystemPurpose.originalIntent purpose)
          recommitmentStatement in
      if (alignment <? num 0.7)%js then (st, false)
      else
        (* Accept recommitment *)
        let purpose' :=
          SystemPurpose.mk (SystemPurpose.id purpose)
            (SystemPurpose.originalIntent purpose)
            (SystemPurpose.declaredAt purpose)
            (now rt)
            (SystemPurpose.domain purpose) in
        ({| purposes := JsMap.set (purposes st) purposeId purpose';
            usageEvents := usageEvents st;
            (* Clear alerts for this purpose *)
            driftAlerts :=
              List.filter
                (fun a => negb (String.eqb (DriftAlert.purposeId a) purposeId))
                (driftAlerts st);
            (* Resume system if paused *)
            systemPaused := if systemPaused st then false else systemPaused st |},
         true)
  end.

Definition getDriftAlerts (st : State) : list DriftAlert.t := driftAlerts st.
Definition isSystemPaused (st : State) : bool := systemPaused st.

Definition calculateResilience (st : State) (rt : Runtime) : number :=
  let '(totalDrift, purposeCount) :=
    List.fold_left
      (fun acc purposeId =>
         let metrics := calculateDrift st rt purposeId in
         ((fst acc + DriftMetrics.overallDrift metrics)%js, S (snd acc)))
      (JsMap.keys (purposes st)) (of_Z 0, O) in
  if (purposeCount =? 0)%nat then of_Z 100
  else
    let avgDrift := (totalDrift / of_nat purposeCount)%js in
    Math.max (of_Z 0) (Math.round ((of_Z 1 - avgDrift) * of_Z 100)%js).

(** The states of the sentinel: the initial one, then any sequence of
    calls of its three writing methods. *)
Inductive reachable : State -> Prop :=
| reachable_initial : reachable initial
| reachable_register (st : State) (rt : Runtime) (purpose : PurposeInput.t) :
    reachable st -> reachable (fst (registerPurpose st rt purpose))
| reachable_track (st : State) (rt : Runtime) (purposeId : string) (event : EventInput.t) :
    reachable st -> reachable (trackUsage st rt purposeId event)
| reachable_recommit (st : State) (rt : Runtime) (purposeId statement : string) :
    reachable st -> reachable (fst (recommit st rt purposeId statement)).

(** What [checkDrift] and [triggerDriftAlert] put in an alert: a finite
    drift above the threshold 0.3 and at most 1, and the pause exactly when
    the drift is above 0.5. *)
Definition calibrated (alert : DriftAlert.t) : Prop :=
  exists d : Q,
    DriftAlert.divergence alert = Fin d
    /\ (3 # 10 < d)%Q /\ (d <= 1)%Q
    /\ DriftAlert.threshold alert = num 0.3
    /\ (DriftAlert.action alert = PAUSE_SYSTEM <-> (1 # 2 < d)%Q).

End PDS.

(** * RPL: the [ReasoningProvenanceLayer] class *)

Module RPL.
Import JS.

Module ReasoningFrame.
Record t : Type := mk {
  id : string;
  framework : string;
  confidenceWeight : number;
  firstUsed : Z;
  lastUsed : Z;
  decayRate : number;
  context : option string;
  alternativesConsidered : option (list string);
  userId : option string;
  sessionId : option string;
  decisionPoint : option string
}.
End ReasoningFrame.

(** The argument of [trackReasoning]; its [lastUsed] is overwritten. *)
Module FrameInput.
Record t : Type := mk {
  framework : string;
  confidenceWeight : number;
  firstUsed : option Z;
  decayRate : number;
  context : option string;
  alternativesConsidered : option (list string);
  userId : option string;
  sessionId : option string;
  decisionPoint : option string
}.
End FrameInput.

Module DominanceAlert.
Record t : Type := mk {
  id : string;
  framework : string;
  dominance : number;
  threshold : number;
  detectedAt : Z;
  recommendation : string;
  riskLevel : RiskLevel
}.
End DominanceAlert.

Record State : Type := {
  frames : list (string * ReasoningFrame.t);
  dominanceAlerts : list DominanceAlert.t;
  frameworkRotationQueue : list string
}.

Definition initial : State :=
  {| frames := []; dominanceAlerts := []; frameworkRotationQueue := [] |}.

(** The loop shared by [checkFrameworkDominance], [calculateResilience] and
    [render]: the summed weight of each framework and the total weight. *)
Definition weighFrames (st : State) : list (string * number) * number :=
  List.fold_left
    (fun acc frame =>
       let currentWeight :=
         match JsMap.get (fst acc) (ReasoningFrame.framework frame) with
         | Some w => number_or w (of_Z 0)
         | None => of_Z 0
         end in
       (JsMap.set (fst acc) (ReasoningFrame.framework frame)
          (currentWeight + ReasoningFrame.confidenceWeight frame)%js,
        (snd acc + ReasoningFrame.confidenceWeight frame)%js))
    (JsMap.values (frames st)) ([], of_Z 0).

Definition getAlternativeFrameworks (current : string) : list string :=
  let allFrameworks :=
    [ "Devil_Lens_Critique";
      "RSGD_360_Spiral";
      "Institutional_Decay_Detector";
      "Beneficiary_Tracing";
      "Question_Entropy_Analysis" ]%string in
  List.filter (fun f => negb (String.eqb f current)) allFrameworks.

Definition generateRotationRecommendation (dominantFramework : string) : string :=
  let alternatives := getAlternativeFrameworks dominantFramework in
  ("Force " +:+ List.hd "undefined" alternatives
   +:+ " analysis for next 3 audits to restore analytical diversity")%string.

Definition queueFrameworkRotation (st : State) (dominantFramework : string) : State :=
  let alternatives := getAlternativeFrameworks dominantFramework in
  {| frames := frames st;
     dominanceAlerts := dominanceAlerts st;
     frameworkRotationQueue := frameworkRotationQueue st ++ List.firstn 2 alternatives |}.

(** [k] is the number of UUIDs already drawn in the current call. *)
Definition triggerDominanceAlert (st : State) (rt : Runtime) (k : nat)
    (framework : string) (dominance : number) : State :=
  let alert :=
    DominanceAlert.mk (randomUUID rt k) framework dominance (num 0.7) (now rt)
      (generateRotationRecommendation framework)
      (if (dominance >? num 0.85)%js then HIGH
       else if (dominance >? num 0.75)%js then MEDIUM
       else LOW) in
  queueFrameworkRotation
    {| frames := frames st;
       dominanceAlerts := dominanceAlerts st ++ [alert];
       frameworkRotationQueue := frameworkRotationQueue st |}
    framework.

Definition checkFrameworkDominance (st : State) (rt : Runtime) (k : nat) : State :=
  let '(frameworkWeights, totalWeight) := weighFrames st in
  fst (List.fold_left
         (fun acc entry =>
            let dominance := (snd entry / totalWeight)%js in
            if (dominance >? num 0.7)%js
            then (triggerDominanceAlert (fst acc) rt (snd acc) (fst entry) dominance,
                  S (snd acc))
            else acc)
         frameworkWeights (st, k)).

Definition trackReasoning (st : State) (rt : Runtime) (frame : FrameInput.t) : State :=
  let id := randomUUID rt 0 in
  let newFrame :=
    ReasoningFrame.mk id
      (FrameInput.framework frame)
      (FrameInput.confidenceWeight frame)
      (default (now rt) (FrameInput.firstUsed frame))
      (now rt)
      (number_or (FrameInput.decayRate frame) (num 0.0001))
      (FrameInput.context frame)
      (FrameInput.alternativesConsidered frame)
      (FrameInput.userId frame)
      (FrameInput.sessionId frame)
      (FrameInput.decisionPoint frame) in
  checkFrameworkDominance
    {| frames := JsMap.set (frames st) id newFrame;
       dominanceAlerts := dominanceAlerts st;
       frameworkRotationQueue := frameworkRotationQueue st |}
    rt 1.

Definition calculateResilience (st : State) : number :=
  let '(frameworkWeights, totalWeight) := weighFrames st in
  (* Calculate diversity (inverse of max dominance) *)
  let maxDominance :=
    List.fold_left
      (fun maxDominance weight =>
         let dominance := (weight / totalWeight)%js in
         if (dominance >? maxDominance)%js then dominance else maxDominance)
      (JsMap.values frameworkWeights) (of_Z 0) in
  Math.round ((of_Z 1 - maxDominance) * of_Z 100)%js.

(** The states of the layer: the initial one, then any sequence of
    tracked frames. *)
Inductive reachable : State -> Prop :=
| reachable_initial : reachable initial
| reachable_track (st : State) (rt : Runtime) (frame : FrameInput.t) :
    reachable st -> reachable (trackReasoning st rt frame).

(** What [queueFrameworkRotation] pushes for an alert. *)
Definition queued_for (alert : DominanceAlert.t) : list string :=
  List.firstn 2 (getAlternativeFrameworks (DominanceAlert.framework alert)).

(** What [triggerDominanceAlert] puts in an alert. *)
Definition flagged (alert : DominanceAlert.t) : Prop :=
  (DominanceAlert.dominance alert >? num 0.7)%js = true
  /\ DominanceAlert.threshold alert = num 0.7
  /\ DominanceAlert.recommendation alert
     = generateRotationRecommendation (DominanceAlert.framework alert)
  /\ DominanceAlert.riskLevel alert
     = (if (DominanceAlert.dominance alert >? num 0.85)%js then HIGH
        else if (DominanceAlert.dominance alert >? num 0.75)%js then MEDIUM
        else LOW).

(** A frame whose confidence weight is a finite number above zero. *)
Definition positive (frame : ReasoningFrame.t) : Prop :=
  exists w : Q, ReasoningFrame.confidenceWeight frame = Fin w /\ (0 < w)%Q.

(** A confidence weight on the scale the interface documents
    ([confidenceWeight: number; // 0-1 scale]), above zero also when read
    as a binary64 number.  Sums of such weights stay finite and above zero
    in binary64 as they do in the rationals. *)
Definition on_scale (w : number) : Prop :=
  exists q : Q,
    w = Fin q /\ (0 < q)%Q /\ (q <= 1)%Q /\ (0 <? binary64 w)%float = true.

End RPL.

(** * The API server: [api/src/index.ts] over [api/src/db/schema.sql] *)

Module Api.
Import JS.

(** ** Configuration *)

(** [MAX_CONCURRENT_AUDITS[role]]: an object indexed by the role string. *)
Definition MAX_CONCURRENT_AUDITS (role : string) : option number :=
  if String.eqb role "observer" then Some (of_Z 2)
  else if String.eqb role "analyst" then Some (of_Z 3)
  else if String.eqb role "admin" then Some (of_Z 5)
  else None.

Definition MAX_CONFIDENCE_WEIGHT : number := num 0.95.

(** ** Column types of the schema

    A value that does not fit its column makes the statement fail; [None]
    stands for that failure. *)

(** [DECIMAL(precision, scale)]: rounded to [scale] digits, a tie going away
    from zero; the rounded value must have at most [precision - scale]
    integer digits.  [NaN] and the infinities end in an error for every
    column of this schema (a range CHECK or the type refuses them). *)
Definition sql_round (scale : nat) (q : Q) : Q :=
  let s := 10 ^ Z.of_nat scale in
  let m := Qfloor (Qabs q * inject_Z s + (1 # 2)) in
  Qred (inject_Z (if Qle_bool 0 q then m else - m) / inject_Z s).

Definition DECIMAL (precision scale : nat) (x : number) : option Q :=
  match x with
  | Fin q =>
      let r := sql_round scale q in
      if Qle_bool (inject_Z (10 ^ Z.of_nat (precision - scale))) (Qabs r)
      then None else Some r
  | _ => None
  end.

(** [INTEGER]: a 32-bit integer written without a fraction. *)
Definition INTEGER (x : number) : option Z :=
  match x with
  | Fin q =>
      if Qeq_bool q (inject_Z (Qfloor q))
         && (- 2 ^ 31 <=? Qfloor q) && (Qfloor q <? 2 ^ 31)
      then Some (Qfloor q) else None
  | _ => None
  end.

(** [VARCHAR(n)], on assignment: a value of more than [n] characters is an
    error unless the excess characters are all spaces, in which case it is
    truncated to [n] characters. *)
Fixpoint all_spaces (s : string) : bool :=
  match s with
  | EmptyString => true
  | String c rest => Ascii.eqb c " " && all_spaces rest
  end.

Fixpoint VARCHAR (n : nat) (s : string) : option string :=
  match n, s with
  | _, EmptyString => Some EmptyString
  | O, _ => if all_spaces s then Some EmptyString else None
  | S n', String c rest => option_map (String c) (VARCHAR n' rest)
  end.


(** A nullable column: [undefined] is sent as [NULL], which every column
    type and every CHECK accepts. *)
Definition nullable {A B : Type} (ty : A -> option B) (v : option A)
  : option (option B) :=
  match v with
  | None => Some None
  | Some a => option_map Some (ty a)
  end.

(** A [NOT NULL] column. *)
Definition not_null {A B : Type} (ty : A -> option B) (v : option A) : option B :=
  match v with
  | None => None
  | Some a => ty a
  end.

(** [CHECK (cond)] on a value already of the column type. *)
Definition CHECK {A : Type} (cond : A -> bool) (v : A) : option A :=
  if cond v then Some v else None.

Definition between (lo hi : Q) (q : Q) : bool := Qle_bool lo q && Qle_bool q hi.

Definition validScopes : list string := ["inferred"; "observed"; "simulated"]%string.
Definition validEvidenceTypes : list string := ["direct"; "proxy"; "estimated"]%string.

(** The three provenance columns every table carries. *)
Record Provenance : Type := {
  data_scope : string;
  evidence_type : string;
  origin : string
}.

Definition provenance_columns (dataScope evidenceType origin : option string)
  : option Provenance :=
  ds ← not_null (VARCHAR 50) dataScope ≫= CHECK (Str.includes validScopes);
  et ← not_null (VARCHAR 50) evidenceType ≫= CHECK (Str.includes validEvidenceTypes);
  og ← not_null (VARCHAR 255) origin;
  Some {| data_scope := ds; evidence_type := et; origin := og |}.

(** ** Tables *)

Module reasoning_frames.
Record row : Type := mk {
  id : string;
  framework : string;
  confidence_weight : Q;
  first_used : Z;
  last_used : Z;
  decay_rate : Q;
  context : option string;
  alternatives_considered : list string;
  user_id : option string;
  decision_point : option string;
  provenance : Provenance;
  created_at : Z
}.
End reasoning_frames.

Module questions.
Record row : Type := mk {
  id : string;
  domain : string;
  question_text : string;
  asked_by : string;
  asked_at : Z;
  complexity : option Z;
  sensitivity : option Z;
  provenance : Provenance;
  created_at : Z
}.
End questions.

Module lagged_outcomes.
Record row : Type := mk {
  id : string;
  decision_id : string;
  decision_date : Z;
  beneficiary : string;
  benefit_realized_date : Z;
  lag_days : Z;
  risk_score : Q;
  detected_at : Z;
  context : option string;
  provenance : Provenance;
  created_at : Z
}.
End lagged_outcomes.

Module observer_metrics.
Record row : Type := mk {
  audits_reviewed : option Z;
  correction_rate : option Q;
  contradiction_exposure : option Q;
  fatigue_risk : option string;
  last_activity : option Z;
  concurrent_audits : Z;
  cooldown_until : option Z;
  provenance : Provenance;
  updated_at : Z
}.
End observer_metrics.

Module system_purposes.
Record row : Type := mk {
  original_intent : string;
  declared_at : Z;
  last_recommitment : Z;
  domain : string;
  provenance : Provenance;
  created_at : Z
}.
End system_purposes.

Module usage_events.
Record row : Type := mk {
  id : string;
  purpose_id : option string;
  event_type : string;
  description : string;
  occurred_at : Z;
  provenance : Provenance;
  created_at : Z
}.
End usage_events.

(** The database: insert-only tables are lists in insertion order, tables
    addressed by their primary key are maps. *)
Record Db : Type := {
  tbl_reasoning_frames : list reasoning_frames.row;
  tbl_questions : list questions.row;
  tbl_lagged_outcomes : list lagged_outcomes.row;
  tbl_observer_metrics : gmap string observer_metrics.row;
  tbl_system_purposes : gmap string system_purposes.row;
  tbl_usage_events : list usage_events.row
}.

(** The database right after [schema.sql] ran: empty tables and the seed
    observer. *)
Definition schema_db (now : Z) : Db :=
  {| tbl_reasoning_frames := [];
     tbl_questions := [];
     tbl_lagged_outcomes := [];
     tbl_observer_metrics :=
       {[ "test-observer-001"%string :=
            observer_metrics.mk (Some 0) (Some 0%Q) (Some 0%Q) (Some "low"%string)
              (Some now) 0 None
              {| data_scope := "observed"; evidence_type := "direct";
                 origin := "system-initialization" |}
              now ]};
     tbl_system_purposes := ∅;
     tbl_usage_events := [] |}.

(** ** Requests and replies *)

(** What [jwt.verify] makes of the [Authorization] header. *)
Module Decoded.
Record t : Type := mk { id : string; role : string }.
End Decoded.

Inductive Authorization : Type :=
| no_token
| invalid_token
| valid_token (decoded : Decoded.t).

Module User.
Record t : Type := mk { id : string; role : string }.
End User.

(** A date text of the body, as its two readers take it.  [getTime] is
    [new Date(text).getTime()] in the handler: the epoch time in
    milliseconds, or [NaN] for a text [Date] cannot read.  [timestamp] is
    what PostgreSQL stores when the same text is assigned to a [TIMESTAMP]
    column (without time zone): the date and time written in the text, a
    UTC offset being dropped, in microseconds from 1970-01-01 00:00;
    [None] for a text it refuses. *)
Module DateText.
Record t : Type := mk { getTime : number; timestamp : option Z }.
End DateText.

(** The JSON body: the fields the routes read; [None] is [undefined].  A
    numeric field holds a JSON number, which [parseFloat] returns as it
    is; a date field holds a date text. *)
Module Body.
Record t : Type := mk {
  dataScope : option string;
  evidenceType : option string;
  origin : option string;
  framework : option string;
  confidenceWeight : option number;
  context : option string;
  alternativesConsidered : option (list string);
  decisionPoint : option string;
  domain : option string;
  questionText : option string;
  complexity : option number;
  sensitivity : option number;
  decisionId : option string;
  decisionDate : option DateText.t;
  beneficiary : option string;
  benefitRealizedDate : option DateText.t;
  observerId : option string;
  auditsReviewed : option number;
  correctionRate : option number;
  contradictionExposure : option number;
  purposeId : option string;
  eventType : option string;
  description : option string
}.
End Body.

(** [limited] is the verdict of the global rate limiter
    ([express-rate-limit]: 100 requests per 15 minutes and IP) on this
    request; its counters live in the library. *)
Record Request : Type := {
  limited : bool;
  authorization : Authorization;
  user : option User.t;
  body : Body.t
}.

Inductive Reply : Type :=
(* globalLimiter *)
| TooManyRequests
(* authMiddleware *)
| NoTokenProvided
| InvalidToken
| InsufficientPermissions (allowedRoles : list string)
(* epistemicHygieneMiddleware *)
| AuthenticationRequired
| CognitiveCooldownActive (remainingMinutes : number) (cooldown_until : Z)
| CognitiveLoadExceeded (current max : number) (role : string)
| ConfidenceCapExceeded (provided max : number)
| UnauthorizedDataScope
(* validateDataScope *)
| InvalidDataScope
| InvalidEvidenceType
| InvalidOrigin
(* route handlers *)
| Created (id : string) (created_at : Z)
| OutcomeCreated (id : string) (lag_days risk_score : number) (created_at : Z)
| LoadUpdated (observer_id : string) (fatigue_risk : string)
    (cooldown_until : option Z) (cooldown_required : bool)
| DriftStatus (purpose_id : string) (drift_magnitude threshold : number)
    (drift_detected : bool) (event_count : nat) (last_recommitment calculated_at : Z)
| PurposeNotFound
| Failed (error : string).

(** [res.status(...)]. *)
Definition status (r : Reply) : Z :=
  match r with
  | NoTokenProvided | InvalidToken | AuthenticationRequired => 401
  | InsufficientPermissions _ | UnauthorizedDataScope => 403
  | TooManyRequests | CognitiveCooldownActive _ _ | CognitiveLoadExceeded _ _ _ => 429
  | ConfidenceCapExceeded _ _ | InvalidDataScope | InvalidEvidenceType
  | InvalidOrigin => 400
  | Created _ _ | OutcomeCreated _ _ _ _ => 201
  | LoadUpdated _ _ _ _ | DriftStatus _ _ _ _ _ _ _ => 200
  | PurposeNotFound => 404
  | Failed _ => 500
  end.

(** The [error] field of the JSON reply. *)
Definition error (r : Reply) : option string :=
  match r with
  | NoTokenProvided => Some "Authentication required"
  | InvalidToken => Some "Invalid token"
  | InsufficientPermissions _ => Some "Insufficient permissions"
  | AuthenticationRequired => Some "Authentication required"
  | CognitiveCooldownActive _ _ => Some "Cognitive cooldown active"
  | CognitiveLoadExceeded _ _ _ => Some "Cognitive load exceeded"
  | ConfidenceCapExceeded _ _ => Some "Confidence cap exceeded"
  | UnauthorizedDataScope => Some "Unauthorized data scope"
  | InvalidDataScope => Some "Invalid data_scope"
  | InvalidEvidenceType => Some "Invalid evidence_type"
  | InvalidOrigin => Some "Invalid origin"
  | PurposeNotFound => Some "Purpose not found"
  | Failed e => Some e
  | _ => None
  end%string.

(** The four admission rejections, by the names the specification gives
    them. *)
Inductive Rejection : Type :=
| CooldownActive
| ConcurrencyExceeded
| ConfidenceCapExceeded_
| UnauthorizedScope.

Definition rejection (r : Reply) : option Rejection :=
  match r with
  | CognitiveCooldownActive _ _ => Some CooldownActive
  | CognitiveLoadExceeded _ _ _ => Some ConcurrencyExceeded
  | ConfidenceCapExceeded _ _ => Some ConfidenceCapExceeded_
  | UnauthorizedDataScope => Some UnauthorizedScope
  | _ => None
  end.

(** ** Middleware

    A middleware either answers the request or calls [next()], possibly
    after writing [req.user]. *)

Definition authMiddleware (allowedRoles : list string) (req : Request)
  : Reply + Request :=
  match authorization req with
  | no_token => inl NoTokenProvided
  | invalid_token => inl InvalidToken
  | valid_token decoded =>
      if negb (Str.includes allowedRoles (Decoded.role decoded))
      then inl (InsufficientPermissions allowedRoles)
      else inr {| limited := limited req;
                  authorization := authorization req;
                  user := Some (User.mk (Decoded.id decoded) (Decoded.role decoded));
                  body := body req |}
  end.

(** [!s] on a string that may be [undefined]. *)
Definition falsy (s : option string) : bool :=
  match s with
  | None => true
  | Some s => String.eqb s ""
  end.

(** The store is always available here: the [catch] branch of the source
    (reply 500 when the query throws) is not modelled. *)
Definition epistemicHygieneMiddleware (db : Db) (rt : Runtime) (req : Request)
  : Reply + Request :=
  let userId := option_map User.id (user req) in
  let userRole := option_map User.role (user req) in
  if falsy userId || falsy userRole then inl AuthenticationRequired
  else
    let userId := default ""%string userId in
    let userRole := default ""%string userRole in
    (* Check concurrent audits *)
    let firstCheck : option Reply :=
      match tbl_observer_metrics db !! userId with
      | Some row =>
          let concurrent_audits := of_Z (observer_metrics.concurrent_audits row) in
          (* Check cooldown *)
          if match observer_metrics.cooldown_until row with
             | Some cooldown_until => now rt <? cooldown_until
             | None => false
             end
          then
            let cooldown_until := default 0 (observer_metrics.cooldown_until row) in
            let remainingMinutes :=
              Math.ceil (of_Z (cooldown_until - now rt) / of_Z 60000)%js in
            Some (CognitiveCooldownActive remainingMinutes cooldown_until)
          else
            (* Check concurrent limit *)
            let maxAllowed := ToNumber (MAX_CONCURRENT_AUDITS userRole) in
            if (concurrent_audits >=? maxAllowed)%js
            then Some (CognitiveLoadExceeded concurrent_audits maxAllowed userRole)
            else None
      | None => None
      end in
    match firstCheck with
    | Some reply => inl reply
    | None =>
        (* Validate confidence weight if present *)
        let capCheck : option Reply :=
          match Body.confidenceWeight (body req) with
          | Some confidence =>
              if (confidence >? MAX_CONFIDENCE_WEIGHT)%js
              then Some (ConfidenceCapExceeded confidence MAX_CONFIDENCE_WEIGHT)
              else None
          | None => None
          end in
        match capCheck with
        | Some reply => inl reply
        | None =>
            (* Validate data scope (Devil Condition 1) *)
            if match Body.dataScope (body req) with
               | Some s => String.eqb s "simulated"
               | None => false
               end && negb (String.eqb userRole "admin")
            then inl UnauthorizedDataScope
            else inr req
        end
    end.

(** [s.trim() === ''] for ASCII white space. *)
Definition is_space (c : ascii) : bool :=
  let n := nat_of_ascii c in ((n =? 32) || (9 <=? n) && (n <=? 13))%nat.

Fixpoint is_blank (s : string) : bool :=
  match s with
  | EmptyString => true
  | String c rest => is_space c && is_blank rest
  end.

Definition validateDataScope (req : Request) : Reply + Request :=
  if match Body.dataScope (body req) with
     | None => true
     | Some s => String.eqb s "" || negb (Str.includes validScopes s)
     end
  then inl InvalidDataScope
  else if match Body.evidenceType (body req) with
          | None => true
          | Some s => String.eqb s "" || negb (Str.includes validEvidenceTypes s)
          end
  then inl InvalidEvidenceType
  else if match Body.origin (body req) with
          | None => true
          | Some s => String.eqb s "" || is_blank s
          end
  then inl InvalidOrigin
  else inr req.

Inductive Middleware : Type :=
| auth (allowedRoles : list string)
| epistemicHygiene
| validate.

Definition runMiddleware (m : Middleware) (db : Db) (rt : Runtime) (req : Request)
  : Reply + Request :=
  match m with
  | auth allowedRoles => authMiddleware allowedRoles req
  | epistemicHygiene => epistemicHygieneMiddleware db rt req
  | validate => validateDataScope req
  end.

(** The chain registered for a route, run in order up to the first reply. *)
Fixpoint runChain (ms : list Middleware) (db : Db) (rt : Runtime) (req : Request)
  : Reply + Request :=
  match ms with
  | [] => inr req
  | m :: rest =>
      match runMiddleware m db rt req with
      | inl reply => inl reply
      | inr req' => runChain rest db rt req'
      end
  end.

(** ** Route handlers

    An [INSERT] either adds the row or fails on a constraint of the schema,
    in which case the handler's [catch] answers 500 and nothing is
    written. *)

(** [POST /api/v2/rpl/track] *)
Definition insert_reasoning_frame (rt : Runtime) (req : Request)
  : option reasoning_frames.row :=
  let b := body req in
  framework ← not_null (VARCHAR 255) (Body.framework b);
  confidence_weight ←
    not_null (DECIMAL 3 2) (Body.confidenceWeight b) ≫= CHECK (between 0 0.95);
  decay_rate ← DECIMAL 5 5 (num 0.001);
  user_id ← nullable (VARCHAR 255) (option_map User.id (user req));
  decision_point ← nullable (VARCHAR 255) (Body.decisionPoint b);
  prov ← provenance_columns (Body.dataScope b) (Body.evidenceType b) (Body.origin b);
  Some (reasoning_frames.mk (randomUUID rt 0) framework confidence_weight
          (now rt) (now rt) decay_rate (Body.context b)
          (default [] (Body.alternativesConsidered b))
          user_id decision_point prov (now rt)).

Definition rpl_track (db : Db) (rt : Runtime) (req : Request) : Db * Reply :=
  match insert_reasoning_frame rt req with
  | Some row =>
      ({| tbl_reasoning_frames := tbl_reasoning_frames db ++ [row];
          tbl_questions := tbl_questions db;
          tbl_lagged_outcomes := tbl_lagged_outcomes db;
          tbl_observer_metrics := tbl_observer_metrics db;
          tbl_system_purposes := tbl_system_purposes db;
          tbl_usage_events := tbl_usage_events db |},
       Created (reasoning_frames.id row) (reasoning_frames.created_at row))
  | None => (db, Failed "Failed to track reasoning frame")
  end.

(** [POST /api/v2/qem/register] *)
Definition one_to_five (x : number) : option Z :=
  INTEGER x ≫= CHECK (fun z => (1 <=? z) && (z <=? 5)).

Definition insert_question (rt : Runtime) (req : Request) : option questions.row :=
  let b := body req in
  domain ← not_null (VARCHAR 255) (Body.domain b);
  question_text ← Body.questionText b;
  asked_by ← not_null (VARCHAR 255) (option_map User.id (user req));
  complexity ← nullable one_to_five (Body.complexity b);
  sensitivity ← nullable one_to_five (Body.sensitivity b);
  prov ← provenance_columns (Body.dataScope b) (Body.evidenceType b) (Body.origin b);
  Some (questions.mk (randomUUID rt 0) domain question_text asked_by (now rt)
          complexity sensitivity prov (now rt)).

Definition qem_register (db : Db) (rt : Runtime) (req : Request) : Db * Reply :=
  match insert_question rt req with
  | Some row =>
      ({| tbl_reasoning_frames := tbl_reasoning_frames db;
          tbl_questions := tbl_questions db ++ [row];
          tbl_lagged_outcomes := tbl_lagged_outcomes db;
          tbl_observer_metrics := tbl_observer_metrics db;
          tbl_system_purposes := tbl_system_purposes db;
          tbl_usage_events := tbl_usage_events db |},
       Created (questions.id row) (questions.created_at row))
  | None => (db, Failed "Failed to register question")
  end.

(** [POST /api/v2/loa/track-outcome].  The handler computes the lag from
    its own reading of the two date texts and sends the texts themselves
    to the [TIMESTAMP] columns. *)
Definition getTime (date : option DateText.t) : number :=
  match date with
  | Some text => DateText.getTime text
  | None => NaN
  end.

Definition insert_lagged_outcome (rt : Runtime) (req : Request)
    (lagDays riskScore : number) : option lagged_outcomes.row :=
  let b := body req in
  decision_id ← not_null (VARCHAR 255) (Body.decisionId b);
  decision_date ← Body.decisionDate b ≫= DateText.timestamp;
  beneficiary ← not_null (VARCHAR 255) (Body.beneficiary b);
  benefit_realized_date ← Body.benefitRealizedDate b ≫= DateText.timestamp;
  lag_days ← INTEGER lagDays;
  risk_score ← DECIMAL 3 1 riskScore ≫= CHECK (between 0 10);
  prov ← provenance_columns (Body.dataScope b) (Body.evidenceType b) (Body.origin b);
  Some (lagged_outcomes.mk (randomUUID rt 0) decision_id decision_date beneficiary
          benefit_realized_date lag_days risk_score (now rt) (Body.context b)
          prov (now rt)).

Definition loa_track_outcome (db : Db) (rt : Runtime) (req : Request) : Db * Reply :=
  let b := body req in
  (* Calculate lag *)
  let lagDays :=
    Math.floor
      ((getTime (Body.benefitRealizedDate b) - getTime (Body.decisionDate b))
       / of_Z (1000 * 60 * 60 * 24))%js in
  (* Calculate risk score (0-10 scale) *)
  let riskScore := Math.min (of_Z 10) (lagDays / of_Z 30)%js in
  match insert_lagged_outcome rt req lagDays riskScore with
  | Some row =>
      ({| tbl_reasoning_frames := tbl_reasoning_frames db;
          tbl_questions := tbl_questions db;
          tbl_lagged_outcomes := tbl_lagged_outcomes db ++ [row];
          tbl_observer_metrics := tbl_observer_metrics db;
          tbl_system_purposes := tbl_system_purposes db;
          tbl_usage_events := tbl_usage_events db |},
       OutcomeCreated (lagged_outcomes.id row) lagDays riskScore
         (lagged_outcomes.created_at row))
  | None => (db, Failed "Failed to track lagged outcome")
  end.

(** [POST /api/v2/oli/update-load] *)
Definition zero_to_one (x : number) : option Q :=
  DECIMAL 3 2 x ≫= CHECK (between 0 1).

(** The score lies next to the thresholds it is compared with, so it is
    computed as the handler computes it, in binary64: each product and the
    sum are rounded. *)
Definition fatigueScore (correctionRate contradictionExposure : option number) : float :=
  (binary64 (ToNumber correctionRate) * nearest 0.4
   + binary64 (ToNumber contradictionExposure) * nearest 0.6)%float.

Definition fatigueRisk (fatigueScore : float) : string :=
  if (nearest 0.7 <? fatigueScore)%float then "critical"
  else if (nearest 0.5 <? fatigueScore)%float then "high"
  else if (nearest 0.3 <? fatigueScore)%float then "medium"
  else "low".

(** Set cooldown if critical: 24 hours. *)
Definition cooldownUntil (rt : Runtime) (fatigueRisk : string) : option Z :=
  if String.eqb fatigueRisk "critical"
  then Some (now rt + 24 * 60 * 60 * 1000)
  else None.

(** The row proposed by the [INSERT]; on a conflict on [observer_id] the
    [DO UPDATE] keeps the stored [concurrent_audits] and provenance. *)
Definition upsert_observer_metrics (db : Db) (rt : Runtime) (req : Request)
    (fatigueRisk : string) (cooldownUntil : option Z)
  : option (string * observer_metrics.row) :=
  let b := body req in
  observer_id ← not_null (VARCHAR 255) (Body.observerId b);
  audits_reviewed ← nullable INTEGER (Body.auditsReviewed b);
  correction_rate ← nullable zero_to_one (Body.correctionRate b);
  contradiction_exposure ← nullable zero_to_one (Body.contradictionExposure b);
  fatigue_risk ←
    VARCHAR 10 fatigueRisk
      ≫= CHECK (Str.includes ["low"; "medium"; "high"; "critical"]%string);
  prov ← provenance_columns (Body.dataScope b) (Body.evidenceType b) (Body.origin b);
  let proposed :=
    observer_metrics.mk audits_reviewed correction_rate contradiction_exposure
      (Some fatigue_risk) (Some (now rt)) 0 cooldownUntil prov (now rt) in
  match tbl_observer_metrics db !! observer_id with
  | None => Some (observer_id, proposed)
  | Some stored =>
      Some (observer_id,
            observer_metrics.mk audits_reviewed correction_rate contradiction_exposure
              (Some fatigue_risk) (Some (now rt))
              (observer_metrics.concurrent_audits stored)
              cooldownUntil
              (observer_metrics.provenance stored) (now rt))
  end.

Definition oli_update_load (db : Db) (rt : Runtime) (req : Request) : Db * Reply :=
  let b := body req in
  (* Calculate fatigue risk *)
  let fatigueScore := fatigueScore (Body.correctionRate b) (Body.contradictionExposure b) in
  let fatigueRisk := fatigueRisk fatigueScore in
  (* Set cooldown if critical *)
  let cooldownUntil := cooldownUntil rt fatigueRisk in
  match upsert_observer_metrics db rt req fatigueRisk cooldownUntil with
  | Some (observer_id, row) =>
      ({| tbl_reasoning_frames := tbl_reasoning_frames db;
          tbl_questions := tbl_questions db;
          tbl_lagged_outcomes := tbl_lagged_outcomes db;
          tbl_observer_metrics := <[observer_id := row]> (tbl_observer_metrics db);
          tbl_system_purposes := tbl_system_purposes db;
          tbl_usage_events := tbl_usage_events db |},
       LoadUpdated observer_id (default ""%string (observer_metrics.fatigue_risk row))
         (observer_metrics.cooldown_until row)
         (String.eqb fatigueRisk "critical"))
  | None => (db, Failed "Failed to update observer load")
  end.

(** A text read as a value of type [UUID], as PostgreSQL does for a
    parameter compared with or assigned to a [UUID] column: 16 pairs of
    hexadecimal digits in either case, where a hyphen may follow a pair of
    odd index (the last pair excepted), the whole optionally in braces.
    [None] is the syntax error, which makes the statement fail.  The value
    is written the way PostgreSQL prints it, in lower case and in groups of
    8, 4, 4, 4 and 12 digits; the keys of [tbl_system_purposes] are such
    texts. *)
Definition is_hex (c : ascii) : bool :=
  let n := nat_of_ascii c in
  ((48 <=? n) && (n <=? 57) || (65 <=? n) && (n <=? 70)
   || (97 <=? n) && (n <=? 102))%nat.

(** The pairs that are [left] to read; the pair being read has index
    [15 - (left - 1)]. *)
Fixpoint uuid_pairs (left : nat) (src : string) : option (string * string) :=
  match left with
  | O => Some (EmptyString, src)
  | S left' =>
      match src with
      | String a (String b rest) =>
          if is_hex a && is_hex b then
            let i := (15 - left')%nat in
            let rest' :=
              match rest with
              | String "-" after => if Nat.odd i && (i <? 15)%nat then after else rest
              | _ => rest
              end in
            match uuid_pairs left' rest' with
            | Some (digits, tail) =>
                let digits' :=
                  if ((i =? 3) || (i =? 5) || (i =? 7) || (i =? 9))%nat
                  then String "-" digits else digits in
                Some (String (Str.lower_char a) (String (Str.lower_char b) digits'), tail)
            | None => None
            end
          else None
      | _ => None
      end
  end.

Definition uuid_in (text : string) : option string :=
  let '(braces, src) :=
    match text with
    | String "{" after => (true, after)
    | _ => (false, text)
    end in
  match uuid_pairs 16 src with
  | Some (uuid, tail) =>
      if braces
      then match tail with
           | String "}" EmptyString => Some uuid
           | _ => None
           end
      else match tail with
           | EmptyString => Some uuid
           | _ => None
           end
  | None => None
  end.

(** [POST /api/v2/pds/track-usage]; [purpose_id] is a [UUID] that
    references [system_purposes(id)]. *)
Definition references_purpose (db : Db) (purposeId : string) : option string :=
  id ← uuid_in purposeId;
  match tbl_system_purposes db !! id with
  | Some _ => Some id
  | None => None
  end.

Definition insert_usage_event (db : Db) (rt : Runtime) (req : Request)
  : option usage_events.row :=
  let b := body req in
  purpose_id ← nullable (references_purpose db) (Body.purposeId b);
  event_type ← not_null (VARCHAR 255) (Body.eventType b);
  description ← Body.description b;
  prov ← provenance_columns (Body.dataScope b) (Body.evidenceType b) (Body.origin b);
  Some (usage_events.mk (randomUUID rt 0) purpose_id event_type description (now rt)
          prov (now rt)).

Definition pds_track_usage (db : Db) (rt : Runtime) (req : Request) : Db * Reply :=
  match insert_usage_event db rt req with
  | Some row =>
      ({| tbl_reasoning_frames := tbl_reasoning_frames db;
          tbl_questions := tbl_questions db;
          tbl_lagged_outcomes := tbl_lagged_outcomes db;
          tbl_observer_metrics := tbl_observer_metrics db;
          tbl_system_purposes := tbl_system_purposes db;
          tbl_usage_events := tbl_usage_events db ++ [row] |},
       Created (usage_events.id row) (usage_events.created_at row))
  | None => (db, Failed "Failed to track usage event")
  end.

(** [GET /api/v2/pds/drift-status/:purposeId].  The path parameter is
    compared with the [UUID] column [id]: a text that is not a UUID makes
    the first query throw, and the [catch] answers 500.  Only the number of
    rows of the second query is read, so their order is not modelled. *)
Definition pds_drift_status (db : Db) (rt : Runtime) (purposeId : string) : Reply :=
  match uuid_in purposeId with
  | None => Failed "Failed to calculate drift"
  | Some id =>
      match tbl_system_purposes db !! id with
      | None => PurposeNotFound
      | Some purpose =>
          (* Get recent usage events *)
          let eventsResult :=
            List.firstn 20
              (List.filter
                 (fun e => match usage_events.purpose_id e with
                           | Some p => String.eqb p id
                           | None => false
                           end)
                 (tbl_usage_events db)) in
          (* Simple drift calculation (in production, use embeddings) *)
          let eventCount := List.length eventsResult in
          let driftMagnitude :=
            if (eventCount <? 10)%nat then of_Z 0 else (random rt 0 * of_Z 40)%js in
          DriftStatus purposeId driftMagnitude (of_Z 30) (driftMagnitude >? of_Z 30)%js
            eventCount (system_purposes.last_recommitment purpose) (now rt)
      end
  end.

(** ** The routes that write *)

Inductive Endpoint : Type :=
| POST_rpl_track
| POST_qem_register
| POST_loa_track_outcome
| POST_oli_update_load
| POST_pds_track_usage.

(** Every route of the server, under [/api/v2]. *)
Inductive Route : Type :=
| GET_health
| rpl_track_route
| GET_rpl_dominance
| GET_rpl_alerts
| qem_register_route
| GET_qem_entropy
| loa_track_outcome_route
| GET_loa_patterns
| oli_update_load_route
| GET_oli_fatigue_status
| pds_track_usage_route
| GET_pds_drift_status
| GET_resilience_score.

(** The middleware each [app.get] or [app.post] registers before its
    handler. *)
Definition registered (r : Route) : list Middleware :=
  match r with
  | GET_health => []
  | rpl_track_route => [auth ["analyst"; "admin"]%string; epistemicHygiene; validate]
  | GET_rpl_dominance => [auth ["observer"; "analyst"; "admin"]%string]
  | GET_rpl_alerts => [auth ["observer"; "analyst"; "admin"]%string]
  | qem_register_route => [auth ["analyst"; "admin"]%string; validate]
  | GET_qem_entropy => [auth ["observer"; "analyst"; "admin"]%string]
  | loa_track_outcome_route => [auth ["analyst"; "admin"]%string; validate]
  | GET_loa_patterns => [auth ["observer"; "analyst"; "admin"]%string]
  | oli_update_load_route => [auth ["analyst"; "admin"]%string; validate]
  | GET_oli_fatigue_status => [auth ["observer"; "analyst"; "admin"]%string]
  | pds_track_usage_route => [auth ["analyst"; "admin"]%string; validate]
  | GET_pds_drift_status => [auth ["observer"; "analyst"; "admin"]%string]
  | GET_resilience_score => [auth ["observer"; "analyst"; "admin"]%string]
  end.

Definition route (e : Endpoint) : Route :=
  match e with
  | POST_rpl_track => rpl_track_route
  | POST_qem_register => qem_register_route
  | POST_loa_track_outcome => loa_track_outcome_route
  | POST_oli_update_load => oli_update_load_route
  | POST_pds_track_usage => pds_track_usage_route
  end.

Definition chain (e : Endpoint) : list Middleware := registered (route e).

Definition handler (e : Endpoint) : Db -> Runtime -> Request -> Db * Reply :=
  match e with
  | POST_rpl_track => rpl_track
  | POST_qem_register => qem_register
  | POST_loa_track_outcome => loa_track_outcome
  | POST_oli_update_load => oli_update_load
  | POST_pds_track_usage => pds_track_usage
  end.

(** [app.use('/api', globalLimiter)] comes before every route. *)
Definition serve (e : Endpoint) (db : Db) (rt : Runtime) (req : Request) : Db * Reply :=
  if limited req then (db, TooManyRequests)
  else
    match runChain (chain e) db rt req with
    | inl reply => (db, reply)
    | inr req' => handler e db rt req'
    end.

(** [GET /api/v2/pds/drift-status/:purposeId] behind its middleware. *)
Definition serve_drift_status (db : Db) (rt : Runtime) (req : Request)
    (purposeId : string) : Reply :=
  if limited req then TooManyRequests
  else
    match runChain (registered GET_pds_drift_status) db rt req with
    | inl reply => reply
    | inr _ => pds_drift_status db rt purposeId
    end.

(** The states of the database: what [schema.sql] creates, then any
    sequence of served requests. *)
Inductive reachable : Db -> Prop :=
| reachable_schema (t : Z) : reachable (schema_db t)
| reachable_serve (db : Db) (e : Endpoint) (rt : Runtime) (req : Request) :
    reachable db -> reachable (fst (serve e db rt req)).

(** The weights stored in [reasoning_frames] are at most 0.95. *)
Definition weights_capped (db : Db) : Prop :=
  Forall (fun row => (reasoning_frames.confidence_weight row <= 0.95)%Q)
    (tbl_reasoning_frames db).

(** The provenance columns of a stored row: one of the listed scopes, one
    of the listed evidence types and an origin that is not blank. *)
Definition well_sourced (p : Provenance) : Prop :=
  Str.includes validScopes (data_scope p) = true
  /\ Str.includes validEvidenceTypes (evidence_type p) = true
  /\ is_blank (origin p) = false.

Definition all_well_sourced (db : Db) : Prop :=
  Forall (fun r => well_sourced (reasoning_frames.provenance r)) (tbl_reasoning_frames db)
  /\ Forall (fun r => well_sourced (questions.provenance r)) (tbl_questions db)
  /\ Forall (fun r => well_sourced (lagged_outcomes.provenance r)) (tbl_lagged_outcomes db)
  /\ (forall k r,
        tbl_observer_metrics db !! k = Some r ->
        well_sourced (observer_metrics.provenance r))
  /\ (forall k r,
        tbl_system_purposes db !! k = Some r ->
        well_sourced (system_purposes.provenance r))
  /\ Forall (fun r => well_sourced (usage_events.provenance r)) (tbl_usage_events db).

End Api.

(** * The entropy gap over IEEE doubles

    The two lines of [QuestionEntropyMonitor] that compute and grade the
    gap score, over binary64 as JavaScript evaluates them.  They serve to
    check the exact model at the one input of this development that lies on
    a threshold (a gap of 60 against the bound 60). *)

Module Binary64.

Definition gapScore (historicalFrequency currentFrequency : float) : float :=
  if (0 <? historicalFrequency)%float
  then ((historicalFrequency - currentFrequency) / historicalFrequency * 100)%float
  else 0%float.

Definition riskLevel (gapScore : float) : RiskLevel :=
  if (75 <? gapScore)%float then HIGH
  else if (60 <? gapScore)%float then MEDIUM
  else LOW.

End Binary64.

(** * Concrete runs

    The inputs at which the theorems below are instantiated.  A state is
    built by the public methods (or the routes) from the initial one; the
    two exceptions say so. *)

Module Scenario.
Import JS.

(** A runtime whose UUIDs carry the time of the call and whose random draws
    are the constant [draw]. *)
Definition rt_at (t : Z) (draw : number) : Runtime :=
  {| now := t;
     randomUUID := fun k =>
       ("uuid-" +:+ NilZero.string_of_int (Z.to_int t) +:+ "-" +:+ string_of_nat k)%string;
     random := fun _ => draw |}.

Definition hour : Z := 60 * 60 * 1000.

(** ** The API *)

Definition as_analyst (who : string) (b : Api.Body.t) : Api.Request :=
  {| Api.limited := false;
     Api.authorization := Api.valid_token (Api.Decoded.mk who "analyst");
     Api.user := None;
     Api.body := b |}.

(** Alice reports a fully loaded observer, herself: the route computes
    [0.4 + 0.6 = 1 > 0.7], tier critical, and sets a 24 h cooldown. *)
Definition load_report : Api.Body.t :=
  Api.Body.mk (Some "observed") (Some "direct") (Some "alice")%string
    None None None None None None None None None None None None None
    (Some "alice"%string) (Some (of_Z 3)) (Some (of_Z 1)) (Some (of_Z 1))
    None None None.

Definition db_cooling : Api.Db :=
  fst (Api.serve Api.POST_oli_update_load (Api.schema_db 0) (rt_at 0 (of_Z 0))
         (as_analyst "alice" load_report)).

(** A reasoning frame that declares a weight of 0.99. *)
Definition over_cap : Api.Body.t :=
  Api.Body.mk (Some "observed") (Some "direct") (Some "alice")%string
    (Some "Beneficiary_Tracing"%string) (Some (num 0.99)) None None None
    None None None None None None None None None None None None None None None.

(** A database with one purpose, written out because no route declares
    purposes, and ten usage events tracked through the API. *)
Definition purpose_id : string := "3f0c8d9e-5a51-4c43-9f43-0d8f3c1f7a10".

Definition db_with_purpose : Api.Db :=
  {| Api.tbl_reasoning_frames := [];
     Api.tbl_questions := [];
     Api.tbl_lagged_outcomes := [];
     Api.tbl_observer_metrics := ∅;
     Api.tbl_system_purposes :=
       {[ purpose_id :=
            Api.system_purposes.mk "detect institutional decay" 0 0 "governance"
              {| Api.data_scope := "observed"; Api.evidence_type := "direct";
                 Api.origin := "admin" |} 0 ]};
     Api.tbl_usage_events := [] |}.

Definition usage_report : Api.Body.t :=
  Api.Body.mk (Some "observed") (Some "direct") (Some "alice")%string
    None None None None None None None None None None None None None
    None None None None
    (Some purpose_id) (Some "audit"%string) (Some "quarterly decay audit"%string).

Definition db_ten_events : Api.Db :=
  List.fold_left
    (fun db t =>
       fst (Api.serve Api.POST_pds_track_usage db (rt_at t (of_Z 0))
              (as_analyst "alice" usage_report)))
    (List.map Z.of_nat (List.seq 1 10)) db_with_purpose.

(** A reasoning frame that declares a weight of 0.946, below the cap. *)
Definition rounded_weight : Api.Body.t :=
  Api.Body.mk (Some "observed") (Some "direct") (Some "alice")%string
    (Some "Beneficiary_Tracing"%string) (Some (num 0.946)) None None None
    None None None None None None None None None None None None None None None.

Definition db_rounded : Api.Db :=
  fst (Api.serve Api.POST_rpl_track (Api.schema_db 0) (rt_at 5 (of_Z 0))
         (as_analyst "bob" rounded_weight)).

(** A reasoning frame built on simulated data. *)
Definition simulated_frame : Api.Body.t :=
  Api.Body.mk (Some "simulated") (Some "estimated") (Some "scenario-lab")%string
    (Some "RSGD_360_Spiral"%string) (Some (num 0.5)) None None None
    None None None None None None None None None None None None None None None.

(** A date text written in UTC, which both readers take alike. *)
Definition utc (t : Z) : Api.DateText.t := Api.DateText.mk (of_Z t) (Some (1000 * t)).

(** An outcome whose benefit came 200 days after the decision, and one whose
    benefit is dated two days and one millisecond before the decision. *)
Definition late_benefit : Api.Body.t :=
  Api.Body.mk (Some "observed") (Some "direct") (Some "alice")%string
    None None None None None None None None None
    (Some "decision-1"%string) (Some (utc 0)) (Some "B"%string)
    (Some (utc (200 * (24 * 60 * 60 * 1000))))
    None None None None None None None.

Definition db_late_benefit : Api.Db :=
  fst (Api.serve Api.POST_loa_track_outcome (Api.schema_db 0) (rt_at 0 (of_Z 0))
         (as_analyst "alice" late_benefit)).

Definition early_benefit : Api.Body.t :=
  Api.Body.mk (Some "observed") (Some "direct") (Some "alice")%string
    None None None None None None None None None
    (Some "decision-2"%string) (Some (utc (10 * (24 * 60 * 60 * 1000)))) (Some "B"%string)
    (Some (utc (8 * (24 * 60 * 60 * 1000) - 1)))
    None None None None None None None.

(** A decision dated 2024-03-10 23:30 at the offset -05:00 with a benefit
    dated 2024-03-11 00:30 at +09:00: the benefit came 13 hours before the
    decision, and the texts read one day apart once the offsets are
    dropped. *)
Definition offset_dates : Api.Body.t :=
  Api.Body.mk (Some "observed") (Some "direct") (Some "alice")%string
    None None None None None None None None None
    (Some "decision-3"%string)
    (Some (Api.DateText.mk (of_Z 1710131400000) (Some 1710113400000000)))
    (Some "B"%string)
    (Some (Api.DateText.mk (of_Z 1710084600000) (Some 1710117000000000)))
    None None None None None None None.

Definition db_offset_dates : Api.Db :=
  fst (Api.serve Api.POST_loa_track_outcome (Api.schema_db 0) (rt_at 0 (of_Z 0))
         (as_analyst "alice" offset_dates)).

(** ** QEM *)

Definition week : Z := 7 * 24 * 60 * 60 * 1000.

(** A question of [domain] asked at time [t]. *)
Definition ask (domain : string) (t : Z) : QEM.QuestionInput.t :=
  QEM.QuestionInput.mk domain "Who audits the auditors?" "alice" (Some t) false None
    (of_Z 3) (of_Z 3).

(** Registers the questions one call after the other, a millisecond apart,
    from time [t0] on. *)
Definition register_all (st : QEM.State) (t0 : Z) (qs : list QEM.QuestionInput.t)
  : QEM.State :=
  fst (List.fold_left
         (fun acc q =>
            (QEM.registerQuestion (fst acc) (rt_at (snd acc) (of_Z 0)) q, snd acc + 1))
         qs (st, t0)).

(** The clock of the QEM runs: week 20. *)
Definition qem_now : Z := 20 * week.

(** 139 registered questions of one domain: 4 asked thirteen weeks ago
    (before the baseline window), 16 asked last week and 119 asked six
    weeks ago (inside the baseline window, four to twelve weeks back). *)
Definition st_139 : QEM.State :=
  register_all QEM.initial qem_now
    (List.repeat (ask "vendor-oversight" (qem_now - 13 * week)) 4
     ++ List.repeat (ask "vendor-oversight" (qem_now - week)) 16
     ++ List.repeat (ask "vendor-oversight" (qem_now - 6 * week)) 119).

(** The 140th question is the 120th of the baseline window: the rates are
    120/12 = 10 and 16/4 = 4 a week, and [registerQuestion] checks the
    entropy, as on every tenth question. *)
Definition rt_140 : Runtime := rt_at (qem_now + 139) (of_Z 0).

Definition st_140 : QEM.State :=
  QEM.registerQuestion st_139 rt_140 (ask "vendor-oversight" (qem_now - 6 * week)).

(** Twelve questions asked six weeks ago, then eight asked last week: the
    rate doubles from 1 to 2 a week. *)
Definition st_rising : QEM.State :=
  register_all QEM.initial qem_now
    (List.repeat (ask "vendor-oversight" (qem_now - 6 * week)) 12
     ++ List.repeat (ask "vendor-oversight" (qem_now - week)) 8).

Definition rt_rising : Runtime := rt_at (qem_now + 20) (of_Z 0).

(** ** LOA *)

Definition day : Z := 24 * 60 * 60 * 1000.

(** Decision [i] for beneficiary B: decided on day 0, benefit realised on
    day 200, tracked on day 300 plus [i] hours. *)
Definition outcome_B (i : nat) : LOA.OutcomeInput.t :=
  LOA.OutcomeInput.mk ("decision-" +:+ string_of_nat i)%string 0 "B" (200 * day) None.

Definition rt_B (i : nat) : Runtime := rt_at (300 * day + Z.of_nat i * hour) (of_Z 0).

Definition track_B (st : LOA.State) (i : nat) : LOA.State :=
  LOA.trackOutcome st (rt_B i) (outcome_B i).

Definition st_B (n : nat) : LOA.State :=
  List.fold_left track_B (List.seq 0 n) LOA.initial.


(** ** OLI *)

(** The observer of the worked example: 25 audits, last break 50 h ago.
    The class has no method that records a break, so the register of breaks
    is written out. *)
Definition oli_now : Z := 100 * hour.

Definition st_observer : OLI.State :=
  {| OLI.observers := [];
     OLI.loadAlerts := [];
     OLI.cooldownQueue := [];
     OLI.lastBreaks := [("observer-3"%string, oli_now - 50 * hour)] |}.

Definition metrics_example : OLI.ObserverMetrics.t :=
  OLI.ObserverMetrics.mk "observer-3" (of_Z 25) (num 0.55) (num 0.75) OLI.low oli_now.

(** Seven reviews by the same observer with every draw of [Math.random()]
    at 0.9: the rates are 0.54 and 0.72, the score is 3 + 2 + 2 = 7 (8 from
    the sixth audit on) and every review raises an alert. *)
Definition review : OLI.ReviewTask.t :=
  OLI.ReviewTask.mk "task-1" "observer-3" "audit" oli_now (of_Z 1) (of_Z 0).

Definition st_reviews : OLI.State :=
  List.fold_left
    (fun st id => OLI.updateObserverLoad st (rt_at oli_now (num 0.9)) id review)
    (List.repeat "observer-3"%string 7) OLI.initial.

(** ** PDS *)

(** A purpose whose intent has no word longer than three characters. *)
Definition short_intent : PDS.PurposeInput.t :=
  PDS.PurposeInput.mk "be ok" (Some 0) "governance".

Definition st_short_intent : PDS.State :=
  fst (PDS.registerPurpose PDS.initial (rt_at 0 (of_Z 0)) short_intent).

Definition short_id : string :=
  snd (PDS.registerPurpose PDS.initial (rt_at 0 (of_Z 0)) short_intent).

Definition usage (t : Z) : PDS.EventInput.t :=
  PDS.EventInput.mk "audit" "quarterly decay audit" (Some t) None.

Definition st_short_ten : PDS.State :=
  List.fold_left
    (fun st t => PDS.trackUsage st (rt_at t (of_Z 0)) short_id (usage t))
    (List.map Z.of_nat (List.seq 1 10)) st_short_intent.

(** A purpose that drifts: ten events that share no keyword with the
    intent give a semantic divergence of 1 and an overall drift of 0.7; the
    tenth [trackUsage] raises the alert and pauses the system. *)
Definition decay_intent : PDS.PurposeInput.t :=
  PDS.PurposeInput.mk "Detect institutional decay early" (Some 0) "governance".

Definition st_decay : PDS.State :=
  fst (PDS.registerPurpose PDS.initial (rt_at 0 (of_Z 0)) decay_intent).

Definition decay_id : string :=
  snd (PDS.registerPurpose PDS.initial (rt_at 0 (of_Z 0)) decay_intent).

Definition decay_purpose : PDS.SystemPurpose.t :=
  PDS.SystemPurpose.mk decay_id "Detect institutional decay early" 0 0 "governance".

Definition off_purpose (t : Z) : PDS.EventInput.t :=
  PDS.EventInput.mk "research" "competitor pricing research" (Some t) None.

Definition st_paused : PDS.State :=
  List.fold_left
    (fun st t => PDS.trackUsage st (rt_at t (of_Z 0)) decay_id (off_purpose t))
    (List.map Z.of_nat (List.seq 1 10)) st_decay.

(** ** RPL *)

Definition frame_of (framework : string) (w : Q) : RPL.FrameInput.t :=
  RPL.FrameInput.mk framework (num w) None (num 0.001) None None None None None.

(** Two frames of the same framework. *)
Definition st_devil : RPL.State :=
  RPL.trackReasoning
    (RPL.trackReasoning RPL.initial (rt_at 1 (of_Z 0)) (frame_of "Devil_Lens_Critique" 0.8))
    (rt_at 2 (of_Z 0)) (frame_of "Devil_Lens_Critique" 0.9).

(** A third frame, of another framework. *)
Definition st_mixed : RPL.State :=
  RPL.trackReasoning st_devil (rt_at 3 (of_Z 0)) (frame_of "RSGD_360_Spiral" 0.6).

End Scenario.

(** * Tactics *)

(** The case analysis of the gate, in the order of its checks. *)
Ltac gate_cases db rt req :=
  unfold Api.epistemicHygieneMiddleware;
  destruct (Api.falsy (option_map Api.User.id (Api.user req))
            || Api.falsy (option_map Api.User.role (Api.user req)));
  [ | destruct (Api.tbl_observer_metrics db !! _) as [?row | ];
      [ destruct (match Api.observer_metrics.cooldown_until _ with
                  | Some t => now rt <? t
                  | None => false
                  end);
        [ | destruct (JS.geb _ _) ] | ];
      try (destruct (Api.Body.confidenceWeight (Api.body req)) as [?c | ];
           [ destruct (JS.gtb _ Api.MAX_CONFIDENCE_WEIGHT) | ];
           try destruct (_ && negb _)) ].

(** Inversion of a successful sequence of column checks. *)
Ltac binds H :=
  repeat (let x := fresh "x" in
          let E := fresh "E" in
          apply bind_Some in H as (x & E & H));
  try (injection H as <-).

(** Case analysis on the comparisons of naturals in the goal. *)
Ltac nat_cases :=
  repeat match goal with
         | |- context [(?a <? ?b)%nat] =>
             let E := fresh "E" in
             destruct (a <? b)%nat eqn:E;
             [ apply Nat.ltb_lt in E | apply Nat.ltb_ge in E ]
         end.

(** * Facts about numbers and maps *)

Section NumberFacts.
Import JS.

(** [x >= y] excludes [x < y]; an undefined comparison excludes both. *)
Lemma geb_not_ltb (x y : number) : (x >=? y)%js = true -> (x <? y)%js = false.
Proof.
  destruct x as [ | | | a], y as [ | | | b]; cbn; try congruence.
  intros ->. reflexivity.
Qed.

End NumberFacts.

Section MapFacts.
Context {V : Type}.

Lemma JsMap_get_set_eq (m : list (string * V)) (k : string) (v : V) :
  JsMap.get (JsMap.set m k v) k = Some v.
Proof.
  induction m as [ | [k' v'] m IH]; cbn.
  - rewrite String.eqb_refl. reflexivity.
  - destruct (String.eqb k' k) eqn:E; cbn; rewrite E; [ reflexivity | exact IH ].
Qed.

End MapFacts.

(** * The admission gate and the routes *)

Section ApiFacts.
Import JS Api.

Lemma authMiddleware_not_admission allowedRoles req reply :
  authMiddleware allowedRoles req = inl reply -> rejection reply = None.
Proof.
  unfold authMiddleware.
  destruct (authorization req) as [ | | decoded]; try (intros [= <-]; reflexivity).
  destruct (negb _); intros [= <-]; reflexivity.
Qed.

Lemma validateDataScope_not_admission req reply :
  validateDataScope req = inl reply -> rejection reply = None.
Proof.
  unfold validateDataScope.
  repeat match goal with
         | |- context [if ?c then _ else _] => destruct c
         end; intros [= <-]; reflexivity.
Qed.

Lemma handler_not_admission e db rt req :
  rejection (snd (handler e db rt req)) = None.
Proof.
  destruct e; cbn [handler].
  - unfold rpl_track. destruct (insert_reasoning_frame rt req); reflexivity.
  - unfold qem_register. destruct (insert_question rt req); reflexivity.
  - unfold loa_track_outcome. destruct (insert_lagged_outcome _ _ _ _); reflexivity.
  - unfold oli_update_load. destruct (upsert_observer_metrics _ _ _ _ _) as [[? ?]|]; reflexivity.
  - unfold pds_track_usage. destruct (insert_usage_event _ _ _); reflexivity.
Qed.

Lemma ungated_chain_not_admission db rt req reply :
  runChain [auth ["analyst"; "admin"]%string; validate] db rt req = inl reply ->
  rejection reply = None.
Proof.
  cbn [runChain runMiddleware].
  destruct (authMiddleware _ req) as [r | req1] eqn:Hauth.
  - intros [= <-]. eapply authMiddleware_not_admission; eassumption.
  - destruct (validateDataScope req1) as [r | req2] eqn:Hval; [ | discriminate].
    intros [= <-]. eapply validateDataScope_not_admission; eassumption.
Qed.

(** C5.  Of all the routes of the server, only the RPL tracking route
    registers the admission gate ([epistemicHygieneMiddleware]).  A
    submission to any of the four other writing routes (QEM register, LOA
    track-outcome, OLI update-load, PDS track-usage) never meets the
    cooldown, concurrency, confidence-cap or simulated-scope check: whatever
    the database, the clock and the request, its reply is none of
    CooldownActive, ConcurrencyExceeded, ConfidenceCapExceeded,
    UnauthorizedScope. *)
Theorem only_rpl_track_is_gated (e : Endpoint) (db : Db) (rt : Runtime) (req : Request) :
  e <> POST_rpl_track ->
  ~ In epistemicHygiene (chain e)
  /\ rejection (snd (serve e db rt req)) = None
  /\ (forall r : Route, In epistemicHygiene (registered r) <-> r = rpl_track_route).
Proof.
  intros He. split; [ | split ].
  - destruct e; try congruence; cbn; intros [H | [H | []]]; discriminate.
  - unfold serve. destruct (limited req); [ reflexivity | ].
    destruct (runChain (chain e) db rt req) as [reply | req'] eqn:Hchain.
    + destruct e; try congruence; cbn [chain route registered] in Hchain;
        eapply ungated_chain_not_admission; eassumption.
    + apply handler_not_admission.
  - intros r. split.
    + destruct r; cbn; intros H; try reflexivity;
        repeat (destruct H as [H | H]; try discriminate H); contradiction.
    + intros ->. cbn. auto.
Qed.

Lemma only_rpl_track_is_gated_witness :
  POST_oli_update_load <> POST_rpl_track
  /\ ~ In epistemicHygiene (chain POST_oli_update_load)
  /\ rejection
       (snd (serve POST_oli_update_load (schema_db 0) (Scenario.rt_at 0 (of_Z 0))
               (Scenario.as_analyst "alice" Scenario.load_report))) = None
  /\ (forall r : Route, In epistemicHygiene (registered r) <-> r = rpl_track_route).
Proof.
  assert (H : POST_oli_update_load <> POST_rpl_track) by discriminate.
  split; [ exact H | ].
  exact (only_rpl_track_is_gated POST_oli_update_load _ _ _ H).
Defined.

Lemma gate_rejects_over_cap db rt req c :
  Body.confidenceWeight (body req) = Some c ->
  (c >? MAX_CONFIDENCE_WEIGHT)%js = true ->
  exists reply,
    epistemicHygieneMiddleware db rt req = inl reply
    /\ (rejection reply = Some ConfidenceCapExceeded_
        \/ rejection reply = Some CooldownActive
        \/ rejection reply = Some ConcurrencyExceeded
        \/ reply = AuthenticationRequired).
Proof.
  intros Hc Hgt. unfold epistemicHygieneMiddleware.
  destruct (falsy _ || falsy _); [ eauto 10 | ].
  destruct (tbl_observer_metrics db !! _) as [row | ].
  - destruct (match observer_metrics.cooldown_until row with
              | Some t => now rt <? t | None => false end); [ eauto 10 | ].
    destruct (_ >=? _)%js; [ eauto 10 | ].
    rewrite Hc, Hgt. eauto 10.
  - rewrite Hc, Hgt. eauto 10.
Qed.

(** When the checks that come first pass, the over-cap submission gets the
    confidence-cap rejection. *)
Lemma gate_cap_when_earlier_checks_pass db rt req c u :
  Body.confidenceWeight (body req) = Some c ->
  (c >? MAX_CONFIDENCE_WEIGHT)%js = true ->
  user req = Some u ->
  User.id u <> ""%string -> User.role u <> ""%string ->
  (forall row,
      tbl_observer_metrics db !! User.id u = Some row ->
      (forall t, observer_metrics.cooldown_until row = Some t -> t <= now rt)
      /\ (of_Z (observer_metrics.concurrent_audits row)
          >=? ToNumber (MAX_CONCURRENT_AUDITS (User.role u)))%js = false) ->
  epistemicHygieneMiddleware db rt req
  = inl (ConfidenceCapExceeded c MAX_CONFIDENCE_WEIGHT).
Proof.
  intros Hc Hgt Hu Hid Hrole Hrow. unfold epistemicHygieneMiddleware.
  rewrite Hu. cbn [option_map falsy default from_option id].
  apply String.eqb_neq in Hid, Hrole. rewrite Hid, Hrole. cbn [orb].
  destruct (tbl_observer_metrics db !! User.id u) as [row | ].
  - destruct (Hrow row eq_refl) as [Hcool Hload].
    rewrite Hload.
    destruct (observer_metrics.cooldown_until row) as [t | ].
    + specialize (Hcool t eq_refl). apply Z.ltb_ge in Hcool. rewrite Hcool.
      rewrite Hc, Hgt. reflexivity.
    + rewrite Hc, Hgt. reflexivity.
  - rewrite Hc, Hgt. reflexivity.
Qed.

Lemma authMiddleware_body allowedRoles req req' :
  authMiddleware allowedRoles req = inr req' -> body req' = body req.
Proof.
  unfold authMiddleware.
  destruct (authorization req); try discriminate.
  destruct (negb _); [ discriminate | ]. intros [= <-]. reflexivity.
Qed.

Lemma authMiddleware_error allowedRoles req reply :
  authMiddleware allowedRoles req = inl reply -> 400 <= status reply.
Proof.
  unfold authMiddleware.
  destruct (authorization req); try (intros [= <-]; cbn; lia).
  destruct (negb _); intros [= <-]; cbn; lia.
Qed.

Lemma rpl_track_over_cap_is_refused db rt req c :
  Body.confidenceWeight (body req) = Some c ->
  (c >? MAX_CONFIDENCE_WEIGHT)%js = true ->
  fst (serve POST_rpl_track db rt req) = db
  /\ 400 <= status (snd (serve POST_rpl_track db rt req)).
Proof.
  intros Hc Hgt. unfold serve. cbn [chain route registered runChain runMiddleware].
  destruct (limited req); [ split; [ reflexivity | cbn; lia ] | ].
  destruct (authMiddleware _ req) as [reply | req1] eqn:Hauth.
  - split; [ reflexivity | ]. eapply authMiddleware_error; eassumption.
  - apply authMiddleware_body in Hauth. rewrite <- Hauth in Hc.
    destruct (gate_rejects_over_cap db rt req1 c Hc Hgt) as (reply & -> & Hkind).
    split; [ reflexivity | ].
    destruct Hkind as [H | [H | [H | ->]]];
      try (destruct reply; try discriminate H); cbn; lia.
Qed.

Lemma CHECK_Some {A} (cond : A -> bool) v w :
  CHECK cond v = Some w -> w = v /\ cond v = true.
Proof. unfold CHECK. destruct (cond v) eqn:E; [ intros [= <-]; auto | discriminate ]. Qed.

(** What a [VARCHAR(n)] column keeps of a text: the text itself when it
    fits, and otherwise its first [n] characters, the rest being spaces. *)
Lemma VARCHAR_Some n s v :
  VARCHAR n s = Some v ->
  exists excess,
    s = (v ++ excess)%string /\ all_spaces excess = true /\ (String.length v <= n)%nat.
Proof.
  revert s v. induction n as [ | n IH]; intros [ | c rest] v; cbn [VARCHAR].
  - intros [= <-]. exists EmptyString. split_and!; first [ reflexivity | cbn; lia ].
  - destruct (all_spaces (String c rest)) eqn:E; [ | discriminate ].
    intros [= <-]. exists (String c rest).
    split_and!; first [ reflexivity | exact E | cbn; lia ].
  - intros [= <-]. exists EmptyString. split_and!; first [ reflexivity | cbn; lia ].
  - destruct (VARCHAR n rest) as [v' | ] eqn:E; [ | discriminate ].
    intros [= <-]. destruct (IH rest v' E) as (excess & -> & Hsp & Hlen).
    exists excess. split_and!; first [ reflexivity | exact Hsp | cbn; lia ].
Qed.


Lemma is_blank_app (a b : string) : is_blank (a ++ b) = is_blank a && is_blank b.
Proof.
  induction a as [ | c a IH]; [ reflexivity | ].
  change (String c a ++ b)%string with (String c (a ++ b)).
  cbn [is_blank]. rewrite IH. apply andb_assoc.
Qed.

Lemma all_spaces_blank (s : string) : all_spaces s = true -> is_blank s = true.
Proof.
  induction s as [ | c s IH]; cbn [all_spaces is_blank]; [ reflexivity | ].
  intros H. apply andb_prop in H as [Hc Hs]. apply Ascii.eqb_eq in Hc. subst c.
  rewrite (IH Hs). reflexivity.
Qed.


(** A text that is not blank stays so in its column. *)
Lemma VARCHAR_not_blank n s v :
  VARCHAR n s = Some v -> is_blank s = false -> is_blank v = false.
Proof.
  intros Hv Hs. apply VARCHAR_Some in Hv as (excess & -> & Hsp & _).
  rewrite is_blank_app, (all_spaces_blank _ Hsp), andb_true_r in Hs. exact Hs.
Qed.

Lemma between_spec lo hi q :
  between lo hi q = true -> (lo <= q)%Q /\ (q <= hi)%Q.
Proof.
  unfold between. intros H. apply andb_prop in H as [H1 H2].
  apply Qle_bool_iff in H1, H2. auto.
Qed.

Lemma insert_reasoning_frame_weight rt req row :
  insert_reasoning_frame rt req = Some row ->
  (0 <= reasoning_frames.confidence_weight row)%Q
  /\ (reasoning_frames.confidence_weight row <= 0.95)%Q.
Proof.
  unfold insert_reasoning_frame. intros H.
  simplify_option_eq.
  match goal with
  | H : CHECK _ _ = Some _ |- _ => apply CHECK_Some in H as [-> H]
  end.
  cbn [reasoning_frames.confidence_weight]. apply between_spec. assumption.
Qed.

Lemma serve_keeps_weights_capped e db rt req :
  weights_capped db -> weights_capped (fst (serve e db rt req)).
Proof.
  intros Hdb. unfold serve. destruct (limited req); [ exact Hdb | ].
  destruct (runChain (chain e) db rt req) as [reply | req']; [ exact Hdb | ].
  destruct e; cbn [handler].
  - unfold rpl_track. destruct (insert_reasoning_frame rt req') as [row | ] eqn:Hrow;
      [ | exact Hdb ].
    unfold weights_capped. cbn. apply Forall_app. split; [ exact Hdb | ].
    constructor; [ | constructor ]. eapply insert_reasoning_frame_weight; eassumption.
  - unfold qem_register. destruct (insert_question rt req'); exact Hdb.
  - unfold loa_track_outcome. destruct (insert_lagged_outcome _ _ _ _); exact Hdb.
  - unfold oli_update_load.
    destruct (upsert_observer_metrics _ _ _ _ _) as [[? ?] | ]; exact Hdb.
  - unfold pds_track_usage. destruct (insert_usage_event _ _ _); exact Hdb.
Qed.

Lemma reachable_weights_capped db : reachable db -> weights_capped db.
Proof.
  induction 1 as [t | db e rt req _ IH].
  - constructor.
  - apply serve_keeps_weights_capped. exact IH.
Qed.

(** The three checks that come before the cap, in the order of the gate. *)
Lemma gate_checks_authentication_first db rt req :
  (forall u, user req = Some u -> User.id u = ""%string \/ User.role u = ""%string) ->
  epistemicHygieneMiddleware db rt req = inl AuthenticationRequired.
Proof.
  intros Hu. unfold epistemicHygieneMiddleware.
  destruct (user req) as [u | ]; [ | reflexivity ].
  cbn [option_map falsy].
  destruct (Hu u eq_refl) as [-> | ->]; cbn; [ reflexivity | ].
  rewrite orb_true_r. reflexivity.
Qed.

Lemma gate_checks_cooldown_second db rt req u row t :
  user req = Some u ->
  User.id u <> ""%string -> User.role u <> ""%string ->
  tbl_observer_metrics db !! User.id u = Some row ->
  observer_metrics.cooldown_until row = Some t ->
  now rt < t ->
  exists minutes,
    epistemicHygieneMiddleware db rt req = inl (CognitiveCooldownActive minutes t).
Proof.
  intros Hu Hid Hrole Hrow Ht Hnow. unfold epistemicHygieneMiddleware.
  rewrite Hu. cbn [option_map falsy default from_option id].
  apply String.eqb_neq in Hid, Hrole. rewrite Hid, Hrole. cbn [orb].
  rewrite Hrow, Ht. apply Z.ltb_lt in Hnow. rewrite Hnow.
  cbn [default from_option id]. eexists. reflexivity.
Qed.

Lemma gate_checks_concurrency_third db rt req u row :
  user req = Some u ->
  User.id u <> ""%string -> User.role u <> ""%string ->
  tbl_observer_metrics db !! User.id u = Some row ->
  (forall t, observer_metrics.cooldown_until row = Some t -> t <= now rt) ->
  (of_Z (observer_metrics.concurrent_audits row)
   >=? ToNumber (MAX_CONCURRENT_AUDITS (User.role u)))%js = true ->
  epistemicHygieneMiddleware db rt req
  = inl (CognitiveLoadExceeded (of_Z (observer_metrics.concurrent_audits row))
           (ToNumber (MAX_CONCURRENT_AUDITS (User.role u))) (User.role u)).
Proof.
  intros Hu Hid Hrole Hrow Hover Hmax. unfold epistemicHygieneMiddleware.
  rewrite Hu. cbn [option_map falsy default from_option id].
  apply String.eqb_neq in Hid, Hrole. rewrite Hid, Hrole. cbn [orb].
  rewrite Hrow, Hmax.
  destruct (observer_metrics.cooldown_until row) as [t | ]; [ | reflexivity ].
  assert (Hnow : (now rt <? t) = false) by (apply Z.ltb_ge, Hover; reflexivity).
  rewrite Hnow. reflexivity.
Qed.

(** C1, as the code has it.  A submission to the RPL tracking route that
    declares a [confidenceWeight] strictly above 0.95 is always refused by
    the admission gate, and nothing is written.  The gate checks in this
    order: authentication, cooldown, concurrency, confidence cap; the reply
    is the rejection of the first check that fails.  So it is 401 when the
    actor is not authenticated; otherwise the cooldown rejection when the
    actor's observer row has a cooldown that still runs; otherwise the
    concurrency rejection when that row counts as many concurrent audits
    as the role allows, or more; and the confidence-cap rejection when
    those three checks pass, that is when the actor is authenticated and
    either has no observer row or has one whose cooldown is over and whose
    concurrent audits are below the limit of the role.  Consequently every
    row of [reasoning_frames], in every reachable state of the database,
    has a weight of at most 0.95. *)
Theorem confidence_cap_enforced :
  (forall (db : Db) (rt : Runtime) (req : Request) (c : number),
      Body.confidenceWeight (body req) = Some c ->
      (c >? MAX_CONFIDENCE_WEIGHT)%js = true ->
      (exists reply,
          epistemicHygieneMiddleware db rt req = inl reply
          /\ (rejection reply = Some ConfidenceCapExceeded_
              \/ rejection reply = Some CooldownActive
              \/ rejection reply = Some ConcurrencyExceeded
              \/ reply = AuthenticationRequired))
      /\ ((forall u,
              user req = Some u -> User.id u = ""%string \/ User.role u = ""%string) ->
          epistemicHygieneMiddleware db rt req = inl AuthenticationRequired)
      /\ (forall u row,
             user req = Some u ->
             User.id u <> ""%string -> User.role u <> ""%string ->
             tbl_observer_metrics db !! User.id u = Some row ->
             (forall t,
                 observer_metrics.cooldown_until row = Some t ->
                 now rt < t ->
                 exists minutes,
                   epistemicHygieneMiddleware db rt req
                   = inl (CognitiveCooldownActive minutes t))
             /\ ((forall t, observer_metrics.cooldown_until row = Some t -> t <= now rt) ->
                 (of_Z (observer_metrics.concurrent_audits row)
                  >=? ToNumber (MAX_CONCURRENT_AUDITS (User.role u)))%js = true ->
                 epistemicHygieneMiddleware db rt req
                 = inl (CognitiveLoadExceeded
                          (of_Z (observer_metrics.concurrent_audits row))
                          (ToNumber (MAX_CONCURRENT_AUDITS (User.role u)))
                          (User.role u))))
      /\ (forall u,
             user req = Some u ->
             User.id u <> ""%string -> User.role u <> ""%string ->
             (forall row,
                 tbl_observer_metrics db !! User.id u = Some row ->
                 (forall t, observer_metrics.cooldown_until row = Some t -> t <= now rt)
                 /\ (of_Z (observer_metrics.concurrent_audits row)
                     >=? ToNumber (MAX_CONCURRENT_AUDITS (User.role u)))%js = false) ->
             epistemicHygieneMiddleware db rt req
             = inl (ConfidenceCapExceeded c MAX_CONFIDENCE_WEIGHT))
      /\ fst (serve POST_rpl_track db rt req) = db
      /\ 400 <= status (snd (serve POST_rpl_track db rt req)))
  /\ (forall db : Db,
        reachable db ->
        Forall (fun row => (reasoning_frames.confidence_weight row <= 0.95)%Q)
          (tbl_reasoning_frames db)).
Proof.
  split.
  - intros db rt req c Hc Hgt. split_and!.
    + apply gate_rejects_over_cap with (c := c); assumption.
    + apply gate_checks_authentication_first.
    + intros u row Hu Hid Hrole Hrow. split.
      * intros t Ht Hnow. eapply gate_checks_cooldown_second; eassumption.
      * intros Hover Hmax. eapply gate_checks_concurrency_third; eassumption.
    + intros u Hu Hid Hrole Hrow.
      apply gate_cap_when_earlier_checks_pass with (u := u); assumption.
    + apply rpl_track_over_cap_is_refused with (c := c); assumption.
    + apply rpl_track_over_cap_is_refused with (c := c); assumption.
  - apply reachable_weights_capped.
Qed.

Lemma confidence_cap_enforced_witness :
  Body.confidenceWeight (body (Scenario.as_analyst "bob" Scenario.over_cap))
  = Some (num 0.99)
  /\ (num 0.99 >? MAX_CONFIDENCE_WEIGHT)%js = true
  /\ fst (serve POST_rpl_track (schema_db 0) (Scenario.rt_at 1000 (of_Z 0))
            (Scenario.as_analyst "bob" Scenario.over_cap)) = schema_db 0
  /\ 400 <= status
              (snd (serve POST_rpl_track (schema_db 0) (Scenario.rt_at 1000 (of_Z 0))
                      (Scenario.as_analyst "bob" Scenario.over_cap))).
Proof.
  assert (H1 : Body.confidenceWeight (body (Scenario.as_analyst "bob" Scenario.over_cap))
               = Some (num 0.99)) by reflexivity.
  assert (H2 : (num 0.99 >? MAX_CONFIDENCE_WEIGHT)%js = true) by reflexivity.
  split; [ exact H1 | split; [ exact H2 | ] ].
  exact (proj2 (proj2 (proj2 (proj2 (proj1 confidence_cap_enforced (schema_db 0)
                                       (Scenario.rt_at 1000 (of_Z 0))
                                       (Scenario.as_analyst "bob" Scenario.over_cap)
                                       (num 0.99) H1 H2))))).
Defined.

(** C1 as stated fails: Alice, an analyst, reports herself fully loaded, so
    that the update-load route puts her in a 24 h cooldown; one second
    later she submits a frame declaring a weight of 0.99.  The gate refuses
    it with the cooldown rejection (status 429), not with the
    confidence-cap rejection: the cooldown check comes first. *)
Lemma cooldown_precedes_confidence_cap :
  reachable Scenario.db_cooling
  /\ Body.confidenceWeight Scenario.over_cap = Some (num 0.99)
  /\ (num 0.99 >? MAX_CONFIDENCE_WEIGHT)%js = true
  /\ snd (serve POST_rpl_track Scenario.db_cooling (Scenario.rt_at 1000 (of_Z 0))
            (Scenario.as_analyst "alice" Scenario.over_cap))
     = CognitiveCooldownActive (of_Z 1440) 86400000
  /\ rejection
       (snd (serve POST_rpl_track Scenario.db_cooling (Scenario.rt_at 1000 (of_Z 0))
               (Scenario.as_analyst "alice" Scenario.over_cap)))
     <> Some ConfidenceCapExceeded_.
Proof.
  split; [ | split; [ | split; [ | split ] ] ].
  - apply reachable_serve, reachable_schema.
  - reflexivity.
  - reflexivity.
  - vm_compute. reflexivity.
  - vm_compute. discriminate.
Qed.

End ApiFacts.

(** * QEM: the entropy gap *)

Section QemFacts.
Import JS QEM.

(** Below twenty questions the metric is the neutral record. *)
Lemma calculateEntropy_neutral (st : State) (rt : Runtime) (domain : string) :
  (List.length (default [] (JsMap.get (questionRegistry st) domain)) < 20)%nat ->
  calculateEntropy st rt domain
  = EntropyMetrics.mk domain (of_Z 0) (of_Z 0) (of_Z 0) STABLE (now rt).
Proof.
  intros Hlen. unfold calculateEntropy.
  apply Nat.ltb_lt in Hlen. rewrite Hlen. reflexivity.
Qed.

Lemma calculateEntropy_ten_to_four (st : State) (rt : Runtime) (domain : string) :
  EntropyMetrics.historicalFrequency (calculateEntropy st rt domain) = of_Z 10 ->
  EntropyMetrics.currentFrequency (calculateEntropy st rt domain) = of_Z 4 ->
  calculateEntropy st rt domain
  = EntropyMetrics.mk domain (of_Z 10) (of_Z 4) (of_Z 60) DROPPING (now rt).
Proof.
  unfold calculateEntropy.
  destruct (List.length _ <? 20)%nat; [ discriminate | ].
  cbn [EntropyMetrics.historicalFrequency EntropyMetrics.currentFrequency].
  intros -> ->. reflexivity.
Qed.

(** C6, as the code has it.  For a domain whose historical rate is 10
    questions a week and whose current rate is 4 a week, the gap score is
    60 (percent, that is 0.6), an alert fires because 60 is strictly above
    the threshold 50, and the severity of that alert is LOW: MEDIUM needs a
    gap strictly above 60 and HIGH a gap strictly above 75. *)
Theorem ten_to_four_alert_is_low (st : State) (rt : Runtime) (k : nat) (domain : string) :
  EntropyMetrics.historicalFrequency (calculateEntropy st rt domain) = of_Z 10 ->
  EntropyMetrics.currentFrequency (calculateEntropy st rt domain) = of_Z 4 ->
  EntropyMetrics.gapScore (calculateEntropy st rt domain) = of_Z 60
  /\ (EntropyMetrics.gapScore (calculateEntropy st rt domain) >? of_Z 50)%js = true
  /\ entropyAlerts (checkEntropy st rt k domain)
     = entropyAlerts st
         ++ [EntropyAlert.mk (randomUUID rt k) domain (of_Z 60) (of_Z 50) (now rt)
               (generateMissingQuestions domain) LOW].
Proof.
  intros Hh Hc.
  pose proof (calculateEntropy_ten_to_four st rt domain Hh Hc) as Hm.
  unfold checkEntropy. rewrite Hm. cbn [EntropyMetrics.gapScore].
  split; [ reflexivity | split; [ reflexivity | ] ].
  reflexivity.
Qed.

Lemma ten_to_four_alert_is_low_witness :
  EntropyMetrics.historicalFrequency
    (calculateEntropy Scenario.st_140 Scenario.rt_140 "vendor-oversight") = of_Z 10
  /\ EntropyMetrics.currentFrequency
       (calculateEntropy Scenario.st_140 Scenario.rt_140 "vendor-oversight") = of_Z 4
  /\ EntropyMetrics.gapScore
       (calculateEntropy Scenario.st_140 Scenario.rt_140 "vendor-oversight") = of_Z 60
  /\ (EntropyMetrics.gapScore
        (calculateEntropy Scenario.st_140 Scenario.rt_140 "vendor-oversight")
      >? of_Z 50)%js = true
  /\ entropyAlerts (checkEntropy Scenario.st_140 Scenario.rt_140 0 "vendor-oversight")
     = entropyAlerts Scenario.st_140
         ++ [EntropyAlert.mk (randomUUID Scenario.rt_140 0) "vendor-oversight" (of_Z 60)
               (of_Z 50) (now Scenario.rt_140)
               (generateMissingQuestions "vendor-oversight") LOW].
Proof.
  assert (H1 : EntropyMetrics.historicalFrequency
                 (calculateEntropy Scenario.st_140 Scenario.rt_140 "vendor-oversight")
               = of_Z 10) by (vm_compute; reflexivity).
  assert (H2 : EntropyMetrics.currentFrequency
                 (calculateEntropy Scenario.st_140 Scenario.rt_140 "vendor-oversight")
               = of_Z 4) by (vm_compute; reflexivity).
  split; [ exact H1 | split; [ exact H2 | ] ].
  exact (ten_to_four_alert_is_low Scenario.st_140 Scenario.rt_140 0 "vendor-oversight"
           H1 H2).
Defined.

(** C6 as stated fails.  The 140th registered question of the domain
    brings the baseline window to 120 questions against 16 in the last four
    weeks: the rates are 10 and 4 a week, the gap is 60, and the alert that
    [registerQuestion] raises for it is LOW, not MEDIUM. *)
Lemma ten_to_four_alert_is_not_medium :
  EntropyMetrics.historicalFrequency
    (calculateEntropy Scenario.st_140 Scenario.rt_140 "vendor-oversight") = of_Z 10
  /\ EntropyMetrics.currentFrequency
       (calculateEntropy Scenario.st_140 Scenario.rt_140 "vendor-oversight") = of_Z 4
  /\ entropyAlerts Scenario.st_140
     = entropyAlerts Scenario.st_139
         ++ [EntropyAlert.mk (randomUUID Scenario.rt_140 1) "vendor-oversight" (of_Z 60)
               (of_Z 50) (now Scenario.rt_140)
               (generateMissingQuestions "vendor-oversight") LOW]
  /\ LOW <> MEDIUM.
Proof.
  split; [ vm_compute; reflexivity | ].
  split; [ vm_compute; reflexivity | ].
  split; [ vm_compute; reflexivity | discriminate ].
Qed.

(** In binary64 too, [(10 - 4) / 10 * 100] is exactly 60 and grades LOW. *)
Lemma ten_to_four_binary64 :
  Binary64.gapScore 10 4 = 60%float
  /\ Binary64.riskLevel (Binary64.gapScore 10 4) = LOW.
Proof. split; reflexivity. Qed.

(** C8, at the failing input.  Twenty registered questions of one domain,
    twelve in the baseline window and eight in the last four weeks: the
    rate rises from 1 to 2 a week, the gap score is -100 and the resilience
    of the layer is 200, outside [0, 100].  ([LOA_resilience_within] and
    [OLI_resilience_within] below show two layers that do stay in
    range.) *)
Theorem qem_resilience_exceeds_100 :
  EntropyMetrics.gapScore
    (calculateEntropy Scenario.st_rising Scenario.rt_rising "vendor-oversight") = of_Z (-100)
  /\ calculateResilience Scenario.st_rising Scenario.rt_rising
     = of_Z 200
  /\ (calculateResilience Scenario.st_rising Scenario.rt_rising
      <=? of_Z 100)%js = false.
Proof.
  split; [ vm_compute; reflexivity | ].
  split; vm_compute; reflexivity.
Qed.

End QemFacts.

(** * PDS: drift and recommitment *)

Section PdsFacts.
Import JS PDS.

(** An unknown purpose, or one with fewer than ten events, has the neutral
    metric. *)
Lemma calculateDrift_neutral (st : State) (rt : Runtime) (purposeId : string) :
  JsMap.get (purposes st) purposeId = None
  \/ (List.length (default [] (JsMap.get (usageEvents st) purposeId)) < 10)%nat ->
  calculateDrift st rt purposeId
  = DriftMetrics.mk purposeId (of_Z 0) (of_Z 0) (of_Z 0) STABLE (now rt).
Proof.
  intros H. unfold calculateDrift.
  destruct (JsMap.get (purposes st) purposeId) as [purpose | ]; [ | reflexivity ].
  destruct H as [H | H]; [ discriminate | ].
  apply Nat.ltb_lt in H. rewrite H. reflexivity.
Qed.

Lemma recommit_rejected (st : State) (rt : Runtime) (purposeId statement : string)
    (purpose : SystemPurpose.t) :
  JsMap.get (purposes st) purposeId = Some purpose ->
  (verifyRecommitmentAlignment (SystemPurpose.originalIntent purpose) statement
   <? num 0.7)%js = true ->
  recommit st rt purposeId statement = (st, false).
Proof.
  intros Hp Hlt. unfold recommit. rewrite Hp, Hlt. reflexivity.
Qed.

Lemma recommit_accepted (st : State) (rt : Runtime) (purposeId statement : string)
    (purpose : SystemPurpose.t) :
  JsMap.get (purposes st) purposeId = Some purpose ->
  (verifyRecommitmentAlignment (SystemPurpose.originalIntent purpose) statement
   >=? num 0.7)%js = true ->
  recommit st rt purposeId statement
  = ({| purposes :=
          JsMap.set (purposes st) purposeId
            (SystemPurpose.mk (SystemPurpose.id purpose)
               (SystemPurpose.originalIntent purpose)
               (SystemPurpose.declaredAt purpose) (now rt)
               (SystemPurpose.domain purpose));
        usageEvents := usageEvents st;
        driftAlerts :=
          List.filter (fun a => negb (String.eqb (DriftAlert.purposeId a) purposeId))
            (driftAlerts st);
        systemPaused := false |}, true).
Proof.
  intros Hp Hge. unfold recommit. rewrite Hp.
  rewrite (geb_not_ltb _ _ Hge).
  destruct (systemPaused st); reflexivity.
Qed.

(** C7.  A recommitment whose keyword overlap with the original intent is
    below 0.7 is rejected and the state is left as it was (so the last
    recommitment date, the open alerts and the paused flag are untouched and
    a paused system stays paused).  A recommitment whose overlap is at least
    0.7 is accepted: the last recommitment date becomes the current time,
    every open drift alert of that purpose is removed (those of other
    purposes stay) and the system is not paused afterwards. *)
Theorem recommit_threshold (st : State) (rt : Runtime) (purposeId statement : string)
    (purpose : SystemPurpose.t) :
  JsMap.get (purposes st) purposeId = Some purpose ->
  ((verifyRecommitmentAlignment (SystemPurpose.originalIntent purpose) statement
    <? num 0.7)%js = true ->
   recommit st rt purposeId statement = (st, false)
   /\ systemPaused (fst (recommit st rt purposeId statement)) = systemPaused st)
  /\ ((verifyRecommitmentAlignment (SystemPurpose.originalIntent purpose) statement
       >=? num 0.7)%js = true ->
      snd (recommit st rt purposeId statement) = true
      /\ option_map SystemPurpose.lastRecommitment
           (JsMap.get (purposes (fst (recommit st rt purposeId statement))) purposeId)
         = Some (now rt)
      /\ (forall a,
             In a (driftAlerts (fst (recommit st rt purposeId statement)))
             <-> In a (driftAlerts st) /\ DriftAlert.purposeId a <> purposeId)
      /\ systemPaused (fst (recommit st rt purposeId statement)) = false).
Proof.
  intros Hp. split.
  - intros Hlt. rewrite (recommit_rejected st rt purposeId statement purpose Hp Hlt).
    split; reflexivity.
  - intros Hge. rewrite (recommit_accepted st rt purposeId statement purpose Hp Hge).
    cbn [fst snd purposes driftAlerts systemPaused].
    split; [ reflexivity | split; [ | split; [ | reflexivity ] ] ].
    + rewrite JsMap_get_set_eq. reflexivity.
    + intros a. rewrite filter_In, negb_true_iff, String.eqb_neq. reflexivity.
Qed.

(** The drifted purpose "Detect institutional decay early" has the keywords
    detect, institutional, decay, early, and the system is paused.  The
    statement "we detect decay" matches two of the four (0.5): it is
    rejected and the system stays paused. *)
Lemma recommit_threshold_witness :
  JsMap.get (purposes Scenario.st_paused) Scenario.decay_id = Some Scenario.decay_purpose
  /\ (verifyRecommitmentAlignment (SystemPurpose.originalIntent Scenario.decay_purpose)
        "we detect decay" <? num 0.7)%js = true
  /\ recommit Scenario.st_paused (Scenario.rt_at 20 (of_Z 0)) Scenario.decay_id
       "we detect decay"
     = (Scenario.st_paused, false)
  /\ systemPaused
       (fst (recommit Scenario.st_paused (Scenario.rt_at 20 (of_Z 0)) Scenario.decay_id
               "we detect decay"))
     = systemPaused Scenario.st_paused.
Proof.
  assert (H1 : JsMap.get (purposes Scenario.st_paused) Scenario.decay_id
               = Some Scenario.decay_purpose) by (vm_compute; reflexivity).
  assert (H2 : (verifyRecommitmentAlignment
                  (SystemPurpose.originalIntent Scenario.decay_purpose)
                  "we detect decay" <? num 0.7)%js = true) by (vm_compute; reflexivity).
  split; [ exact H1 | split; [ exact H2 | ] ].
  exact (proj1 (recommit_threshold Scenario.st_paused (Scenario.rt_at 20 (of_Z 0))
                  Scenario.decay_id "we detect decay" Scenario.decay_purpose H1) H2).
Defined.

(** The same system, with the statement "we will detect institutional decay
    early": it is accepted, the alert is cleared and the system resumes. *)
Example recommit_accepted_example :
  verifyRecommitmentAlignment "Detect institutional decay early" "we detect decay"
  = num 0.5
  /\ systemPaused Scenario.st_paused = true
  /\ List.length (driftAlerts Scenario.st_paused) = 1%nat
  /\ snd (recommit Scenario.st_paused (Scenario.rt_at 20 (of_Z 0)) Scenario.decay_id
            "we will detect institutional decay early") = true
  /\ driftAlerts
       (fst (recommit Scenario.st_paused (Scenario.rt_at 20 (of_Z 0)) Scenario.decay_id
               "we will detect institutional decay early")) = []
  /\ systemPaused
       (fst (recommit Scenario.st_paused (Scenario.rt_at 20 (of_Z 0)) Scenario.decay_id
               "we will detect institutional decay early")) = false.
Proof. repeat split; vm_compute; reflexivity. Qed.

(** C10, at the failing input.  The intent "be ok" has no keyword; after
    ten tracked usage events every event contributes [0/0], so the semantic
    divergence and the overall drift are [NaN] (the trend reads STABLE
    because every comparison with [NaN] is false) and the resilience of the
    layer is [NaN] too. *)
Theorem empty_keyword_set_yields_NaN :
  extractKeywords "be ok" = []
  /\ List.length (default [] (JsMap.get (usageEvents Scenario.st_short_ten) Scenario.short_id))
     = 10%nat
  /\ calculateDrift Scenario.st_short_ten (Scenario.rt_at 20 (of_Z 0)) Scenario.short_id
     = DriftMetrics.mk Scenario.short_id NaN (of_Z 0) NaN STABLE 20
  /\ calculateResilience Scenario.st_short_ten (Scenario.rt_at 20 (of_Z 0)) = NaN.
Proof.
  split; [ reflexivity | ].
  split; [ vm_compute; reflexivity | ].
  split; vm_compute; reflexivity.
Qed.

End PdsFacts.

(** * OLI: fatigue and cooldown *)

Section OliFacts.
Import JS OLI.

(** The score reads the four inputs and the break register only. *)
Lemma calculateFatigueScore_ext (st st' : State) (rt : Runtime)
    (m m' : ObserverMetrics.t) :
  lastBreaks st' = lastBreaks st ->
  ObserverMetrics.observerId m' = ObserverMetrics.observerId m ->
  ObserverMetrics.auditsReviewed m' = ObserverMetrics.auditsReviewed m ->
  ObserverMetrics.correctionRate m' = ObserverMetrics.correctionRate m ->
  ObserverMetrics.contradictionExposure m' = ObserverMetrics.contradictionExposure m ->
  calculateFatigueScore st' rt m' = calculateFatigueScore st rt m.
Proof.
  intros Hb Hid Ha Hc He. unfold calculateFatigueScore, getHoursSinceLastBreak.
  rewrite Hb, Hid, Ha, Hc, He. reflexivity.
Qed.

(** The metrics stored by [updateObserverLoad] score like the metrics the
    risk tier was computed from. *)
Lemma updatedMetrics_risk (st : State) (rt : Runtime) (observerId : string) :
  ObserverMetrics.fatigueRisk (updatedMetrics st rt observerId)
  = (if (calculateFatigueScore st rt (updatedMetrics st rt observerId) >=? of_Z 7)%js
     then high
     else if (calculateFatigueScore st rt (updatedMetrics st rt observerId) >=? of_Z 4)%js
          then medium else low).
Proof.
  unfold updatedMetrics at 1. cbn [ObserverMetrics.fatigueRisk].
  unfold calculateFatigueRisk.
  erewrite (calculateFatigueScore_ext st st rt _ (updatedMetrics st rt observerId));
    reflexivity.
Qed.

Lemma updateObserverLoad_high (st : State) (rt : Runtime) (observerId : string)
    (task : ReviewTask.t) :
  (calculateFatigueScore st rt (updatedMetrics st rt observerId) >=? of_Z 7)%js = true ->
  updateObserverLoad st rt observerId task
  = {| observers := JsMap.set (observers st) observerId (updatedMetrics st rt observerId);
       loadAlerts :=
         loadAlerts st
           ++ [LoadAlert.mk (randomUUID rt 0) observerId
                 (calculateFatigueScore st rt (updatedMetrics st rt observerId))
                 (now rt) MANDATORY_COOLDOWN];
       cooldownQueue :=
         cooldownQueue st
           ++ [CooldownEntry.mk observerId (now rt)
                 (if (calculateFatigueScore st rt (updatedMetrics st rt observerId)
                      >=? of_Z 9)%js
                  then of_Z 72 else of_Z 48)
                 "high_fatigue_risk"];
       lastBreaks := lastBreaks st |}.
Proof.
  intros Hhigh. unfold updateObserverLoad.
  rewrite updatedMetrics_risk, Hhigh. cbn [FatigueRisk_eqb].
  unfold triggerFatigueAlert, calculateCooldownDuration.
  cbn [observers loadAlerts cooldownQueue lastBreaks].
  match goal with
  | |- context [calculateFatigueScore ?s rt (updatedMetrics st rt observerId)] =>
      lazymatch s with
      | st => fail
      | _ =>
          assert (Hscore : calculateFatigueScore s rt (updatedMetrics st rt observerId)
                           = calculateFatigueScore st rt (updatedMetrics st rt observerId))
            by (apply calculateFatigueScore_ext; reflexivity)
      end
  end.
  rewrite Hscore, Hhigh. reflexivity.
Qed.

Lemma updateObserverLoad_not_high (st : State) (rt : Runtime) (observerId : string)
    (task : ReviewTask.t) :
  (calculateFatigueScore st rt (updatedMetrics st rt observerId) >=? of_Z 7)%js = false ->
  cooldownQueue (updateObserverLoad st rt observerId task) = cooldownQueue st.
Proof.
  intros Hlow. unfold updateObserverLoad.
  rewrite updatedMetrics_risk, Hlow.
  destruct (_ >=? of_Z 4)%js; reflexivity.
Qed.

(** C4, as the code has it.  In [ObserverLoadIndex] the cooldown is tied to
    the tier [high] (four-sub-score fatigue score at least 7; the class has
    no tier above it): [updateObserverLoad] queues a cooldown exactly when
    the updated observer scores at least 7, for 72 h if the score is at
    least 9 and for 48 h otherwise (the 24 h branch of
    [calculateCooldownDuration] stays for scores below 7).  With
    auditsReviewed = 25, correctionRate = 0.55, contradictionExposure = 0.75
    and more than 48 hours since the last break (the 50 hours of the
    example, or the 72 hours the class reads when no break is recorded)
    the score is 10, the tier is [high] and the duration is 72 h.  The
    update-load route of the API does not use that score: it computes
    correctionRate * 0.4 + contradictionExposure * 0.6 in binary64, calls
    it critical exactly when that rounded sum is above the double 0.7, and
    then sets a cooldown of 24 h whatever the score. *)
Theorem high_fatigue_queues_cooldown :
  (forall (st : State) (rt : Runtime) (observerId : string) (task : ReviewTask.t),
      let score := calculateFatigueScore st rt (updatedMetrics st rt observerId) in
      ((score >=? of_Z 7)%js = true ->
       ObserverMetrics.fatigueRisk (updatedMetrics st rt observerId) = high
       /\ cooldownQueue (updateObserverLoad st rt observerId task)
          = cooldownQueue st
              ++ [CooldownEntry.mk observerId (now rt)
                    (if (score >=? of_Z 9)%js then of_Z 72 else of_Z 48)
                    "high_fatigue_risk"])
      /\ ((score >=? of_Z 7)%js = false ->
          cooldownQueue (updateObserverLoad st rt observerId task) = cooldownQueue st))
  /\ (forall (st : State) (rt : Runtime) (metrics : ObserverMetrics.t),
        ObserverMetrics.auditsReviewed metrics = of_Z 25 ->
        ObserverMetrics.correctionRate metrics = num 0.55 ->
        ObserverMetrics.contradictionExposure metrics = num 0.75 ->
        (getHoursSinceLastBreak st rt (ObserverMetrics.observerId metrics) >? of_Z 48)%js
        = true ->
        calculateFatigueScore st rt metrics = of_Z 10
        /\ calculateFatigueRisk st rt metrics = high
        /\ calculateCooldownDuration st rt metrics = of_Z 72)
  /\ (forall (rt : Runtime) (correctionRate contradictionExposure : option number),
        let risk := Api.fatigueRisk (Api.fatigueScore correctionRate contradictionExposure) in
        (risk = "critical"%string
         <-> (nearest 0.7
              <? binary64 (ToNumber correctionRate) * nearest 0.4
                 + binary64 (ToNumber contradictionExposure) * nearest 0.6)%float = true)
        /\ Api.cooldownUntil rt risk
           = (if String.eqb risk "critical" then Some (now rt + 24 * 60 * 60 * 1000)
              else None)).
Proof.
  split; [ | split ].
  - intros st rt observerId task score. subst score. split.
    + intros Hhigh. split.
      * rewrite updatedMetrics_risk, Hhigh. reflexivity.
      * rewrite (updateObserverLoad_high st rt observerId task Hhigh). reflexivity.
    + apply updateObserverLoad_not_high.
  - intros st rt metrics Ha Hc He Hb.
    assert (Hscore : calculateFatigueScore st rt metrics = of_Z 10).
    { unfold calculateFatigueScore. rewrite Ha, Hc, He, Hb. reflexivity. }
    unfold calculateFatigueRisk, calculateCooldownDuration. rewrite Hscore.
    split; [ reflexivity | split; reflexivity ].
  - intros rt cr ce risk. subst risk. split; [ | reflexivity ].
    unfold Api.fatigueRisk, Api.fatigueScore.
    destruct (nearest 0.7 <? _)%float.
    + split; reflexivity.
    + split; [ | discriminate ].
      destruct (nearest 0.5 <? _)%float; [ discriminate | ].
      destruct (nearest 0.3 <? _)%float; discriminate.
Qed.

Lemma high_fatigue_queues_cooldown_witness :
  ObserverMetrics.auditsReviewed Scenario.metrics_example = of_Z 25
  /\ ObserverMetrics.correctionRate Scenario.metrics_example = num 0.55
  /\ ObserverMetrics.contradictionExposure Scenario.metrics_example = num 0.75
  /\ getHoursSinceLastBreak Scenario.st_observer (Scenario.rt_at Scenario.oli_now (of_Z 0))
       (ObserverMetrics.observerId Scenario.metrics_example) = of_Z 50
  /\ getHoursSinceLastBreak initial (Scenario.rt_at Scenario.oli_now (of_Z 0))
       (ObserverMetrics.observerId Scenario.metrics_example) = of_Z 72
  /\ calculateFatigueScore initial (Scenario.rt_at Scenario.oli_now (of_Z 0))
       Scenario.metrics_example = of_Z 10
  /\ calculateFatigueScore Scenario.st_observer (Scenario.rt_at Scenario.oli_now (of_Z 0))
       Scenario.metrics_example = of_Z 10
  /\ calculateFatigueRisk Scenario.st_observer (Scenario.rt_at Scenario.oli_now (of_Z 0))
       Scenario.metrics_example = high
  /\ calculateCooldownDuration Scenario.st_observer (Scenario.rt_at Scenario.oli_now (of_Z 0))
       Scenario.metrics_example = of_Z 72.
Proof.
  assert (H1 : ObserverMetrics.auditsReviewed Scenario.metrics_example = of_Z 25)
    by reflexivity.
  assert (H2 : ObserverMetrics.correctionRate Scenario.metrics_example = num 0.55)
    by reflexivity.
  assert (H3 : ObserverMetrics.contradictionExposure Scenario.metrics_example = num 0.75)
    by reflexivity.
  assert (H4 : getHoursSinceLastBreak Scenario.st_observer
                 (Scenario.rt_at Scenario.oli_now (of_Z 0))
                 (ObserverMetrics.observerId Scenario.metrics_example) = of_Z 50)
    by (vm_compute; reflexivity).
  assert (H5 : getHoursSinceLastBreak initial (Scenario.rt_at Scenario.oli_now (of_Z 0))
                 (ObserverMetrics.observerId Scenario.metrics_example) = of_Z 72)
    by reflexivity.
  split; [ exact H1 | split; [ exact H2 | split; [ exact H3 | split; [ exact H4 | ] ] ] ].
  split; [ exact H5 | split ].
  - apply (proj1 (proj2 high_fatigue_queues_cooldown) initial
             (Scenario.rt_at Scenario.oli_now (of_Z 0)) Scenario.metrics_example
             H1 H2 H3).
    rewrite H5. reflexivity.
  - apply (proj1 (proj2 high_fatigue_queues_cooldown) Scenario.st_observer
             (Scenario.rt_at Scenario.oli_now (of_Z 0)) Scenario.metrics_example
             H1 H2 H3).
    rewrite H4. reflexivity.
Defined.

(** C4 as stated fails.  The route that installs the gate's cooldown
    ([POST /api/v2/oli/update-load]) does not use the four-sub-score
    formula: for correctionRate = 0.55 and contradictionExposure = 0.75 it
    computes 0.67 (0.6699999999999999 in binary64), above 0.5 and not above
    0.7: tier "high", and it sets no cooldown at all.  The class that does
    use the formula scores the example 10 and names its tier [high]. *)
Lemma example_is_not_critical_at_the_gate :
  (nearest 0.5 <? Api.fatigueScore (Some (num 0.55)) (Some (num 0.75)))%float = true
  /\ (nearest 0.7 <? Api.fatigueScore (Some (num 0.55)) (Some (num 0.75)))%float = false
  /\ Api.fatigueRisk (Api.fatigueScore (Some (num 0.55)) (Some (num 0.75)))
     = "high"%string
  /\ Api.cooldownUntil (Scenario.rt_at Scenario.oli_now (of_Z 0))
       (Api.fatigueRisk (Api.fatigueScore (Some (num 0.55)) (Some (num 0.75))))
     = None
  /\ calculateFatigueScore Scenario.st_observer (Scenario.rt_at Scenario.oli_now (of_Z 0))
       Scenario.metrics_example = of_Z 10
  /\ calculateFatigueRisk Scenario.st_observer (Scenario.rt_at Scenario.oli_now (of_Z 0))
       Scenario.metrics_example = high.
Proof.
  repeat split; vm_compute; reflexivity.
Qed.

(** The rounding of the route's score decides on the threshold.  For
    correctionRate = 0.4 and contradictionExposure = 0.9 the exact score is
    0.7, which is not above 0.7; the handler's products and sum round to
    0.7000000000000001, above the double 0.7: tier critical, with a
    cooldown. *)
Example rounded_score_crosses_the_threshold :
  (0.4 * 0.4 + 0.9 * 0.6 == 0.7)%Q
  /\ Api.fatigueRisk (Api.fatigueScore (Some (num 0.4)) (Some (num 0.9)))
     = "critical"%string
  /\ Api.cooldownUntil (Scenario.rt_at 0 (of_Z 0))
       (Api.fatigueRisk (Api.fatigueScore (Some (num 0.4)) (Some (num 0.9))))
     = Some 86400000.
Proof. repeat split; vm_compute; reflexivity. Qed.

End OliFacts.

(** * LOA: pattern alerts and their deduplication *)

Section LoaFacts.
Import JS LOA.

(** What one call of [triggerLagAlert] does to the list of alerts: nothing
    when an alert on record carries the text and the test finds it younger
    than seven days, and one alert more otherwise. *)
Lemma triggerLagAlert_cases (st : State) (rt : Runtime) (k : nat)
    (p : BeneficiaryPattern.t) (ads : list string) :
  (triggerLagAlert st rt k p ads = st
   /\ exists b,
       In b (lagAlerts st)
       /\ LagAlert.pattern b = patternText p ads
       /\ now rt - 7 * 24 * 60 * 60 * 1000 < LagAlert.detectedAt b)
  \/ ((forall b,
         In b (lagAlerts st) ->
         LagAlert.pattern b = patternText p ads ->
         LagAlert.detectedAt b <= now rt - 7 * 24 * 60 * 60 * 1000)
      /\ exists a,
          triggerLagAlert st rt k p ads
          = {| outcomes := outcomes st;
               lagAlerts := lagAlerts st ++ [a];
               beneficiaryPatterns := beneficiaryPatterns st |}
          /\ LagAlert.pattern a = patternText p ads
          /\ LagAlert.affectedDecisions a = ads
          /\ LagAlert.threshold a = of_Z 7).
Proof.
  unfold triggerLagAlert. cbn [LagAlert.pattern].
  destruct (existsb _ (lagAlerts st)) eqn:E; cbn [negb].
  - left. split; [ reflexivity | ].
    apply existsb_exists in E as (b & Hin & Hb).
    apply andb_prop in Hb as [Htext Hyoung].
    apply String.eqb_eq in Htext. apply Z.ltb_lt in Hyoung.
    exists b. auto.
  - right. split.
    + intros b Hin Htext.
      destruct (Z_le_gt_dec (LagAlert.detectedAt b) (now rt - 7 * 24 * 60 * 60 * 1000))
        as [Hle | Hgt]; [ exact Hle | exfalso ].
      assert (Ht : existsb
                     (fun a => String.eqb (LagAlert.pattern a) (patternText p ads)
                               && (now rt - 7 * 24 * 60 * 60 * 1000 <? LagAlert.detectedAt a))
                     (lagAlerts st) = true); [ | congruence ].
      apply existsb_exists. exists b. split; [ exact Hin | ].
      apply andb_true_intro. split.
      * apply String.eqb_eq. exact Htext.
      * apply Z.ltb_lt. lia.
    + eexists. split; [ reflexivity | ]. split_and!; reflexivity.
Qed.

Lemma triggerLagAlert_frame (st : State) (rt : Runtime) (k : nat)
    (p : BeneficiaryPattern.t) (ads : list string) :
  outcomes (triggerLagAlert st rt k p ads) = outcomes st
  /\ beneficiaryPatterns (triggerLagAlert st rt k p ads) = beneficiaryPatterns st.
Proof.
  unfold triggerLagAlert. destruct (negb _); split; reflexivity.
Qed.


Lemma affectedDecisionsOf_ext (st st' : State) (p : BeneficiaryPattern.t) :
  outcomes st' = outcomes st -> affectedDecisionsOf st' p = affectedDecisionsOf st p.
Proof. intros H. unfold affectedDecisionsOf, outcomesOf. rewrite H. reflexivity. Qed.

(** One turn of the loop of [checkLagPatterns]. *)
Lemma checkOnePattern_step (rt : Runtime) (acc : State * nat) (p : BeneficiaryPattern.t) :
  outcomes (fst (checkOnePattern rt acc p)) = outcomes (fst acc)
  /\ beneficiaryPatterns (fst (checkOnePattern rt acc p)) = beneficiaryPatterns (fst acc)
  /\ (exists new, lagAlerts (fst (checkOnePattern rt acc p)) = lagAlerts (fst acc) ++ new)
  /\ ((3 <= List.length (affectedDecisionsOf (fst acc) p))%nat ->
      covered (fst (checkOnePattern rt acc p)) p).
Proof.
  unfold checkOnePattern.
  destruct (3 <=? List.length (affectedDecisionsOf (fst acc) p))%nat eqn:E; cbn [fst].
  - destruct (triggerLagAlert_frame (fst acc) rt (snd acc) p
                (affectedDecisionsOf (fst acc) p)) as [Ho Hp].
    split; [ exact Ho | split; [ exact Hp | ] ].
    destruct (triggerLagAlert_cases (fst acc) rt (snd acc) p
                (affectedDecisionsOf (fst acc) p))
      as [[Hsame (b & Hin & Htext & _)] | (_ & a & Hpush & Htext & _)].
    + rewrite Hsame. split; [ exists []; rewrite app_nil_r; reflexivity | ].
      intros _. exists b. auto.
    + rewrite Hpush. cbn [lagAlerts]. split; [ eexists; reflexivity | ].
      intros _. exists a. cbn [lagAlerts].
      split; [ apply in_or_app; right; left; reflexivity | ].
      rewrite <- Hpush, (affectedDecisionsOf_ext _ _ p Ho). exact Htext.
  - split; [ reflexivity | split; [ reflexivity | ] ].
    split; [ exists []; rewrite app_nil_r; reflexivity | ].
    apply Nat.leb_gt in E. lia.
Qed.

Lemma covered_mono (st st' : State) (p : BeneficiaryPattern.t) :
  outcomes st' = outcomes st ->
  (exists new, lagAlerts st' = lagAlerts st ++ new) ->
  covered st p -> covered st' p.
Proof.
  intros Ho [new Hnew] (a & Hin & Htext).
  exists a. rewrite Hnew, (affectedDecisionsOf_ext _ _ p Ho).
  split; [ apply in_or_app; left; exact Hin | exact Htext ].
Qed.

(** The whole loop. *)
Lemma check_loop (rt : Runtime) (patterns : list BeneficiaryPattern.t) :
  forall acc : State * nat,
    outcomes (fst (fold_left (checkOnePattern rt) patterns acc)) = outcomes (fst acc)
    /\ beneficiaryPatterns (fst (fold_left (checkOnePattern rt) patterns acc))
       = beneficiaryPatterns (fst acc)
    /\ (exists new,
           lagAlerts (fst (fold_left (checkOnePattern rt) patterns acc))
           = lagAlerts (fst acc) ++ new)
    /\ (forall p,
           In p patterns ->
           (3 <= List.length (affectedDecisionsOf (fst acc) p))%nat ->
           covered (fst (fold_left (checkOnePattern rt) patterns acc)) p).
Proof.
  induction patterns as [ | q rest IH]; intros acc; cbn [fold_left].
  - split; [ reflexivity | split; [ reflexivity | ] ].
    split; [ exists []; rewrite app_nil_r; reflexivity | intros p [] ].
  - destruct (checkOnePattern_step rt acc q) as (Ho1 & Hp1 & [new1 Hn1] & Hc1).
    destruct (IH (checkOnePattern rt acc q)) as (Ho & Hp & [new Hn] & Hc).
    split; [ congruence | split; [ congruence | ] ].
    split; [ exists (new1 ++ new); rewrite Hn, Hn1, app_assoc; reflexivity | ].
    intros p [-> | Hin] Hlen.
    + apply covered_mono with (st := fst (checkOnePattern rt acc p));
        [ exact Ho | exists new; exact Hn | auto ].
    + apply Hc; [ exact Hin | ].
      rewrite (affectedDecisionsOf_ext _ _ p Ho1). exact Hlen.
Qed.






End LoaFacts.

(** * Across the layers *)

Section LayerFacts.
Import JS.

(** C3.  A calculator asked about a key with no or too little data answers
    the neutral metric and never fails: the entropy metric of a domain that
    is unknown or has fewer than 20 questions is all zeros with trend
    STABLE; the drift metric of a purpose that is unknown or has fewer than
    10 events is all zeros with trend STABLE; and the resilience of each of
    the five layers is 100 when the layer holds no data. *)
Theorem neutral_on_insufficient_data :
  (forall (st : QEM.State) (rt : Runtime) (domain : string),
      (forall questions,
          JsMap.get (QEM.questionRegistry st) domain = Some questions ->
          (List.length questions < 20)%nat) ->
      QEM.calculateEntropy st rt domain
      = QEM.EntropyMetrics.mk domain (of_Z 0) (of_Z 0) (of_Z 0) QEM.STABLE (now rt))
  /\ (forall (st : PDS.State) (rt : Runtime) (purposeId : string),
        (JsMap.get (PDS.purposes st) purposeId = None
         \/ forall events,
             JsMap.get (PDS.usageEvents st) purposeId = Some events ->
             (List.length events < 10)%nat) ->
        PDS.calculateDrift st rt purposeId
        = PDS.DriftMetrics.mk purposeId (of_Z 0) (of_Z 0) (of_Z 0) PDS.STABLE (now rt))
  /\ (forall alerts queue,
        RPL.calculateResilience
          {| RPL.frames := []; RPL.dominanceAlerts := alerts;
             RPL.frameworkRotationQueue := queue |} = of_Z 100)
  /\ (forall alerts suppressed rt,
        QEM.calculateResilience
          {| QEM.questionRegistry := []; QEM.entropyAlerts := alerts;
             QEM.suppressedQuestions := suppressed |} rt = of_Z 100)
  /\ (forall alerts patterns,
        LOA.calculateResilience
          {| LOA.outcomes := []; LOA.lagAlerts := alerts;
             LOA.beneficiaryPatterns := patterns |} = of_Z 100)
  /\ (forall alerts queue breaks,
        OLI.calculateResilience
          {| OLI.observers := []; OLI.loadAlerts := alerts; OLI.cooldownQueue := queue;
             OLI.lastBreaks := breaks |} = of_Z 100)
  /\ (forall events alerts paused rt,
        PDS.calculateResilience
          {| PDS.purposes := []; PDS.usageEvents := events; PDS.driftAlerts := alerts;
             PDS.systemPaused := paused |} rt = of_Z 100).
Proof.
  split; [ | split; [ | repeat split ] ].
  - intros st rt domain Hshort. apply calculateEntropy_neutral.
    destruct (JsMap.get (QEM.questionRegistry st) domain) as [questions | ]; cbn.
    + apply Hshort. reflexivity.
    + lia.
  - intros st rt purposeId [Hnone | Hshort]; apply calculateDrift_neutral.
    + left. exact Hnone.
    + right. destruct (JsMap.get (PDS.usageEvents st) purposeId) as [events | ]; cbn.
      * apply Hshort. reflexivity.
      * lia.
Qed.

(** The empty monitor knows no domain; the purpose of [Scenario.st_decay]
    has no event yet. *)
Lemma neutral_on_insufficient_data_witness :
  (forall questions,
      JsMap.get (QEM.questionRegistry QEM.initial) "vendor-oversight" = Some questions ->
      (List.length questions < 20)%nat)
  /\ (forall events,
        JsMap.get (PDS.usageEvents Scenario.st_decay) Scenario.decay_id = Some events ->
        (List.length events < 10)%nat)
  /\ QEM.calculateEntropy QEM.initial (Scenario.rt_at 0 (of_Z 0)) "vendor-oversight"
     = QEM.EntropyMetrics.mk "vendor-oversight" (of_Z 0) (of_Z 0) (of_Z 0) QEM.STABLE 0
  /\ PDS.calculateDrift Scenario.st_decay (Scenario.rt_at 1 (of_Z 0)) Scenario.decay_id
     = PDS.DriftMetrics.mk Scenario.decay_id (of_Z 0) (of_Z 0) (of_Z 0) PDS.STABLE 1.
Proof.
  assert (H1 : forall questions,
             JsMap.get (QEM.questionRegistry QEM.initial) "vendor-oversight"
             = Some questions ->
             (List.length questions < 20)%nat).
  { intros questions H. vm_compute in H. discriminate H. }
  assert (H2 : forall events,
             JsMap.get (PDS.usageEvents Scenario.st_decay) Scenario.decay_id = Some events ->
             (List.length events < 10)%nat).
  { intros events H. vm_compute in H. injection H as <-. vm_compute. lia. }
  split; [ exact H1 | split; [ exact H2 | split ] ].
  - exact (proj1 neutral_on_insufficient_data QEM.initial (Scenario.rt_at 0 (of_Z 0))
             "vendor-oversight" H1).
  - exact (proj1 (proj2 neutral_on_insufficient_data) Scenario.st_decay
             (Scenario.rt_at 1 (of_Z 0)) Scenario.decay_id (or_intror H2)).
Defined.

(** The drift-status route of the API answers a drift of 0, not detected,
    for a registered purpose with fewer than ten events; for a well-formed
    id that is not in [system_purposes] it answers [PurposeNotFound], and
    for a text that is not a UUID the query fails and it answers 500. *)
Lemma drift_status_below_ten_events (db : Api.Db) (rt : Runtime) (purposeId : string) :
  match Api.uuid_in purposeId with
  | None =>
      Api.pds_drift_status db rt purposeId = Api.Failed "Failed to calculate drift"
  | Some id =>
      (List.length
         (List.filter
            (fun e => match Api.usage_events.purpose_id e with
                      | Some p => String.eqb p id
                      | None => false
                      end)
            (Api.tbl_usage_events db)) < 10)%nat ->
      match Api.tbl_system_purposes db !! id with
      | None => Api.pds_drift_status db rt purposeId = Api.PurposeNotFound
      | Some purpose =>
          exists n,
            Api.pds_drift_status db rt purposeId
            = Api.DriftStatus purposeId (of_Z 0) (of_Z 30) false n
                (Api.system_purposes.last_recommitment purpose) (now rt)
      end
  end.
Proof.
  unfold Api.pds_drift_status.
  destruct (Api.uuid_in purposeId) as [id | ]; [ | reflexivity ].
  intros Hlen.
  destruct (Api.tbl_system_purposes db !! id) as [purpose | ]; [ | reflexivity ].
  match goal with
  | |- context [List.length (List.firstn 20 ?l)] =>
      exists (List.length (List.firstn 20 l));
      assert (Hn : (List.length (List.firstn 20 l) <? 10)%nat = true)
  end.
  { apply Nat.ltb_lt. rewrite List.length_firstn. lia. }
  rewrite Hn. reflexivity.
Qed.

(** C2, at the failing input.  The database holds one purpose with ten
    usage events.  Two calls of the drift-status route on that unchanged
    database, at the same time, answer a drift of 10 (not detected) when
    [Math.random()] draws 0.25 and of 36 (detected) when it draws 0.9.  The
    correction rate and the contradiction exposure of [ObserverLoadIndex]
    are the draw scaled by 0.6 and by 0.8 and read no stored event. *)
Theorem drift_status_follows_the_draw :
  Api.pds_drift_status Scenario.db_ten_events (Scenario.rt_at 20 (num 0.25))
    Scenario.purpose_id
  = Api.DriftStatus Scenario.purpose_id (of_Z 10) (of_Z 30) false 10 0 20
  /\ Api.pds_drift_status Scenario.db_ten_events (Scenario.rt_at 20 (num 0.9))
       Scenario.purpose_id
     = Api.DriftStatus Scenario.purpose_id (of_Z 36) (of_Z 30) true 10 0 20
  /\ (forall observerId,
        OLI.calculateCorrectionRate (num 0.25) observerId = num 0.15
        /\ OLI.calculateCorrectionRate (num 0.9) observerId = num 0.54
        /\ OLI.calculateContradictionExposure (num 0.25) observerId = num 0.2
        /\ OLI.calculateContradictionExposure (num 0.9) observerId = num 0.72).
Proof.
  split; [ vm_compute; reflexivity | ].
  split; [ vm_compute; reflexivity | ].
  intros observerId. repeat split; vm_compute; reflexivity.
Qed.

End LayerFacts.

(** * Where the resilience score does stay in range *)

Section RangeFacts.
Import JS.

(** A share [h/t] of a non-empty total, as a percentage. *)
Lemma percentage_within (h t : nat) :
  (h <= t)%nat -> (0 < t)%nat ->
  within 0 100 (of_nat h / of_nat t * of_Z 100)%js.
Proof.
  intros Hle Hpos. unfold of_nat, of_Z, div, mul.
  assert (Ht : (0 < inject_Z (Z.of_nat t))%Q).
  { rewrite <- (Zlt_Qlt 0). lia. }
  assert (Hh : (0 <= inject_Z (Z.of_nat h))%Q).
  { rewrite <- (Zle_Qle 0). lia. }
  assert (Hht : (inject_Z (Z.of_nat h) <= inject_Z (Z.of_nat t))%Q).
  { rewrite <- Zle_Qle. lia. }
  destruct (Qeq_bool (inject_Z (Z.of_nat t)) 0) eqn:E.
  - apply Qeq_bool_iff in E. rewrite E in Ht. exfalso. apply (Qlt_irrefl 0). exact Ht.
  - assert (H0 : (0 <= inject_Z (Z.of_nat h) / inject_Z (Z.of_nat t))%Q).
    { apply Qle_shift_div_l; [ exact Ht | ]. rewrite Qmult_0_l. exact Hh. }
    assert (H1 : (inject_Z (Z.of_nat h) / inject_Z (Z.of_nat t) <= 1)%Q).
    { apply Qle_shift_div_r; [ exact Ht | ]. rewrite Qmult_1_l. exact Hht. }
    unfold num, within. rewrite !Qred_correct.
    change (inject_Z 100) with 100%Q. split; lra.
Qed.

(** [Math.max(0, Math.round(100 - x))] for [x] between 0 and 200. *)
Lemma clamp_within (x : number) :
  within 0 200 x ->
  within 0 100 (Math.max (of_Z 0) (Math.round (of_Z 100 - x)%js)).
Proof.
  destruct x as [ | | | q]; cbn [within]; try tauto. intros [Hlo Hhi].
  unfold sub, neg, add, of_Z, num, Math.round.
  set (r := Qfloor (Qred (inject_Z 100 + Qred (- q)) + (1 # 2))).
  assert (Hr : r <= 100).
  { subst r. apply Z.lt_succ_r. rewrite Zlt_Qlt.
    eapply Qle_lt_trans; [ apply Qfloor_le | ].
    rewrite !Qred_correct. change (inject_Z 100) with 100%Q.
    change (inject_Z (Z.succ 100)) with 101%Q. lra. }
  unfold Math.max, of_Z, ltb.
  destruct (negb (Qle_bool (inject_Z r) (inject_Z 0))) eqn:E; cbn [within].
  - apply negb_true_iff in E.
    split.
    + destruct (Qlt_le_dec 0 (inject_Z r)) as [H | H]; [ apply Qlt_le_weak; exact H | ].
      apply Qle_bool_iff in H. change (inject_Z 0) with 0%Q in E. congruence.
    + change 100%Q with (inject_Z 100). rewrite <- Zle_Qle. exact Hr.
  - split; [ apply Qle_refl | discriminate ].
Qed.

Lemma filter_length_le {A : Type} (f : A -> bool) (l : list A) :
  (List.length (List.filter f l) <= List.length l)%nat.
Proof.
  induction l as [ | a l IH]; cbn; [ lia | ].
  destruct (f a); cbn; lia.
Qed.

Lemma widen (hi hi' : Q) (x : number) :
  (hi <= hi')%Q -> within 0 hi x -> within 0 hi' x.
Proof.
  destruct x as [ | | | q]; cbn; try tauto.
  intros H [H1 H2]. split; [ exact H1 | ]. eapply Qle_trans; eassumption.
Qed.

(** X19.  In every state of [LaggedOutcomeAttribution] the resilience score
    lies between 0 and 100. *)
Lemma LOA_resilience_within (st : LOA.State) :
  within 0 100 (LOA.calculateResilience st).
Proof.
  unfold LOA.calculateResilience, JsMap.size, JsMap.values.
  destruct (List.length (LOA.outcomes st) =? 0)%nat eqn:E.
  - cbn. split; discriminate.
  - apply Nat.eqb_neq in E. apply clamp_within.
    apply widen with (hi := 100%Q); [ discriminate | ].
    apply percentage_within; [ | lia ].
    rewrite <- (length_map snd (LOA.outcomes st)). apply filter_length_le.
Qed.

(** [p * 2] for a percentage. *)
Lemma doubled_within (x : number) :
  within 0 100 x -> within 0 200 (x * of_Z 2)%js.
Proof.
  destruct x as [ | | | q]; cbn [within]; try tauto. intros [Hlo Hhi].
  unfold mul, of_Z, num, within. rewrite Qred_correct.
  change (inject_Z 2) with 2%Q. split; lra.
Qed.

(** X30.  In every state of [ObserverLoadIndex] the resilience score lies
    between 0 and 100. *)
Lemma OLI_resilience_within (st : OLI.State) :
  within 0 100 (OLI.calculateResilience st).
Proof.
  unfold OLI.calculateResilience, JsMap.size, JsMap.values.
  destruct (List.length (OLI.observers st) =? 0)%nat eqn:E.
  - cbn. split; discriminate.
  - apply Nat.eqb_neq in E. apply clamp_within, doubled_within.
    apply percentage_within; [ | lia ].
    rewrite <- (length_map snd (OLI.observers st)). apply filter_length_le.
Qed.

End RangeFacts.

(** * The routes that write: who may write, and what a refusal leaves *)

Section WriteFacts.
Import JS Api.

Lemma gate_error db rt req reply :
  epistemicHygieneMiddleware db rt req = inl reply -> 400 <= status reply.
Proof.
  gate_cases db rt req; try discriminate; intros [= <-]; cbn; lia.
Qed.

Lemma gate_passes db rt req req' :
  epistemicHygieneMiddleware db rt req = inr req' -> req' = req.
Proof.
  gate_cases db rt req; try discriminate; intros [= <-]; reflexivity.
Qed.

Lemma validateDataScope_error req reply :
  validateDataScope req = inl reply -> status reply = 400.
Proof.
  unfold validateDataScope.
  repeat match goal with
         | |- context [if ?c then _ else _] => destruct c
         end; intros [= <-]; reflexivity.
Qed.

Lemma runChain_error ms db rt req reply :
  runChain ms db rt req = inl reply -> 400 <= status reply.
Proof.
  revert req. induction ms as [ | m ms IH]; intros req; cbn [runChain]; [ discriminate | ].
  destruct (runMiddleware m db rt req) as [r | req1] eqn:Hm.
  - intros [= <-]. destruct m; cbn [runMiddleware] in Hm.
    + eapply authMiddleware_error; eassumption.
    + eapply gate_error; eassumption.
    + apply validateDataScope_error in Hm. lia.
  - apply IH.
Qed.

(** A handler either stores its row and answers 200 or 201, or answers 500
    and leaves the database as it was. *)
Lemma handler_outcome e db rt req :
  status (snd (handler e db rt req)) < 400
  \/ (fst (handler e db rt req) = db /\ status (snd (handler e db rt req)) = 500).
Proof.
  destruct e; cbn [handler].
  - unfold rpl_track. destruct (insert_reasoning_frame rt req); cbn; [ left; lia | auto ].
  - unfold qem_register. destruct (insert_question rt req); cbn; [ left; lia | auto ].
  - unfold loa_track_outcome. destruct (insert_lagged_outcome _ _ _ _); cbn; [ left; lia | auto ].
  - unfold oli_update_load.
    destruct (upsert_observer_metrics _ _ _ _ _) as [[? ?] | ]; cbn; [ left; lia | auto ].
  - unfold pds_track_usage. destruct (insert_usage_event _ _ _); cbn; [ left; lia | auto ].
Qed.

(** X1.  A request that is answered with an error status (400 or above:
    rate limit, authentication, admission gate, validation, or a failed
    INSERT) leaves every table as it was. *)
Theorem refused_request_writes_nothing (e : Endpoint) (db : Db) (rt : Runtime)
    (req : Request) :
  400 <= status (snd (serve e db rt req)) -> fst (serve e db rt req) = db.
Proof.
  unfold serve. destruct (limited req); [ reflexivity | ].
  destruct (runChain (chain e) db rt req) as [reply | req']; [ reflexivity | ].
  destruct (handler_outcome e db rt req') as [H | [H _]]; [ lia | intros _; exact H ].
Qed.

Lemma refused_request_writes_nothing_witness :
  400 <= status
           (snd (serve POST_rpl_track (schema_db 0) (Scenario.rt_at 1000 (of_Z 0))
                   (Scenario.as_analyst "bob" Scenario.over_cap)))
  /\ fst (serve POST_rpl_track (schema_db 0) (Scenario.rt_at 1000 (of_Z 0))
            (Scenario.as_analyst "bob" Scenario.over_cap)) = schema_db 0.
Proof.
  assert (H : 400 <= status
                     (snd (serve POST_rpl_track (schema_db 0) (Scenario.rt_at 1000 (of_Z 0))
                             (Scenario.as_analyst "bob" Scenario.over_cap))))
    by (vm_compute; discriminate).
  split; [ exact H | ].
  exact (refused_request_writes_nothing POST_rpl_track _ _ _ H).
Defined.

Lemma includes_analyst_admin role :
  Str.includes ["analyst"; "admin"]%string role = true ->
  role = "analyst"%string \/ role = "admin"%string.
Proof.
  unfold Str.includes. cbn [existsb]. rewrite orb_false_r.
  intros H. apply orb_prop in H as [H | H]; apply String.eqb_eq in H; auto.
Qed.

(** What the first middleware of every writing route lets through. *)
Lemma chain_passes e db rt req req' :
  runChain (chain e) db rt req = inr req' ->
  exists decoded,
    authorization req = valid_token decoded
    /\ (Decoded.role decoded = "analyst"%string \/ Decoded.role decoded = "admin"%string)
    /\ user req' = Some (User.mk (Decoded.id decoded) (Decoded.role decoded))
    /\ body req' = body req
    /\ validateDataScope req' = inr req'.
Proof.
  assert (Hauth : forall req1,
             authMiddleware ["analyst"; "admin"]%string req = inr req1 ->
             exists decoded,
               authorization req = valid_token decoded
               /\ (Decoded.role decoded = "analyst"%string
                   \/ Decoded.role decoded = "admin"%string)
               /\ user req1 = Some (User.mk (Decoded.id decoded) (Decoded.role decoded))
               /\ body req1 = body req).
  { intros req1. unfold authMiddleware.
    destruct (authorization req) as [ | | decoded]; try discriminate.
    destruct (Str.includes _ _) eqn:Hrole; cbn [negb]; [ | discriminate ].
    intros [= <-]. exists decoded. cbn.
    auto using includes_analyst_admin. }
  assert (Hval : forall req1 req2, validateDataScope req1 = inr req2 -> req2 = req1).
  { intros req1 req2. unfold validateDataScope.
    repeat match goal with
           | |- context [if ?c then _ else _] => destruct c
           end; congruence. }
  destruct e; cbn [chain route registered runChain runMiddleware];
    destruct (authMiddleware _ req) as [r | req1] eqn:H1; try discriminate;
    destruct (Hauth req1 eq_refl) as (decoded & Ha & Hr & Hu & Hb).
  - destruct (epistemicHygieneMiddleware db rt req1) as [r | req2] eqn:H2; [ discriminate | ].
    apply gate_passes in H2 as ->.
    destruct (validateDataScope req1) as [r | req3] eqn:H3; [ discriminate | ].
    pose proof (Hval _ _ H3) as ->. intros [= <-]. eauto 10.
  - destruct (validateDataScope req1) as [r | req3] eqn:H3; [ discriminate | ].
    pose proof (Hval _ _ H3) as ->. intros [= <-]. eauto 10.
  - destruct (validateDataScope req1) as [r | req3] eqn:H3; [ discriminate | ].
    pose proof (Hval _ _ H3) as ->. intros [= <-]. eauto 10.
  - destruct (validateDataScope req1) as [r | req3] eqn:H3; [ discriminate | ].
    pose proof (Hval _ _ H3) as ->. intros [= <-]. eauto 10.
  - destruct (validateDataScope req1) as [r | req3] eqn:H3; [ discriminate | ].
    pose proof (Hval _ _ H3) as ->. intros [= <-]. eauto 10.
Qed.

(** X2.  Nothing is written without a verified token whose role is analyst
    or admin: if a request changes the database, its [Authorization] header
    carried such a token (an observer token, an invalid one or none never
    writes). *)
Theorem writes_need_analyst_or_admin (e : Endpoint) (db : Db) (rt : Runtime)
    (req : Request) :
  fst (serve e db rt req) <> db ->
  exists decoded,
    authorization req = valid_token decoded
    /\ (Decoded.role decoded = "analyst"%string \/ Decoded.role decoded = "admin"%string).
Proof.
  unfold serve. destruct (limited req); [ cbn; congruence | ].
  destruct (runChain (chain e) db rt req) as [reply | req'] eqn:Hchain; [ cbn; congruence | ].
  intros _. destruct (chain_passes _ _ _ _ _ Hchain) as (decoded & Ha & Hr & _).
  eauto.
Qed.

Lemma writes_need_analyst_or_admin_witness :
  fst (serve POST_oli_update_load (schema_db 0) (Scenario.rt_at 0 (of_Z 0))
         (Scenario.as_analyst "alice" Scenario.load_report)) <> schema_db 0
  /\ exists decoded,
       authorization (Scenario.as_analyst "alice" Scenario.load_report)
       = valid_token decoded
       /\ (Decoded.role decoded = "analyst"%string
           \/ Decoded.role decoded = "admin"%string).
Proof.
  assert (H : fst (serve POST_oli_update_load (schema_db 0) (Scenario.rt_at 0 (of_Z 0))
                     (Scenario.as_analyst "alice" Scenario.load_report)) <> schema_db 0).
  { intros E. apply (f_equal (fun d => tbl_observer_metrics d !! "alice"%string)) in E.
    vm_compute in E. discriminate E. }
  split; [ exact H | ].
  exact (writes_need_analyst_or_admin POST_oli_update_load _ _ _ H).
Defined.

End WriteFacts.

(** * What holds of every stored row *)

Section StoredRows.
Import JS Api.

(** Induction over the reachable databases, one handler call at a time. *)
Lemma reachable_invariant (P : Db -> Prop) :
  (forall t, P (schema_db t)) ->
  (forall e db rt req req',
      reachable db -> P db ->
      runChain (chain e) db rt req = inr req' -> P (fst (handler e db rt req'))) ->
  forall db, reachable db -> P db.
Proof.
  intros Hschema Hstep db Hdb.
  induction Hdb as [t | db e rt req Hdb IH]; [ apply Hschema | ].
  unfold serve. destruct (limited req); [ exact IH | ].
  destruct (runChain (chain e) db rt req) as [reply | req'] eqn:Hchain; [ exact IH | ].
  eapply Hstep; eassumption.
Qed.

Lemma provenance_columns_Some dataScope evidenceType origin p :
  provenance_columns dataScope evidenceType origin = Some p ->
  (exists submitted,
      origin = Some submitted /\ VARCHAR 255 submitted = Some (Api.origin p))
  /\ Str.includes validScopes (data_scope p) = true
  /\ Str.includes validEvidenceTypes (evidence_type p) = true.
Proof.
  unfold provenance_columns. intros Hp.
  apply bind_Some in Hp as (ds & Hds & Hp).
  apply bind_Some in Hp as (et & Het & Hp).
  apply bind_Some in Hp as (og & Hog & Hp).
  injection Hp as <-. cbn [data_scope evidence_type Api.origin].
  apply bind_Some in Hds as (ds0 & _ & Hds). apply CHECK_Some in Hds as [-> Hds].
  apply bind_Some in Het as (et0 & _ & Het). apply CHECK_Some in Het as [-> Het].
  unfold not_null in Hog. destruct origin as [submitted | ]; [ | discriminate ].
  split_and!; [ exists submitted; split; [ reflexivity | exact Hog ] | exact Hds | exact Het ].
Qed.

Lemma validated_origin req s :
  validateDataScope req = inr req -> Body.origin (body req) = Some s -> is_blank s = false.
Proof.
  unfold validateDataScope. intros H Hs. rewrite Hs in H.
  repeat match type of H with
         | context [if ?c then _ else _] => destruct c eqn:?; try discriminate H
         end.
  match goal with
  | E : (_ || is_blank s) = false |- _ => apply orb_false_elim in E as [_ E]; exact E
  end.
Qed.

Lemma stored_provenance req dataScope evidenceType p :
  validateDataScope req = inr req ->
  provenance_columns dataScope evidenceType (Body.origin (body req)) = Some p ->
  well_sourced p.
Proof.
  intros Hval Hp.
  apply provenance_columns_Some in Hp as ((submitted & Ho & Hkept) & Hs & He).
  repeat split; try assumption.
  eapply VARCHAR_not_blank; [ exact Hkept | ]. eapply validated_origin; eassumption.
Qed.

(** X3.  In every state the database reaches through the API, every row of
    every table carries a [data_scope] among inferred, observed and
    simulated, an [evidence_type] among direct, proxy and estimated, and an
    [origin] that is not blank. *)
Theorem stored_rows_are_well_sourced (db : Db) :
  reachable db -> all_well_sourced db.
Proof.
  revert db. apply reachable_invariant.
  - intros t. unfold all_well_sourced. cbn.
    split; [ constructor | ]. split; [ constructor | ]. split; [ constructor | ].
    split; [ | split; [ | constructor ] ].
    + intros k r Hk. apply lookup_singleton_Some in Hk as [_ <-].
      repeat split; reflexivity.
    + intros k r Hk. rewrite lookup_empty in Hk. discriminate Hk.
  - intros e db rt req req' _ (Hf & Hq & Hl & Ho & Hp & Hu) Hchain.
    apply chain_passes in Hchain as (_ & _ & _ & _ & _ & Hval).
    destruct e; cbn [handler].
    + unfold rpl_track. destruct (insert_reasoning_frame rt req') as [row | ] eqn:Hrow;
        cbn [fst]; [ | split_and!; assumption ].
      unfold all_well_sourced; cbn; split_and!; try assumption.
      apply Forall_app. split; [ assumption | ]. constructor; [ | constructor ].
      unfold insert_reasoning_frame in Hrow. binds Hrow.
      cbn. eapply stored_provenance; eassumption.
    + unfold qem_register. destruct (insert_question rt req') as [row | ] eqn:Hrow;
        cbn [fst]; [ | split_and!; assumption ].
      unfold all_well_sourced; cbn; split_and!; try assumption.
      apply Forall_app. split; [ assumption | ]. constructor; [ | constructor ].
      unfold insert_question in Hrow. binds Hrow.
      cbn. eapply stored_provenance; eassumption.
    + unfold loa_track_outcome.
      destruct (insert_lagged_outcome _ _ _ _) as [row | ] eqn:Hrow;
        cbn [fst]; [ | split_and!; assumption ].
      unfold all_well_sourced; cbn; split_and!; try assumption.
      apply Forall_app. split; [ assumption | ]. constructor; [ | constructor ].
      unfold insert_lagged_outcome in Hrow. binds Hrow.
      cbn. eapply stored_provenance; eassumption.
    + unfold oli_update_load.
      destruct (upsert_observer_metrics _ _ _ _ _) as [[observer_id row] | ] eqn:Hrow;
        cbn [fst]; [ | split_and!; assumption ].
      unfold all_well_sourced; cbn; split_and!; try assumption.
      intros k r Hk. destruct (decide (observer_id = k)) as [-> | Hne].
      * rewrite lookup_insert_eq in Hk. injection Hk as <-.
        unfold upsert_observer_metrics in Hrow. binds Hrow.
        destruct (tbl_observer_metrics db !! _) as [stored | ] eqn:Hstored;
          injection Hrow as <- <-; cbn.
        -- eapply Ho; eassumption.
        -- eapply stored_provenance; eassumption.
      * rewrite lookup_insert_ne in Hk by assumption. eapply Ho; eassumption.
    + unfold pds_track_usage. destruct (insert_usage_event db rt req') as [row | ] eqn:Hrow;
        cbn [fst]; [ | split_and!; assumption ].
      unfold all_well_sourced; cbn; split_and!; try assumption.
      apply Forall_app. split; [ assumption | ]. constructor; [ | constructor ].
      unfold insert_usage_event in Hrow. binds Hrow.
      cbn. eapply stored_provenance; eassumption.
Qed.

Lemma stored_rows_are_well_sourced_witness :
  reachable Scenario.db_cooling /\ all_well_sourced Scenario.db_cooling.
Proof.
  assert (H : reachable Scenario.db_cooling) by apply reachable_serve, reachable_schema.
  split; [ exact H | ].
  exact (stored_rows_are_well_sourced Scenario.db_cooling H).
Defined.

End StoredRows.

(** * Columns no route writes *)

Section UnwrittenColumns.
Import JS Api.

(** No statement of the server sets [concurrent_audits]: an inserted row
    takes the default 0 and the [DO UPDATE] keeps the stored value. *)
Lemma reachable_no_concurrent_audits db :
  reachable db ->
  forall k row,
    tbl_observer_metrics db !! k = Some row -> observer_metrics.concurrent_audits row = 0.
Proof.
  revert db.
  apply (reachable_invariant
           (fun db => forall k row,
                tbl_observer_metrics db !! k = Some row ->
                observer_metrics.concurrent_audits row = 0)).
  - intros t k row Hk. cbn in Hk. apply lookup_singleton_Some in Hk as [_ <-]. reflexivity.
  - intros e db rt req req' _ IH _.
    destruct e; cbn [handler];
      try (unfold rpl_track; destruct (insert_reasoning_frame _ _); exact IH);
      try (unfold qem_register; destruct (insert_question _ _); exact IH);
      try (unfold loa_track_outcome; destruct (insert_lagged_outcome _ _ _ _); exact IH);
      try (unfold pds_track_usage; destruct (insert_usage_event _ _ _); exact IH).
    unfold oli_update_load.
    destruct (upsert_observer_metrics _ _ _ _ _) as [[observer_id row] | ] eqn:Hrow;
      cbn [fst]; [ | exact IH ].
    intros k r Hk. cbn in Hk. destruct (decide (observer_id = k)) as [-> | Hne].
    + rewrite lookup_insert_eq in Hk. injection Hk as <-.
      unfold upsert_observer_metrics in Hrow. binds Hrow.
      destruct (tbl_observer_metrics db !! _) as [stored | ] eqn:Hstored;
        injection Hrow as <- <-; cbn; [ | reflexivity ].
      eapply IH; eassumption.
    + rewrite lookup_insert_ne in Hk by assumption. eapply IH; eassumption.
Qed.

Lemma no_audit_reaches_the_limit role :
  (of_Z 0 >=? ToNumber (MAX_CONCURRENT_AUDITS role))%js = false.
Proof.
  unfold MAX_CONCURRENT_AUDITS.
  repeat match goal with
         | |- context [if ?c then _ else _] => destruct c
         end; reflexivity.
Qed.

Lemma gate_never_counts db rt req reply :
  (forall k row,
      tbl_observer_metrics db !! k = Some row -> observer_metrics.concurrent_audits row = 0) ->
  epistemicHygieneMiddleware db rt req = inl reply ->
  rejection reply <> Some ConcurrencyExceeded.
Proof.
  intros Hzero. unfold epistemicHygieneMiddleware.
  destruct (falsy _ || falsy _); [ intros [= <-]; discriminate | ].
  destruct (tbl_observer_metrics db !! _) as [row | ] eqn:Hrow.
  - rewrite (Hzero _ _ Hrow), no_audit_reaches_the_limit.
    destruct (match observer_metrics.cooldown_until row with
              | Some t => now rt <? t
              | None => false
              end); [ intros [= <-]; discriminate | ].
    destruct (Body.confidenceWeight (body req)) as [c | ];
      [ destruct (_ >? MAX_CONFIDENCE_WEIGHT)%js; [ intros [= <-]; discriminate | ] | ];
      destruct (_ && negb _); intros [= <-]; discriminate.
  - destruct (Body.confidenceWeight (body req)) as [c | ];
      [ destruct (_ >? MAX_CONFIDENCE_WEIGHT)%js; [ intros [= <-]; discriminate | ] | ];
      destruct (_ && negb _); intros [= <-]; discriminate.
Qed.

(** X4.  No route ever writes [concurrent_audits].  In every state the
    database reaches through the API every observer row holds 0 concurrent
    audits, and so no request is ever refused for exceeding the
    concurrent-audit limit of its role. *)
Theorem concurrency_limit_is_never_reached (db : Db) :
  reachable db ->
  (forall k row,
      tbl_observer_metrics db !! k = Some row -> observer_metrics.concurrent_audits row = 0)
  /\ (forall e rt req, rejection (snd (serve e db rt req)) <> Some ConcurrencyExceeded).
Proof.
  intros Hdb. pose proof (reachable_no_concurrent_audits db Hdb) as Hzero.
  split; [ exact Hzero | ].
  intros e rt req. unfold serve. destruct (limited req); [ discriminate | ].
  destruct (runChain (chain e) db rt req) as [reply | req'] eqn:Hchain; cbn [snd].
  - assert (Hany : forall ms r, runChain ms db rt r = inl reply ->
                                rejection reply <> Some ConcurrencyExceeded).
    { induction ms as [ | m ms IH]; intros r; cbn [runChain]; [ discriminate | ].
      destruct (runMiddleware m db rt r) as [r1 | r2] eqn:Hm; [ | apply IH ].
      intros [= <-]. destruct m; cbn [runMiddleware] in Hm.
      - apply authMiddleware_not_admission in Hm. congruence.
      - eapply gate_never_counts; eassumption.
      - apply validateDataScope_not_admission in Hm. congruence. }
    eapply Hany; eassumption.
  - rewrite handler_not_admission. discriminate.
Qed.

Lemma concurrency_limit_is_never_reached_witness :
  reachable Scenario.db_cooling
  /\ (forall k row,
         tbl_observer_metrics Scenario.db_cooling !! k = Some row ->
         observer_metrics.concurrent_audits row = 0)
  /\ (forall e rt req,
         rejection (snd (serve e Scenario.db_cooling rt req)) <> Some ConcurrencyExceeded).
Proof.
  assert (H : reachable Scenario.db_cooling) by apply reachable_serve, reachable_schema.
  split; [ exact H | ].
  exact (concurrency_limit_is_never_reached Scenario.db_cooling H).
Defined.

Lemma reachable_no_purpose db : reachable db -> tbl_system_purposes db = ∅.
Proof.
  revert db. apply (reachable_invariant (fun db => tbl_system_purposes db = ∅));
    [ reflexivity | ].
  intros e db rt req req' _ IH _.
  destruct e; cbn [handler].
  - unfold rpl_track. destruct (insert_reasoning_frame _ _); exact IH.
  - unfold qem_register. destruct (insert_question _ _); exact IH.
  - unfold loa_track_outcome. destruct (insert_lagged_outcome _ _ _ _); exact IH.
  - unfold oli_update_load.
    destruct (upsert_observer_metrics _ _ _ _ _) as [[? ?] | ]; exact IH.
  - unfold pds_track_usage. destruct (insert_usage_event _ _ _); exact IH.
Qed.

(** X5.  No route inserts into [system_purposes] and the schema seeds none.
    In every state the database reaches through the API the table is empty:
    the drift-status route never answers a drift status (it answers 404 for
    every id that is a UUID and 500 for a text that is not, on which its
    query fails), and a usage event that names a purpose is refused (the
    text is no UUID or the foreign key fails) and not stored. *)
Theorem no_route_declares_a_purpose (db : Db) :
  reachable db ->
  tbl_system_purposes db = ∅
  /\ (forall rt purposeId,
         pds_drift_status db rt purposeId
         = match uuid_in purposeId with
           | Some _ => PurposeNotFound
           | None => Failed "Failed to calculate drift"
           end
         /\ 400 <= status (pds_drift_status db rt purposeId))
  /\ (forall rt req purposeId,
         Body.purposeId (body req) = Some purposeId ->
         fst (serve POST_pds_track_usage db rt req) = db
         /\ 400 <= status (snd (serve POST_pds_track_usage db rt req))).
Proof.
  intros Hdb. pose proof (reachable_no_purpose db Hdb) as Hnone.
  split; [ exact Hnone | split ].
  - intros rt purposeId. unfold pds_drift_status.
    destruct (uuid_in purposeId) as [id | ].
    + rewrite Hnone, lookup_empty. split; [ reflexivity | cbn; lia ].
    + split; [ reflexivity | cbn; lia ].
  - intros rt req purposeId Hp. unfold serve.
    destruct (limited req); [ split; [ reflexivity | cbn; lia ] | ].
    destruct (runChain (chain POST_pds_track_usage) db rt req) as [reply | req'] eqn:Hchain.
    + split; [ reflexivity | ]. eapply runChain_error; eassumption.
    + apply chain_passes in Hchain as (_ & _ & _ & _ & Hbody & _).
      cbn [handler]. unfold pds_track_usage, insert_usage_event.
      rewrite Hbody, Hp. cbn [nullable]. unfold references_purpose.
      destruct (uuid_in purposeId) as [id | ]; cbn.
      * rewrite Hnone, lookup_empty. cbn. split; [ reflexivity | lia ].
      * split; [ reflexivity | lia ].
Qed.

Lemma no_route_declares_a_purpose_witness :
  reachable Scenario.db_cooling
  /\ tbl_system_purposes Scenario.db_cooling = ∅
  /\ (forall rt purposeId,
         pds_drift_status Scenario.db_cooling rt purposeId
         = match uuid_in purposeId with
           | Some _ => PurposeNotFound
           | None => Failed "Failed to calculate drift"
           end
         /\ 400 <= status (pds_drift_status Scenario.db_cooling rt purposeId))
  /\ (forall rt req purposeId,
         Body.purposeId (body req) = Some purposeId ->
         fst (serve POST_pds_track_usage Scenario.db_cooling rt req) = Scenario.db_cooling
         /\ 400 <= status (snd (serve POST_pds_track_usage Scenario.db_cooling rt req))).
Proof.
  assert (H : reachable Scenario.db_cooling) by apply reachable_serve, reachable_schema.
  split; [ exact H | ].
  exact (no_route_declares_a_purpose Scenario.db_cooling H).
Defined.

(** The texts PostgreSQL reads as a UUID, and two it refuses. *)
Example uuid_in_examples :
  uuid_in "3f0c8d9e-5a51-4c43-9f43-0d8f3c1f7a10"
  = Some "3f0c8d9e-5a51-4c43-9f43-0d8f3c1f7a10"%string
  /\ uuid_in "{3F0C8D9E5A514C439F430D8F3C1F7A10}"
     = Some "3f0c8d9e-5a51-4c43-9f43-0d8f3c1f7a10"%string
  /\ uuid_in "3f0c-8d9e-5a51-4c43-9f43-0d8f-3c1f-7a10"
     = Some "3f0c8d9e-5a51-4c43-9f43-0d8f3c1f7a10"%string
  /\ uuid_in "purpose-1" = None
  /\ uuid_in "3f0c8d9e-5a51-4c43-9f43-0d8f3c1f7a1" = None.
Proof. repeat split; vm_compute; reflexivity. Qed.

End UnwrittenColumns.

(** * The observer rows *)

Section ObserverRows.
Import JS Api.

Lemma fatigueRisk_values score :
  In (fatigueRisk score) ["low"; "medium"; "high"; "critical"]%string.
Proof.
  unfold fatigueRisk.
  repeat match goal with
         | |- context [if ?c then _ else _] => destruct c
         end; cbn; auto.
Qed.

Lemma zero_to_one_Some x q :
  zero_to_one x = Some q -> (0 <= q)%Q /\ (q <= 1)%Q.
Proof.
  unfold zero_to_one. intros H. apply bind_Some in H as (r & _ & H).
  apply CHECK_Some in H as [-> H]. apply between_spec. exact H.
Qed.

Lemma nullable_zero_to_one x o q :
  nullable zero_to_one x = Some o -> o = Some q -> (0 <= q)%Q /\ (q <= 1)%Q.
Proof.
  unfold nullable. destruct x as [a | ]; [ | intros [= <-]; discriminate ].
  destruct (zero_to_one a) as [r | ] eqn:Hr; cbn; [ | discriminate ].
  intros [= <-] [= ->]. eapply zero_to_one_Some; eassumption.
Qed.

(** What a successful [INSERT ... ON CONFLICT DO UPDATE] of the update-load
    route leaves in the row. *)
Lemma upsert_observer_metrics_Some db rt req risk cooldown observer_id row :
  In risk ["low"; "medium"; "high"; "critical"]%string ->
  upsert_observer_metrics db rt req risk cooldown = Some (observer_id, row) ->
  (exists submitted,
      Body.observerId (body req) = Some submitted
      /\ VARCHAR 255 submitted = Some observer_id)
  /\ observer_metrics.fatigue_risk row = Some risk
  /\ observer_metrics.cooldown_until row = cooldown
  /\ observer_metrics.last_activity row = Some (now rt)
  /\ (forall q, observer_metrics.correction_rate row = Some q -> (0 <= q)%Q /\ (q <= 1)%Q)
  /\ (forall q,
         observer_metrics.contradiction_exposure row = Some q -> (0 <= q)%Q /\ (q <= 1)%Q)
  /\ match tbl_observer_metrics db !! observer_id with
     | Some stored =>
         observer_metrics.concurrent_audits row = observer_metrics.concurrent_audits stored
         /\ observer_metrics.provenance row = observer_metrics.provenance stored
     | None => observer_metrics.concurrent_audits row = 0
     end.
Proof.
  unfold upsert_observer_metrics. intros Htier H.
  apply bind_Some in H as (oid & Hoid & H).
  apply bind_Some in H as (audits & _ & H).
  apply bind_Some in H as (cr & Hcr & H).
  apply bind_Some in H as (ce & Hce & H).
  apply bind_Some in H as (fr & Hfr & H).
  apply bind_Some in H as (prov & _ & H).
  apply bind_Some in Hfr as (fr0 & Hfr0 & Hfr).
  apply CHECK_Some in Hfr as [-> _].
  assert (Hkept : VARCHAR 10 risk = Some risk).
  { destruct Htier as [<- | [<- | [<- | [<- | []]]]]; reflexivity. }
  rewrite Hkept in Hfr0. injection Hfr0 as <-.
  unfold not_null in Hoid.
  destruct (Body.observerId (body req)) as [o | ]; [ | discriminate ].
  destruct (tbl_observer_metrics db !! oid) as [stored | ] eqn:Hstored;
    injection H as <- <-; cbn;
    (split_and!; try reflexivity;
     try (exists o; split; [ reflexivity | exact Hoid ]);
     try (intros q Hq; eauto using nullable_zero_to_one));
    rewrite Hstored; auto.
Qed.

(** X6.  The update-load route replaces the observer's row by what the
    call computes: the stored tier and cooldown are those of the reply, the
    cooldown is 24 h from now when the tier is critical and none otherwise
    (so a report that is not critical clears a cooldown that was running),
    the stored [concurrent_audits] and provenance of an existing row are
    kept, and the rows of the other observers are untouched. *)
Theorem update_load_overwrites_the_cooldown (db db' : Db) (rt : Runtime) (req : Request)
    (observer risk : string) (cooldown : option Z) (required : bool) :
  serve POST_oli_update_load db rt req
  = (db', LoadUpdated observer risk cooldown required) ->
  (exists row,
      tbl_observer_metrics db' !! observer = Some row
      /\ observer_metrics.fatigue_risk row = Some risk
      /\ observer_metrics.cooldown_until row = cooldown
      /\ forall stored,
           tbl_observer_metrics db !! observer = Some stored ->
           observer_metrics.concurrent_audits row = observer_metrics.concurrent_audits stored
           /\ observer_metrics.provenance row = observer_metrics.provenance stored)
  /\ cooldown = (if required then Some (now rt + 24 * 60 * 60 * 1000) else None)
  /\ (required = true <-> risk = "critical"%string)
  /\ (forall k, k <> observer -> tbl_observer_metrics db' !! k = tbl_observer_metrics db !! k).
Proof.
  unfold serve. destruct (limited req); [ discriminate | ].
  destruct (runChain (chain POST_oli_update_load) db rt req) as [reply | req'] eqn:Hchain.
  { intros [= _ ->]. apply runChain_error in Hchain. cbn in Hchain. lia. }
  cbn [handler]. unfold oli_update_load.
  destruct (upsert_observer_metrics _ _ _ _ _) as [[observer_id row] | ] eqn:Hrow;
    [ | discriminate ].
  apply upsert_observer_metrics_Some in Hrow as (_ & Hrisk & Hcool & _ & _ & _ & Hkept);
    [ | apply fatigueRisk_values ].
  rewrite Hrisk, Hcool. cbn [default from_option id].
  intros [= <- <- <- <- <-]. cbn [tbl_observer_metrics].
  split_and!.
  - exists row. rewrite lookup_insert_eq. split_and!; try reflexivity; try assumption.
    intros stored Hstored. rewrite Hstored in Hkept. exact Hkept.
  - unfold cooldownUntil. reflexivity.
  - apply String.eqb_eq.
  - intros k Hk. apply lookup_insert_ne. congruence.
Qed.

Lemma update_load_overwrites_the_cooldown_witness :
  serve POST_oli_update_load (schema_db 0) (Scenario.rt_at 0 (of_Z 0))
    (Scenario.as_analyst "alice" Scenario.load_report)
  = (Scenario.db_cooling, LoadUpdated "alice" "critical" (Some 86400000) true)
  /\ Some 86400000 = Some (now (Scenario.rt_at 0 (of_Z 0)) + 24 * 60 * 60 * 1000).
Proof.
  assert (H : serve POST_oli_update_load (schema_db 0) (Scenario.rt_at 0 (of_Z 0))
                (Scenario.as_analyst "alice" Scenario.load_report)
              = (Scenario.db_cooling, LoadUpdated "alice" "critical" (Some 86400000) true))
    by (vm_compute; reflexivity).
  split; [ exact H | ].
  exact (proj1 (proj2 (update_load_overwrites_the_cooldown _ _ _ _ _ _ _ _ H))).
Defined.

Lemma serve_update_load_row db rt req :
  fst (serve POST_oli_update_load db rt req) = db
  \/ exists req' observer_id row,
       upsert_observer_metrics db rt req'
         (fatigueRisk (fatigueScore (Body.correctionRate (body req'))
                         (Body.contradictionExposure (body req'))))
         (cooldownUntil rt
            (fatigueRisk (fatigueScore (Body.correctionRate (body req'))
                            (Body.contradictionExposure (body req')))))
       = Some (observer_id, row)
       /\ tbl_observer_metrics (fst (serve POST_oli_update_load db rt req))
          = <[observer_id := row]> (tbl_observer_metrics db).
Proof.
  unfold serve. destruct (limited req); [ left; reflexivity | ].
  destruct (runChain (chain POST_oli_update_load) db rt req) as [reply | req'];
    [ left; reflexivity | ].
  cbn [handler]. unfold oli_update_load.
  destruct (upsert_observer_metrics _ _ _ _ _) as [[observer_id row] | ] eqn:Hrow;
    [ | left; reflexivity ].
  right. exists req', observer_id, row. split; [ exact Hrow | reflexivity ].
Qed.

(** X7.  In every state the database reaches through the API, every
    observer row names one of the four tiers low, medium, high and critical,
    holds a cooldown exactly when its tier is critical, and has a correction
    rate and a contradiction exposure that are absent or between 0 and 1. *)
Theorem observer_rows_are_consistent (db : Db) :
  reachable db ->
  forall k row,
    tbl_observer_metrics db !! k = Some row ->
    (exists risk,
        observer_metrics.fatigue_risk row = Some risk
        /\ In risk ["low"; "medium"; "high"; "critical"]%string
        /\ (risk = "critical"%string <-> observer_metrics.cooldown_until row <> None))
    /\ (forall q, observer_metrics.correction_rate row = Some q -> (0 <= q)%Q /\ (q <= 1)%Q)
    /\ (forall q,
           observer_metrics.contradiction_exposure row = Some q -> (0 <= q)%Q /\ (q <= 1)%Q).
Proof.
  intros Hdb. induction Hdb as [t | db e rt req Hdb IH].
  - intros k row Hk. cbn in Hk. apply lookup_singleton_Some in Hk as [_ <-]. cbn.
    split_and!.
    + exists "low"%string. split_and!; [ reflexivity | auto | ].
      split; [ discriminate | congruence ].
    + intros q [= <-]. split; discriminate.
    + intros q [= <-]. split; discriminate.
  - assert (Hother : forall e', e' <> POST_oli_update_load ->
                       tbl_observer_metrics (fst (serve e' db rt req))
                       = tbl_observer_metrics db).
    { intros e' He'. unfold serve. destruct (limited req); [ reflexivity | ].
      destruct (runChain (chain e') db rt req) as [reply | req']; [ reflexivity | ].
      destruct e'; cbn [handler]; try congruence.
      - unfold rpl_track. destruct (insert_reasoning_frame _ _); reflexivity.
      - unfold qem_register. destruct (insert_question _ _); reflexivity.
      - unfold loa_track_outcome. destruct (insert_lagged_outcome _ _ _ _); reflexivity.
      - unfold pds_track_usage. destruct (insert_usage_event _ _ _); reflexivity. }
    destruct e; try (rewrite Hother by discriminate; exact IH).
    destruct (serve_update_load_row db rt req) as [-> | (req' & oid & row & Hrow & ->)];
      [ exact IH | ].
    intros k r Hk. destruct (decide (oid = k)) as [-> | Hne].
    + rewrite lookup_insert_eq in Hk. injection Hk as <-.
      apply upsert_observer_metrics_Some in Hrow
        as (_ & Hrisk & Hcool & _ & Hcr & Hce & _); [ | apply fatigueRisk_values ].
      split_and!; [ | exact Hcr | exact Hce ].
      eexists. split_and!; [ exact Hrisk | apply fatigueRisk_values | ].
      rewrite Hcool. unfold cooldownUntil. split.
      * intros ->. discriminate.
      * destruct (String.eqb _ "critical") eqn:E; [ | congruence ].
        intros _. apply String.eqb_eq. exact E.
    + rewrite lookup_insert_ne in Hk by assumption. eapply IH; eassumption.
Qed.

Lemma observer_rows_are_consistent_witness :
  reachable Scenario.db_cooling
  /\ forall k row,
       tbl_observer_metrics Scenario.db_cooling !! k = Some row ->
       (exists risk,
           observer_metrics.fatigue_risk row = Some risk
           /\ In risk ["low"; "medium"; "high"; "critical"]%string
           /\ (risk = "critical"%string <-> observer_metrics.cooldown_until row <> None))
       /\ (forall q,
              observer_metrics.correction_rate row = Some q -> (0 <= q)%Q /\ (q <= 1)%Q)
       /\ (forall q,
              observer_metrics.contradiction_exposure row = Some q ->
              (0 <= q)%Q /\ (q <= 1)%Q).
Proof.
  assert (H : reachable Scenario.db_cooling) by apply reachable_serve, reachable_schema.
  split; [ exact H | ].
  exact (observer_rows_are_consistent Scenario.db_cooling H).
Defined.

Lemma includes_analyst_admin_true role :
  role = "analyst"%string \/ role = "admin"%string ->
  Str.includes ["analyst"; "admin"]%string role = true.
Proof. intros [-> | ->]; reflexivity. Qed.

(** X8.  The cooldown that a critical load report installs for an observer
    blocks that observer at the tracking route: as long as the cooldown
    runs, every tracking request made with a valid analyst or admin token
    of that observer is answered 429, cognitive cooldown active, with the
    end of the cooldown, and nothing is written. *)
Theorem critical_report_blocks_tracking (db db' : Db) (rt : Runtime) (req : Request)
    (observer risk : string) (until : Z) :
  serve POST_oli_update_load db rt req
  = (db', LoadUpdated observer risk (Some until) true) ->
  observer <> ""%string ->
  until = now rt + 24 * 60 * 60 * 1000
  /\ forall (rt' : Runtime) (req' : Request) (role : string),
       limited req' = false ->
       authorization req' = valid_token (Decoded.mk observer role) ->
       role = "analyst"%string \/ role = "admin"%string ->
       now rt' < until ->
       exists minutes,
         serve POST_rpl_track db' rt' req' = (db', CognitiveCooldownActive minutes until).
Proof.
  intros Hserve Hobserver.
  assert (Hrow : exists row,
             tbl_observer_metrics db' !! observer = Some row
             /\ observer_metrics.cooldown_until row = Some until
             /\ Some until = Some (now rt + 24 * 60 * 60 * 1000)).
  { revert Hserve. unfold serve. destruct (limited req); [ discriminate | ].
    destruct (runChain (chain POST_oli_update_load) db rt req) as [reply | req1] eqn:Hchain.
    { intros [= _ ->]. apply runChain_error in Hchain. cbn in Hchain. lia. }
    cbn [handler]. unfold oli_update_load.
    destruct (upsert_observer_metrics _ _ _ _ _) as [[observer_id row] | ] eqn:Hrow;
      [ | discriminate ].
    apply upsert_observer_metrics_Some in Hrow as (_ & Hrisk & Hcool & _);
      [ | apply fatigueRisk_values ].
    rewrite Hcool. intros [= <- <- _ Huntil Hcrit]. cbn [tbl_observer_metrics].
    exists row. rewrite lookup_insert_eq. split_and!; [ reflexivity | | ].
    - rewrite Hcool. exact Huntil.
    - rewrite <- Huntil. unfold cooldownUntil. rewrite Hcrit. reflexivity. }
  destruct Hrow as (row & Hlookup & Hcool & [= Huntil]).
  split; [ exact Huntil | ].
  intros rt' req' role Hlimited Hauth Hrole Hnow.
  unfold serve. rewrite Hlimited.
  cbn [chain route registered runChain runMiddleware].
  unfold authMiddleware. rewrite Hauth. cbn [Decoded.role Decoded.id].
  rewrite (includes_analyst_admin_true role Hrole). cbn [negb].
  unfold epistemicHygieneMiddleware.
  cbn [user option_map User.id User.role falsy default from_option id].
  assert (Hrole' : String.eqb role "" = false).
  { destruct Hrole as [-> | ->]; reflexivity. }
  apply String.eqb_neq in Hobserver. rewrite Hobserver, Hrole'. cbn [orb].
  rewrite Hlookup, Hcool. cbn [default from_option id].
  apply Z.ltb_lt in Hnow. rewrite Hnow. eexists. reflexivity.
Qed.

Lemma critical_report_blocks_tracking_witness :
  serve POST_oli_update_load (schema_db 0) (Scenario.rt_at 0 (of_Z 0))
    (Scenario.as_analyst "alice" Scenario.load_report)
  = (Scenario.db_cooling, LoadUpdated "alice" "critical" (Some 86400000) true)
  /\ "alice"%string <> ""%string
  /\ exists minutes,
       serve POST_rpl_track Scenario.db_cooling (Scenario.rt_at 1000 (of_Z 0))
         (Scenario.as_analyst "alice" Scenario.over_cap)
       = (Scenario.db_cooling, CognitiveCooldownActive minutes 86400000).
Proof.
  assert (H1 : serve POST_oli_update_load (schema_db 0) (Scenario.rt_at 0 (of_Z 0))
                 (Scenario.as_analyst "alice" Scenario.load_report)
               = (Scenario.db_cooling, LoadUpdated "alice" "critical" (Some 86400000) true))
    by (vm_compute; reflexivity).
  assert (H2 : "alice"%string <> ""%string) by discriminate.
  split; [ exact H1 | split; [ exact H2 | ] ].
  apply (proj2 (critical_report_blocks_tracking _ _ _ _ _ _ _ H1 H2)
           (Scenario.rt_at 1000 (of_Z 0)) (Scenario.as_analyst "alice" Scenario.over_cap)
           "analyst"%string);
    [ reflexivity | reflexivity | left; reflexivity | cbn; lia ].
Defined.

End ObserverRows.

(** * The outcome rows *)

Section OutcomeRows.
Import JS Api.

Lemma Qfloor_inject_div (n : Z) (p : positive) :
  Qfloor (inject_Z n / inject_Z (Zpos p)) = n / Zpos p.
Proof.
  unfold Qdiv, Qinv, inject_Z, Qmult, Qfloor. cbn.
  rewrite Z.mul_1_r. reflexivity.
Qed.

(** [Math.floor((b - d) / 86400000)] on two dates the handler can read. *)
Lemma lag_in_days (decision benefit : option DateText.t) (d b : Z) :
  getTime decision = of_Z d ->
  getTime benefit = of_Z b ->
  Math.floor ((getTime benefit - getTime decision) / of_Z (1000 * 60 * 60 * 24))%js
  = of_Z ((b - d) / 86400000).
Proof.
  intros -> ->.
  unfold of_Z, sub, neg, add, div, num, Math.floor. cbn [Qeq_bool].
  change (Qeq_bool (inject_Z (1000 * 60 * 60 * 24)) 0) with false. cbn iota.
  rewrite !Qred_correct.
  assert (E : (inject_Z b + - inject_Z d == inject_Z (b - d))%Q).
  { rewrite <- inject_Z_opp, <- inject_Z_plus. reflexivity. }
  rewrite E. change (1000 * 60 * 60 * 24) with 86400000.
  rewrite Qfloor_inject_div. reflexivity.
Qed.

Lemma INTEGER_of_Z n z : INTEGER (of_Z n) = Some z -> z = n.
Proof.
  unfold INTEGER, of_Z. rewrite Qfloor_Z.
  destruct (_ && _); [ congruence | discriminate ].
Qed.

Lemma negative_lag_over_thirty (n : Z) :
  n <= -2 -> (Qred (inject_Z n / inject_Z 30) <= - (1 # 15))%Q.
Proof.
  intros Hn. rewrite Qred_correct.
  apply Qle_shift_div_r; [ reflexivity | ].
  assert (E : (- (1 # 15) * inject_Z 30 == inject_Z (-2))%Q) by reflexivity.
  rewrite E, <- Zle_Qle. exact Hn.
Qed.

(** A lag of two days or more into the past gives a risk score that rounds
    to -0.1 or below. *)
Lemma negative_lag_rounds_below_zero (n : Z) :
  n <= -2 -> (sql_round 1 (Qred (inject_Z n / inject_Z 30)) < 0)%Q.
Proof.
  intros Hn. unfold sql_round. change (10 ^ Z.of_nat 1) with 10.
  pose proof (negative_lag_over_thirty n Hn) as Hq.
  set (q := Qred (inject_Z n / inject_Z 30)) in *.
  clearbody q.
  assert (Hneg : Qle_bool 0 q = false).
  { destruct (Qle_bool 0 q) eqn:E; [ | reflexivity ].
    apply Qle_bool_iff in E. exfalso. lra. }
  rewrite Hneg.
  assert (Hm : 1 <= Qfloor (Qabs q * inject_Z 10 + (1 # 2))).
  { apply (Z.le_trans _ (Qfloor 1)); [ reflexivity | ]. apply Qfloor_resp_le.
    rewrite Qabs_neg by lra. change (inject_Z 10) with 10%Q. lra. }
  rewrite Qred_correct.
  apply Qlt_shift_div_r; [ reflexivity | ].
  rewrite Qmult_0_l. change 0%Q with (inject_Z 0). rewrite <- Zlt_Qlt. lia.
Qed.

Lemma sql_round_comp (scale : nat) (q q' : Q) :
  (q == q')%Q -> sql_round scale q = sql_round scale q'.
Proof.
  intros E. unfold sql_round.
  assert (Hsign : Qle_bool 0 q = Qle_bool 0 q').
  { destruct (Qle_bool 0 q) eqn:H, (Qle_bool 0 q') eqn:H'; try reflexivity.
    - apply Qle_bool_iff in H. rewrite E in H. apply Qle_bool_iff in H. congruence.
    - apply Qle_bool_iff in H'. rewrite <- E in H'. apply Qle_bool_iff in H'. congruence. }
  assert (Hm : Qfloor (Qabs q * inject_Z (10 ^ Z.of_nat scale) + (1 # 2))
               = Qfloor (Qabs q' * inject_Z (10 ^ Z.of_nat scale) + (1 # 2))).
  { apply Qfloor_comp. rewrite E. reflexivity. }
  rewrite Hsign, Hm. reflexivity.
Qed.

(** A whole number of days that the [INTEGER] column accepts. *)
Lemma INTEGER_floor x z : INTEGER (Math.floor x) = Some z -> Math.floor x = of_Z z.
Proof.
  destruct x as [ | | | q]; cbn [Math.floor INTEGER]; try discriminate.
  intros H. apply INTEGER_of_Z in H. congruence.
Qed.

Lemma ten_le_over_thirty (lag : Z) :
  Qle_bool (inject_Z 10) (Qred (inject_Z lag / inject_Z 30)) = (300 <=? lag).
Proof.
  assert (E : (inject_Z 10 * inject_Z 30 == inject_Z 300)%Q) by reflexivity.
  destruct (300 <=? lag) eqn:H.
  - apply Z.leb_le in H. apply Qle_bool_iff. rewrite Qred_correct.
    apply Qle_shift_div_l; [ reflexivity | ]. rewrite E, <- Zle_Qle. exact H.
  - apply Z.leb_gt in H. destruct (Qle_bool _ _) eqn:Hq; [ exfalso | reflexivity ].
    apply Qle_bool_iff in Hq. rewrite Qred_correct in Hq.
    assert (Hlt : (inject_Z lag / inject_Z 30 < inject_Z 10)%Q).
    { apply Qlt_shift_div_r; [ reflexivity | ]. rewrite E, <- Zlt_Qlt. exact H. }
    apply (Qlt_irrefl (inject_Z 10)). eapply Qle_lt_trans; eassumption.
Qed.

(** The risk score of a lag, as the handler computes it and the
    [DECIMAL(3,1)] column rounds it. *)
Lemma stored_risk_score (lag : Z) (r : Q) :
  DECIMAL 3 1 (Math.min (of_Z 10) (of_Z lag / of_Z 30)%js) = Some r ->
  r = sql_round 1 (if 300 <=? lag then 10 else inject_Z lag / 30).
Proof.
  unfold of_Z at 2 3, div. cbn [Qeq_bool].
  change (Qeq_bool (inject_Z 30) 0) with false. cbn iota.
  unfold Math.min, of_Z, num, ltb. rewrite ten_le_over_thirty.
  destruct (300 <=? lag); cbn [negb];
    unfold DECIMAL; (destruct (Qle_bool _ (Qabs _)); [ discriminate | ]);
    intros [= <-]; [ reflexivity | ].
  apply sql_round_comp. rewrite Qred_correct. reflexivity.
Qed.

(** What a successful INSERT of the track-outcome route stores. *)
Lemma insert_lagged_outcome_Some rt req row :
  insert_lagged_outcome rt req
    (Math.floor
       ((getTime (Body.benefitRealizedDate (body req))
         - getTime (Body.decisionDate (body req)))
        / of_Z (1000 * 60 * 60 * 24))%js)
    (Math.min (of_Z 10)
       (Math.floor
          ((getTime (Body.benefitRealizedDate (body req))
            - getTime (Body.decisionDate (body req)))
           / of_Z (1000 * 60 * 60 * 24)) / of_Z 30)%js)
  = Some row ->
  Math.floor
    ((getTime (Body.benefitRealizedDate (body req))
      - getTime (Body.decisionDate (body req)))
     / of_Z (1000 * 60 * 60 * 24))%js
  = of_Z (lagged_outcomes.lag_days row)
  /\ -1 <= lagged_outcomes.lag_days row
  /\ lagged_outcomes.risk_score row
     = sql_round 1
         (if 300 <=? lagged_outcomes.lag_days row then 10
          else inject_Z (lagged_outcomes.lag_days row) / 30)
  /\ (0 <= lagged_outcomes.risk_score row)%Q
  /\ (lagged_outcomes.risk_score row <= 10)%Q.
Proof.
  unfold insert_lagged_outcome. intros H.
  apply bind_Some in H as (decision_id & _ & H).
  apply bind_Some in H as (d & _ & H).
  apply bind_Some in H as (beneficiary & _ & H).
  apply bind_Some in H as (b & _ & H).
  apply bind_Some in H as (lag & Hlag & H).
  pose proof (INTEGER_floor _ _ Hlag) as Hfloor. rewrite Hfloor in H.
  apply bind_Some in H as (risk & Hrisk & H).
  apply bind_Some in H as (prov & _ & H).
  injection H as <-. cbn [lagged_outcomes.lag_days lagged_outcomes.risk_score].
  apply bind_Some in Hrisk as (r & Hr & Hrisk).
  apply CHECK_Some in Hrisk as [-> Hrisk]. apply between_spec in Hrisk as [Hlo Hhi].
  pose proof (stored_risk_score lag r Hr) as Hscore.
  split_and!; try assumption.
  destruct (Z_le_gt_dec lag (-2)) as [Hneg | Hok]; [ exfalso | lia ].
  assert (Hsmall : (300 <=? lag) = false) by (apply Z.leb_gt; lia).
  rewrite Hsmall in Hscore.
  pose proof (negative_lag_rounds_below_zero _ Hneg) as Hbelow.
  rewrite (sql_round_comp 1 _ (inject_Z lag / 30)) in Hbelow
    by (rewrite Qred_correct; reflexivity).
  rewrite <- Hscore in Hbelow. lra.
Qed.

Lemma serve_track_outcome_row db rt req :
  fst (serve POST_loa_track_outcome db rt req) = db
  \/ exists req' row,
       body req' = body req
       /\ insert_lagged_outcome rt req'
            (Math.floor
               ((getTime (Body.benefitRealizedDate (body req'))
                 - getTime (Body.decisionDate (body req')))
                / of_Z (1000 * 60 * 60 * 24))%js)
            (Math.min (of_Z 10)
               (Math.floor
                  ((getTime (Body.benefitRealizedDate (body req'))
                    - getTime (Body.decisionDate (body req')))
                   / of_Z (1000 * 60 * 60 * 24)) / of_Z 30)%js)
          = Some row
       /\ tbl_lagged_outcomes (fst (serve POST_loa_track_outcome db rt req))
          = tbl_lagged_outcomes db ++ [row].
Proof.
  unfold serve. destruct (limited req); [ left; reflexivity | ].
  destruct (runChain (chain POST_loa_track_outcome) db rt req) as [reply | req'] eqn:Hchain;
    [ left; reflexivity | ].
  apply chain_passes in Hchain as (_ & _ & _ & _ & Hbody & _).
  cbn [handler]. unfold loa_track_outcome.
  destruct (insert_lagged_outcome _ _ _ _) as [row | ] eqn:Hrow; [ | left; reflexivity ].
  right. exists req', row. split_and!; [ exact Hbody | exact Hrow | reflexivity ].
Qed.

(** X9.  In every state the database reaches through the API, every row of
    [lagged_outcomes] has a [lag_days] of -1 or more and a [risk_score]
    between 0 and 10 that is its [lag_days] over 30, capped at 10 and
    rounded to one decimal.  (The lag is the handler's own reading of the
    two dates; it need not be the distance of the two stored dates.) *)
Theorem outcome_rows_are_consistent (db : Db) :
  reachable db ->
  Forall
    (fun row =>
       -1 <= lagged_outcomes.lag_days row
       /\ lagged_outcomes.risk_score row
          = sql_round 1
              (if 300 <=? lagged_outcomes.lag_days row then 10
               else inject_Z (lagged_outcomes.lag_days row) / 30)
       /\ (0 <= lagged_outcomes.risk_score row)%Q
       /\ (lagged_outcomes.risk_score row <= 10)%Q)
    (tbl_lagged_outcomes db).
Proof.
  intros Hdb. induction Hdb as [t | db e rt req Hdb IH]; [ constructor | ].
  assert (Hother : forall e', e' <> POST_loa_track_outcome ->
                     tbl_lagged_outcomes (fst (serve e' db rt req))
                     = tbl_lagged_outcomes db).
  { intros e' He'. unfold serve. destruct (limited req); [ reflexivity | ].
    destruct (runChain (chain e') db rt req) as [reply | req']; [ reflexivity | ].
    destruct e'; cbn [handler]; try congruence.
    - unfold rpl_track. destruct (insert_reasoning_frame _ _); reflexivity.
    - unfold qem_register. destruct (insert_question _ _); reflexivity.
    - unfold oli_update_load.
      destruct (upsert_observer_metrics _ _ _ _ _) as [[? ?] | ]; reflexivity.
    - unfold pds_track_usage. destruct (insert_usage_event _ _ _); reflexivity. }
  destruct e; try (rewrite Hother by discriminate; exact IH).
  destruct (serve_track_outcome_row db rt req) as [-> | (req' & row & _ & Hrow & ->)];
    [ exact IH | ].
  apply Forall_app. split; [ exact IH | ]. constructor; [ | constructor ].
  apply insert_lagged_outcome_Some in Hrow as (_ & H1 & H2 & H3 & H4). auto.
Qed.

Lemma outcome_rows_are_consistent_witness :
  reachable Scenario.db_late_benefit
  /\ Forall
       (fun row =>
          -1 <= lagged_outcomes.lag_days row
          /\ lagged_outcomes.risk_score row
             = sql_round 1
                 (if 300 <=? lagged_outcomes.lag_days row then 10
                  else inject_Z (lagged_outcomes.lag_days row) / 30)
          /\ (0 <= lagged_outcomes.risk_score row)%Q
          /\ (lagged_outcomes.risk_score row <= 10)%Q)
       (tbl_lagged_outcomes Scenario.db_late_benefit).
Proof.
  assert (H : reachable Scenario.db_late_benefit) by apply reachable_serve, reachable_schema.
  split; [ exact H | ].
  exact (outcome_rows_are_consistent Scenario.db_late_benefit H).
Defined.

(** The lag is not read off the stored dates.  A benefit dated 13 hours
    before the decision, the two texts carrying different UTC offsets, is
    stored with a lag of -1 day and a risk of 0, beside a benefit date that
    is one hour after the decision date. *)
Example lag_is_not_the_distance_of_the_stored_dates :
  List.map
    (fun row =>
       (lagged_outcomes.lag_days row, lagged_outcomes.risk_score row,
        lagged_outcomes.benefit_realized_date row - lagged_outcomes.decision_date row))
    (tbl_lagged_outcomes Scenario.db_offset_dates)
  = [(-1, 0%Q, 3600000000)].
Proof. vm_compute. reflexivity. Qed.

(** X10.  An outcome whose benefit date lies more than one day before its
    decision date is never stored: its risk score, [lagDays / 30], rounds
    to -0.1 or below in the [DECIMAL(3,1)] column, the range CHECK of the
    schema fails and the route answers an error. *)
Theorem benefit_before_decision_is_refused (db : Db) (rt : Runtime) (req : Request)
    (d b : Z) :
  getTime (Body.decisionDate (body req)) = of_Z d ->
  getTime (Body.benefitRealizedDate (body req)) = of_Z b ->
  b - d < - 86400000 ->
  fst (serve POST_loa_track_outcome db rt req) = db
  /\ 400 <= status (snd (serve POST_loa_track_outcome db rt req)).
Proof.
  intros Hd Hb Hlag. unfold serve.
  destruct (limited req); [ split; [ reflexivity | cbn; lia ] | ].
  destruct (runChain (chain POST_loa_track_outcome) db rt req) as [reply | req'] eqn:Hchain.
  - split; [ reflexivity | ]. eapply runChain_error; eassumption.
  - cbn [handler]. unfold loa_track_outcome.
    destruct (insert_lagged_outcome _ _ _ _) as [row | ] eqn:Hrow;
      [ exfalso | split; [ reflexivity | cbn; lia ] ].
    apply chain_passes in Hchain as (_ & _ & _ & _ & Hbody & _).
    apply insert_lagged_outcome_Some in Hrow as (Hdays & Hmin & _).
    rewrite Hbody in Hdays. rewrite (lag_in_days _ _ d b Hd Hb) in Hdays.
    injection Hdays as Hdays. rewrite <- Hdays in Hmin.
    assert ((b - d) / 86400000 < -1); [ | lia ].
    apply Z.div_lt_upper_bound; lia.
Qed.

Lemma benefit_before_decision_is_refused_witness :
  getTime (Body.decisionDate (body (Scenario.as_analyst "alice" Scenario.early_benefit)))
  = of_Z (10 * Scenario.day)
  /\ getTime
       (Body.benefitRealizedDate (body (Scenario.as_analyst "alice" Scenario.early_benefit)))
     = of_Z (8 * Scenario.day - 1)
  /\ 8 * Scenario.day - 1 - 10 * Scenario.day < - 86400000
  /\ fst (serve POST_loa_track_outcome (schema_db 0) (Scenario.rt_at 0 (of_Z 0))
            (Scenario.as_analyst "alice" Scenario.early_benefit)) = schema_db 0
  /\ 400 <= status
              (snd (serve POST_loa_track_outcome (schema_db 0) (Scenario.rt_at 0 (of_Z 0))
                      (Scenario.as_analyst "alice" Scenario.early_benefit))).
Proof.
  assert (H1 : getTime
                 (Body.decisionDate (body (Scenario.as_analyst "alice" Scenario.early_benefit)))
               = of_Z (10 * Scenario.day)) by reflexivity.
  assert (H2 : getTime
                 (Body.benefitRealizedDate
                    (body (Scenario.as_analyst "alice" Scenario.early_benefit)))
               = of_Z (8 * Scenario.day - 1)) by reflexivity.
  assert (H3 : 8 * Scenario.day - 1 - 10 * Scenario.day < - 86400000)
    by (vm_compute; reflexivity).
  split; [ exact H1 | split; [ exact H2 | split; [ exact H3 | ] ] ].
  exact (benefit_before_decision_is_refused (schema_db 0) (Scenario.rt_at 0 (of_Z 0))
           (Scenario.as_analyst "alice" Scenario.early_benefit) _ _ H1 H2 H3).
Defined.

End OutcomeRows.

(** * What a successful write stores *)

Section RoundTrips.
Import JS Api.




(** The submitted 0.946 is stored as 0.95, that is 19/20. *)
Example rounded_weight_is_stored :
  List.map reasoning_frames.confidence_weight (tbl_reasoning_frames Scenario.db_rounded)
  = [(19 # 20)%Q].
Proof. vm_compute. reflexivity. Qed.

End RoundTrips.

(** * What the routes never do *)

Section NeverDone.
Import JS Api.

(** X12.  The routes only append.  Serving a request leaves every stored
    row in place: each insert-only table keeps its rows in order and gains
    at most one row at its end, and only from its own route; no observer row
    disappears, and only the update-load route touches the observer rows;
    [system_purposes] is left as it is. *)
Theorem routes_only_append (e : Endpoint) (db : Db) (rt : Runtime) (req : Request) :
  (exists rows,
      tbl_reasoning_frames (fst (serve e db rt req)) = tbl_reasoning_frames db ++ rows
      /\ (List.length rows <= 1)%nat /\ (e <> POST_rpl_track -> rows = []))
  /\ (exists rows,
         tbl_questions (fst (serve e db rt req)) = tbl_questions db ++ rows
         /\ (List.length rows <= 1)%nat /\ (e <> POST_qem_register -> rows = []))
  /\ (exists rows,
         tbl_lagged_outcomes (fst (serve e db rt req)) = tbl_lagged_outcomes db ++ rows
         /\ (List.length rows <= 1)%nat /\ (e <> POST_loa_track_outcome -> rows = []))
  /\ (exists rows,
         tbl_usage_events (fst (serve e db rt req)) = tbl_usage_events db ++ rows
         /\ (List.length rows <= 1)%nat /\ (e <> POST_pds_track_usage -> rows = []))
  /\ tbl_system_purposes (fst (serve e db rt req)) = tbl_system_purposes db
  /\ (forall k,
         is_Some (tbl_observer_metrics db !! k) ->
         is_Some (tbl_observer_metrics (fst (serve e db rt req)) !! k))
  /\ (e <> POST_oli_update_load ->
      tbl_observer_metrics (fst (serve e db rt req)) = tbl_observer_metrics db).
Proof.
  assert (Hsame : forall (A : Type) (l : list A) (P : Prop),
             exists rows, l = l ++ rows /\ (List.length rows <= 1)%nat /\ (P -> rows = [])).
  { intros A l P. exists []. rewrite app_nil_r. cbn. auto. }
  assert (Hone : forall (A : Type) (l : list A) (a : A) (e' : Endpoint),
             exists rows,
               l ++ [a] = l ++ rows /\ (List.length rows <= 1)%nat
               /\ (e' <> e' -> rows = [])).
  { intros A l a e'. exists [a]. cbn. split_and!; [ reflexivity | lia | congruence ]. }
  unfold serve. destruct (limited req); [ cbn [fst]; split_and!; auto | ].
  destruct (runChain (chain e) db rt req) as [reply | req'];
    [ cbn [fst]; split_and!; auto | ].
  destruct e; cbn [handler].
  - unfold rpl_track. destruct (insert_reasoning_frame rt req');
      cbn [fst tbl_reasoning_frames tbl_questions tbl_lagged_outcomes tbl_usage_events
           tbl_system_purposes tbl_observer_metrics];
      split_and!; auto.
  - unfold qem_register. destruct (insert_question rt req');
      cbn [fst tbl_reasoning_frames tbl_questions tbl_lagged_outcomes tbl_usage_events
           tbl_system_purposes tbl_observer_metrics];
      split_and!; auto.
  - unfold loa_track_outcome. destruct (insert_lagged_outcome _ _ _ _);
      cbn [fst tbl_reasoning_frames tbl_questions tbl_lagged_outcomes tbl_usage_events
           tbl_system_purposes tbl_observer_metrics];
      split_and!; auto.
  - unfold oli_update_load.
    destruct (upsert_observer_metrics _ _ _ _ _) as [[observer_id row] | ];
      cbn [fst tbl_reasoning_frames tbl_questions tbl_lagged_outcomes tbl_usage_events
           tbl_system_purposes tbl_observer_metrics];
      split_and!; auto; try congruence.
    intros k Hk. destruct (decide (observer_id = k)) as [-> | Hne].
    + rewrite lookup_insert_eq. eauto.
    + rewrite lookup_insert_ne by assumption. exact Hk.
  - unfold pds_track_usage. destruct (insert_usage_event db rt req');
      cbn [fst tbl_reasoning_frames tbl_questions tbl_lagged_outcomes tbl_usage_events
           tbl_system_purposes tbl_observer_metrics];
      split_and!; auto.
Qed.

Lemma gate_refuses_simulated db rt req :
  (forall u, user req = Some u -> User.role u <> "admin"%string) ->
  Body.dataScope (body req) = Some "simulated"%string ->
  exists reply, epistemicHygieneMiddleware db rt req = inl reply.
Proof.
  intros Hrole Hscope. unfold epistemicHygieneMiddleware.
  destruct (falsy _ || falsy _) eqn:Hfalsy; [ eauto | ].
  assert (Hadmin : String.eqb (default ""%string (option_map User.role (user req))) "admin"
                   = false).
  { destruct (user req) as [u | ]; [ | reflexivity ].
    apply String.eqb_neq, Hrole. reflexivity. }
  rewrite Hscope, Hadmin.
  change (String.eqb "simulated" "simulated") with true. cbn [negb andb].
  destruct (tbl_observer_metrics db !! _) as [row | ].
  - destruct (match observer_metrics.cooldown_until row with
              | Some t => now rt <? t
              | None => false
              end); [ eauto | ].
    destruct (_ >=? _)%js; [ eauto | ].
    destruct (Body.confidenceWeight (body req)) as [c | ];
      [ destruct (_ >? MAX_CONFIDENCE_WEIGHT)%js | ]; eauto.
  - destruct (Body.confidenceWeight (body req)) as [c | ];
      [ destruct (_ >? MAX_CONFIDENCE_WEIGHT)%js | ]; eauto.
Qed.

(** X13.  At the tracking route, a frame whose data scope is simulated is
    stored only for an admin: with the token of any other role the request
    is answered with an error status and nothing is written. *)
Theorem simulated_frames_need_an_admin (db : Db) (rt : Runtime) (req : Request)
    (decoded : Decoded.t) :
  authorization req = valid_token decoded ->
  Decoded.role decoded <> "admin"%string ->
  Body.dataScope (body req) = Some "simulated"%string ->
  fst (serve POST_rpl_track db rt req) = db
  /\ 400 <= status (snd (serve POST_rpl_track db rt req)).
Proof.
  intros Hauth Hrole Hscope. unfold serve.
  destruct (limited req); [ split; [ reflexivity | cbn; lia ] | ].
  cbn [chain route registered runChain runMiddleware].
  destruct (authMiddleware _ req) as [reply | req1] eqn:H1.
  - split; [ reflexivity | ]. eapply authMiddleware_error; eassumption.
  - assert (Hreq1 : body req1 = body req /\ user req1
                    = Some (User.mk (Decoded.id decoded) (Decoded.role decoded))).
    { revert H1. unfold authMiddleware. rewrite Hauth.
      destruct (negb _); [ discriminate | ]. intros [= <-]. split; reflexivity. }
    destruct Hreq1 as [Hbody Huser].
    destruct (gate_refuses_simulated db rt req1) as [reply Hreply].
    + intros u Hu. rewrite Huser in Hu. injection Hu as <-. exact Hrole.
    + rewrite Hbody. exact Hscope.
    + rewrite Hreply. split; [ reflexivity | ]. eapply gate_error; eassumption.
Qed.

Lemma simulated_frames_need_an_admin_witness :
  authorization (Scenario.as_analyst "bob" Scenario.simulated_frame)
  = valid_token (Decoded.mk "bob" "analyst")
  /\ Decoded.role (Decoded.mk "bob" "analyst") <> "admin"%string
  /\ Body.dataScope (body (Scenario.as_analyst "bob" Scenario.simulated_frame))
     = Some "simulated"%string
  /\ fst (serve POST_rpl_track (schema_db 0) (Scenario.rt_at 5 (of_Z 0))
            (Scenario.as_analyst "bob" Scenario.simulated_frame)) = schema_db 0
  /\ 400 <= status
              (snd (serve POST_rpl_track (schema_db 0) (Scenario.rt_at 5 (of_Z 0))
                      (Scenario.as_analyst "bob" Scenario.simulated_frame))).
Proof.
  assert (H1 : authorization (Scenario.as_analyst "bob" Scenario.simulated_frame)
               = valid_token (Decoded.mk "bob" "analyst")) by reflexivity.
  assert (H2 : Decoded.role (Decoded.mk "bob" "analyst") <> "admin"%string)
    by discriminate.
  assert (H3 : Body.dataScope (body (Scenario.as_analyst "bob" Scenario.simulated_frame))
               = Some "simulated"%string) by reflexivity.
  split; [ exact H1 | split; [ exact H2 | split; [ exact H3 | ] ] ].
  exact (simulated_frames_need_an_admin (schema_db 0) (Scenario.rt_at 5 (of_Z 0))
           (Scenario.as_analyst "bob" Scenario.simulated_frame) _ H1 H2 H3).
Defined.

End NeverDone.

(** * More on maps and numbers *)

Section MoreMapFacts.
Context {V : Type}.

Lemma JsMap_get_set_ne (m : list (string * V)) (k k' : string) (v : V) :
  k <> k' -> JsMap.get (JsMap.set m k v) k' = JsMap.get m k'.
Proof.
  intros Hne. induction m as [ | [k0 v0] m IH]; cbn.
  - apply String.eqb_neq in Hne. rewrite Hne. reflexivity.
  - destruct (String.eqb k0 k) eqn:E; cbn.
    + apply String.eqb_eq in E as ->. apply String.eqb_neq in Hne. rewrite Hne. reflexivity.
    + destruct (String.eqb k0 k'); [ reflexivity | exact IH ].
Qed.

Lemma JsMap_get_In (m : list (string * V)) (k : string) (v : V) :
  JsMap.get m k = Some v -> In (k, v) m.
Proof.
  induction m as [ | [k0 v0] m IH]; cbn; [ discriminate | ].
  destruct (String.eqb k0 k) eqn:E.
  - apply String.eqb_eq in E as ->. intros [= <-]. left. reflexivity.
  - intros H. right. apply IH. exact H.
Qed.

(** Every entry of a map after [set] is an entry of the map before or the
    new one. *)
Lemma JsMap_set_In (m : list (string * V)) (k : string) (v : V) (e : string * V) :
  In e (JsMap.set m k v) -> In e m \/ e = (k, v).
Proof.
  induction m as [ | [k0 v0] m IH]; cbn.
  - intros [<- | []]. right. reflexivity.
  - destruct (String.eqb k0 k) eqn:E; cbn.
    + apply String.eqb_eq in E as ->. intros [<- | H]; auto.
    + intros [<- | H]; [ auto | ]. destruct (IH H); auto.
Qed.

End MoreMapFacts.

Section MoreNumberFacts.
Import JS.

Lemma gtb_Fin (a b : Q) : (Fin a >? Fin b)%js = true <-> (b < a)%Q.
Proof.
  unfold gtb, ltb. rewrite negb_true_iff. split.
  - intros H. apply Qnot_le_lt. intros Hle. apply Qle_bool_iff in Hle. congruence.
  - intros H. destruct (Qle_bool a b) eqn:E; [ | reflexivity ].
    apply Qle_bool_iff in E. exfalso. apply (Qlt_irrefl b).
    eapply Qlt_le_trans; eassumption.
Qed.

Lemma gtb_Fin_false (a b : Q) : (Fin a >? Fin b)%js = false <-> (a <= b)%Q.
Proof.
  unfold gtb, ltb. rewrite negb_false_iff. apply Qle_bool_iff.
Qed.

Lemma div_Fin_pos (a b : Q) : (0 < b)%Q -> (Fin a / Fin b)%js = num (a / b).
Proof.
  intros Hb. unfold div. destruct (Qeq_bool b 0) eqn:E; [ | reflexivity ].
  apply Qeq_bool_iff in E. rewrite E in Hb. exfalso. exact (Qlt_irrefl 0 Hb).
Qed.

Lemma of_nat_pos (n : nat) : (0 < n)%nat -> (0 < inject_Z (Z.of_nat n))%Q.
Proof. intros H. change 0%Q with (inject_Z 0). rewrite <- Zlt_Qlt. lia. Qed.

Lemma of_nat_nonneg (n : nat) : (0 <= inject_Z (Z.of_nat n))%Q.
Proof. change 0%Q with (inject_Z 0). rewrite <- Zle_Qle. lia. Qed.

End MoreNumberFacts.

(** * QEM: when an alert fires *)

Section QemAlerts.
Import JS QEM.

(** The gap score is a finite number, at most 100. *)
Lemma gapScore_at_most_100 st rt domain :
  exists g,
    EntropyMetrics.gapScore (calculateEntropy st rt domain) = Fin g /\ (g <= 100)%Q.
Proof.
  unfold calculateEntropy.
  destruct (List.length _ <? 20)%nat; cbn [EntropyMetrics.gapScore].
  { exists 0%Q. split; [ reflexivity | discriminate ]. }
  set (nh := List.length (List.filter _ _)).
  set (nc := List.length (List.filter _ _)).
  unfold of_nat, of_Z.
  rewrite (div_Fin_pos _ (inject_Z 12)) by reflexivity.
  rewrite (div_Fin_pos _ (inject_Z 4)) by reflexivity.
  unfold num.
  destruct (Fin (Qred (inject_Z (Z.of_nat nh) / inject_Z 12)) >? Fin (inject_Z 0))%js eqn:Hpos.
  - apply gtb_Fin in Hpos.
    unfold sub, neg, add, num. rewrite div_Fin_pos by exact Hpos.
    unfold mul, num. eexists. split; [ reflexivity | ].
    rewrite !Qred_correct in *.
    pose proof (of_nat_nonneg nc) as Hc.
    set (h := (inject_Z (Z.of_nat nh) / inject_Z 12)%Q) in *.
    set (c := (inject_Z (Z.of_nat nc) / inject_Z 4)%Q).
    assert (Hc' : (0 <= c)%Q).
    { subst c. apply Qle_shift_div_l; [ reflexivity | ]. rewrite Qmult_0_l. exact Hc. }
    assert (Hfrac : ((h + - c) / h <= 1)%Q).
    { apply Qle_shift_div_r; [ exact Hpos | ]. lra. }
    change (inject_Z 100) with 100%Q. lra.
  - exists 0%Q. split; [ reflexivity | discriminate ].
Qed.

Lemma calculateEntropy_short st rt domain :
  (List.length (default [] (JsMap.get (questionRegistry st) domain)) < 20)%nat ->
  EntropyMetrics.gapScore (calculateEntropy st rt domain) = of_Z 0.
Proof.
  intros H. unfold calculateEntropy. apply Nat.ltb_lt in H. rewrite H. reflexivity.
Qed.

(** X14.  [registerQuestion] appends the question, with a fresh id and the
    time of the call when it carries no date, to the list of its domain and
    leaves the other domains alone.  It raises at most one alert, and only
    when the list of the domain has just reached a multiple of ten, at
    least 20, and its gap score is above 50; that alert carries the domain
    and this gap score. *)
Theorem registerQuestion_appends_and_checks (st : State) (rt : Runtime)
    (question : QuestionInput.t) :
  let domain := QuestionInput.domain question in
  let before := default [] (JsMap.get (questionRegistry st) domain) in
  (exists asked,
      JsMap.get (questionRegistry (registerQuestion st rt question)) domain
      = Some (before ++ [asked])
      /\ Question.id asked = randomUUID rt 0
      /\ Question.questionText asked = QuestionInput.questionText question
      /\ Question.askedAt asked = default (now rt) (QuestionInput.askedAt question))
  /\ (forall other,
         other <> domain ->
         JsMap.get (questionRegistry (registerQuestion st rt question)) other
         = JsMap.get (questionRegistry st) other)
  /\ (entropyAlerts (registerQuestion st rt question) = entropyAlerts st
      \/ exists alert,
           entropyAlerts (registerQuestion st rt question) = entropyAlerts st ++ [alert]
           /\ EntropyAlert.domain alert = domain
           /\ (EntropyAlert.gapScore alert >? of_Z 50)%js = true
           /\ EntropyAlert.gapScore alert
              = EntropyMetrics.gapScore
                  (calculateEntropy (registerQuestion st rt question) rt domain)
           /\ (S (List.length before) mod 10 = 0)%nat
           /\ (20 <= S (List.length before))%nat).
Proof.
  intros domain before. unfold registerQuestion. fold domain. fold before.
  set (asked := Question.mk _ _ _ _ _ _ _ _ _).
  set (st1 := Build_State _ _ _).
  assert (Hlen : List.length (before ++ [asked]) = S (List.length before)).
  { rewrite length_app. cbn. lia. }
  assert (Hreg : forall st2, questionRegistry st2 = questionRegistry st1 ->
             (exists asked0,
                 JsMap.get (questionRegistry st2) domain = Some (before ++ [asked0])
                 /\ Question.id asked0 = randomUUID rt 0
                 /\ Question.questionText asked0 = QuestionInput.questionText question
                 /\ Question.askedAt asked0
                    = default (now rt) (QuestionInput.askedAt question))
             /\ (forall other,
                    other <> domain ->
                    JsMap.get (questionRegistry st2) other
                    = JsMap.get (questionRegistry st) other)).
  { intros st2 ->. subst st1. cbn [questionRegistry]. split.
    - exists asked. rewrite JsMap_get_set_eq. split_and!; reflexivity.
    - intros other Hother. apply JsMap_get_set_ne. congruence. }
  rewrite Hlen.
  destruct (S (List.length before) mod 10 =? 0)%nat eqn:Hten.
  - unfold checkEntropy.
    destruct (_ >? of_Z 50)%js eqn:Hgap.
    + unfold triggerEntropyAlert.
      destruct (Hreg (Build_State (questionRegistry st1)
                        (entropyAlerts st1 ++ [EntropyAlert.mk (randomUUID rt 1) domain
                           (EntropyMetrics.gapScore (calculateEntropy st1 rt domain))
                           (of_Z 50) (now rt) (generateMissingQuestions domain)
                           (if (EntropyMetrics.gapScore (calculateEntropy st1 rt domain)
                                >? of_Z 75)%js then HIGH
                            else if (EntropyMetrics.gapScore (calculateEntropy st1 rt domain)
                                     >? of_Z 60)%js then MEDIUM else LOW)])
                        (JsMap.set (suppressedQuestions st1) domain
                           (generateMissingQuestions domain))) eq_refl) as [H1 H2].
      split; [ exact H1 | split; [ exact H2 | ] ].
      right. eexists. cbn [entropyAlerts]. split_and!; try reflexivity.
      * exact Hgap.
      * apply Nat.eqb_eq. exact Hten.
      * destruct (Nat.lt_ge_cases (S (List.length before)) 20) as [Hshort | Hok];
          [ exfalso | exact Hok ].
        rewrite calculateEntropy_short in Hgap; [ discriminate | ].
        subst st1. cbn [questionRegistry]. rewrite JsMap_get_set_eq. cbn.
        rewrite Hlen. exact Hshort.
    + destruct (Hreg st1 eq_refl) as [H1 H2].
      split; [ exact H1 | split; [ exact H2 | left; reflexivity ] ].
  - destruct (Hreg st1 eq_refl) as [H1 H2].
    split; [ exact H1 | split; [ exact H2 | left; reflexivity ] ].
Qed.

End QemAlerts.

Section QemInvariants.
Import JS QEM.

Lemma registerQuestion_alerts st rt question :
  entropyAlerts (registerQuestion st rt question) = entropyAlerts st
  \/ exists alert,
       entropyAlerts (registerQuestion st rt question) = entropyAlerts st ++ [alert]
       /\ graded alert.
Proof.
  unfold registerQuestion.
  set (st1 := Build_State _ _ _).
  destruct (_ mod 10 =? 0)%nat; [ | left; reflexivity ].
  unfold checkEntropy.
  destruct (gapScore_at_most_100 st1 rt (QuestionInput.domain question)) as (g & Hg & Hle).
  rewrite Hg.
  destruct (Fin g >? of_Z 50)%js eqn:Hgap; [ | left; reflexivity ].
  right. unfold triggerEntropyAlert. rewrite Hg. eexists. split; [ reflexivity | ].
  exists g. cbn [EntropyAlert.gapScore EntropyAlert.threshold EntropyAlert.riskLevel].
  apply gtb_Fin in Hgap. change (inject_Z 50) with 50%Q in Hgap.
  split_and!; try reflexivity; try assumption.
  - intros H. apply (gtb_Fin g (inject_Z 75)) in H. unfold of_Z. rewrite H. reflexivity.
  - intros H1 H2.
    apply (gtb_Fin g (inject_Z 60)) in H1. apply (gtb_Fin_false g (inject_Z 75)) in H2.
    unfold of_Z. rewrite H1, H2. reflexivity.
  - intros H.
    assert (H' : (g <= inject_Z 75)%Q) by (change (inject_Z 75) with 75%Q; lra).
    apply (gtb_Fin_false g (inject_Z 60)) in H. apply (gtb_Fin_false g (inject_Z 75)) in H'.
    unfold of_Z. rewrite H, H'. reflexivity.
Qed.

(** X15.  In every state of the monitor, every alert carries a finite gap
    score above 50 and at most 100 and the threshold 50, and its level is
    HIGH when the gap is above 75, MEDIUM when it is above 60 and at most
    75, and LOW otherwise. *)
Theorem entropy_alerts_are_graded (st : State) :
  reachable st -> Forall graded (entropyAlerts st).
Proof.
  induction 1 as [ | st rt question _ IH]; [ constructor | ].
  destruct (registerQuestion_alerts st rt question) as [-> | (alert & -> & Halert)];
    [ exact IH | ].
  apply Forall_app. split; [ exact IH | ]. constructor; [ exact Halert | constructor ].
Qed.

Lemma register_all_reachable st t0 qs :
  reachable st -> reachable (Scenario.register_all st t0 qs).
Proof.
  unfold Scenario.register_all. revert st t0.
  induction qs as [ | q qs IH]; intros st t0 Hst; cbn [List.fold_left fst snd].
  - exact Hst.
  - apply IH. apply reachable_register. exact Hst.
Qed.

Lemma entropy_alerts_are_graded_witness :
  reachable Scenario.st_140 /\ Forall graded (entropyAlerts Scenario.st_140).
Proof.
  assert (H : reachable Scenario.st_140)
    by apply reachable_register, register_all_reachable, reachable_initial.
  split; [ exact H | ].
  exact (entropy_alerts_are_graded Scenario.st_140 H).
Defined.

(** The sum of the gap scores over the domains is a finite number. *)
Lemma total_gap_is_finite st rt domains acc n :
  exists total,
    List.fold_left
      (fun acc domain =>
         ((fst acc + EntropyMetrics.gapScore (calculateEntropy st rt domain))%js,
          S (snd acc)))
      domains (Fin acc, n)
    = (Fin total, (n + List.length domains)%nat).
Proof.
  revert acc n. induction domains as [ | d ds IH]; intros acc n; cbn [List.fold_left].
  - exists acc. cbn. rewrite Nat.add_0_r. reflexivity.
  - destruct (gapScore_at_most_100 st rt d) as (g & -> & _). cbn [fst snd add]. unfold num.
    destruct (IH (Qred (acc + g)) (S n)) as (total & ->).
    exists total. cbn [List.length]. f_equal. lia.
Qed.

(** X16.  Whatever the state and the clock, the resilience score of the
    monitor is a whole number that is not negative (and never [NaN]): the
    score is bounded below, although not above. *)
Theorem qem_resilience_is_a_natural_number (st : State) (rt : Runtime) :
  exists z, 0 <= z /\ calculateResilience st rt = of_Z z.
Proof.
  unfold calculateResilience.
  destruct (total_gap_is_finite st rt (JsMap.keys (questionRegistry st)) 0 0)
    as (total & Htotal).
  change (of_Z 0, 0%nat) with (Fin 0, 0%nat). rewrite Htotal. cbn [Nat.add].
  destruct (List.length (JsMap.keys (questionRegistry st))) as [ | n] eqn:Hn.
  - exists 100. split; [ lia | reflexivity ].
  - cbn [Nat.eqb]. unfold of_nat, of_Z.
    rewrite div_Fin_pos by (apply of_nat_pos; lia).
    unfold sub, neg, add, num, Math.round, of_Z, Math.max, ltb.
    set (r := Qfloor _).
    destruct (negb (Qle_bool (inject_Z r) (inject_Z 0))) eqn:E.
    + exists r. split; [ | reflexivity ].
      apply negb_true_iff in E.
      destruct (Z_le_gt_dec r 0) as [Hle | Hgt]; [ | lia ].
      rewrite Zle_Qle in Hle. apply Qle_bool_iff in Hle. congruence.
    + exists 0. split; [ lia | reflexivity ].
Qed.

End QemInvariants.

(** * LOA: how much risk a beneficiary can accumulate *)

Section LoaScores.
Import JS LOA.

Lemma Qred_inject_Z (z : Z) : Qred (inject_Z z) = inject_Z z.
Proof.
  unfold Qred, inject_Z.
  pose proof (Z.ggcd_gcd z 1) as Hg. pose proof (Z.ggcd_correct_divisors z 1) as Hd.
  destruct (Z.ggcd z 1) as [g [aa bb]]. cbn [fst] in Hg. rewrite Z.gcd_1_r in Hg. subst g.
  destruct Hd as [Ha Hb]. rewrite Z.mul_1_l in Ha, Hb. subst aa bb. reflexivity.
Qed.

Lemma of_Z_add (a b : Z) : (of_Z a + of_Z b)%js = of_Z (a + b).
Proof.
  unfold of_Z, add, num. f_equal.
  rewrite <- (Qred_inject_Z (a + b)). apply Qred_complete.
  rewrite inject_Z_plus. reflexivity.
Qed.

Lemma gtb_of_Z (a b : Z) : (of_Z a >? of_Z b)%js = (b <? a).
Proof.
  unfold of_Z. destruct (b <? a) eqn:E.
  - apply gtb_Fin. rewrite <- Zlt_Qlt. apply Z.ltb_lt. exact E.
  - apply gtb_Fin_false. rewrite <- Zle_Qle. apply Z.ltb_ge. exact E.
Qed.

Lemma min_10_of_Z (z : Z) : Math.min (of_Z 10) (of_Z z) = of_Z (Z.min 10 z).
Proof.
  unfold Math.min, of_Z. fold (of_Z z). fold (of_Z 10).
  change (ltb (of_Z z) (of_Z 10)) with (of_Z 10 >? of_Z z)%js.
  rewrite gtb_of_Z. destruct (z <? 10) eqn:E.
  - apply Z.ltb_lt in E. rewrite Z.min_r by lia. reflexivity.
  - apply Z.ltb_ge in E. rewrite Z.min_l by lia. reflexivity.
Qed.

(** The points for the lag, for the frequency and for the consistency. *)
Lemma lag_points (lagDays : number) (score : Z) :
  exists l,
    0 <= l <= 4
    /\ (if (lagDays >? of_Z 180)%js then (of_Z score + of_Z 4)%js
        else if (lagDays >? of_Z 90)%js then (of_Z score + of_Z 3)%js
        else if (lagDays >? of_Z 30)%js then (of_Z score + of_Z 2)%js
        else if (lagDays >? of_Z 7)%js then (of_Z score + of_Z 1)%js
        else of_Z score) = of_Z (score + l).
Proof.
  repeat match goal with
         | |- context [if ?c then _ else _] => destruct c
         end;
    [ exists 4 | exists 3 | exists 2 | exists 1 | exists 0 ];
    rewrite ?of_Z_add, ?Z.add_0_r; (split; [ lia | reflexivity ]).
Qed.

Lemma frequency_points (k : nat) (score : Z) :
  exists f,
    0 <= f
    /\ f = (if (k <? 3)%nat then 0 else if (k <? 6)%nat then 1
            else if (k <? 11)%nat then 2 else 3)
    /\ (if (of_nat k >? of_Z 10)%js then (of_Z score + of_Z 3)%js
        else if (of_nat k >? of_Z 5)%js then (of_Z score + of_Z 2)%js
        else if (of_nat k >? of_Z 2)%js then (of_Z score + of_Z 1)%js
        else of_Z score) = of_Z (score + f).
Proof.
  unfold of_nat. rewrite !gtb_of_Z.
  destruct (10 <? Z.of_nat k) eqn:E10; [ | destruct (5 <? Z.of_nat k) eqn:E5;
    [ | destruct (2 <? Z.of_nat k) eqn:E2 ] ];
    repeat match goal with
           | E : (_ <? _) = true |- _ => apply Z.ltb_lt in E
           | E : (_ <? _) = false |- _ => apply Z.ltb_ge in E
           end.
  - exists 3. rewrite of_Z_add. split_and!; [ lia | | reflexivity ].
    nat_cases; lia.
  - exists 2. rewrite of_Z_add. split_and!; [ lia | | reflexivity ].
    nat_cases; lia.
  - exists 1. rewrite of_Z_add. split_and!; [ lia | | reflexivity ].
    nat_cases; lia.
  - exists 0. rewrite Z.add_0_r. split_and!; [ lia | | reflexivity ].
    nat_cases; lia.
Qed.

Lemma consistency_points (consistency : number) (score : Z) :
  exists c,
    0 <= c <= 3
    /\ (if (consistency >? num 0.8)%js then (of_Z score + of_Z 3)%js
        else if (consistency >? num 0.6)%js then (of_Z score + of_Z 2)%js
        else if (consistency >? num 0.4)%js then (of_Z score + of_Z 1)%js
        else of_Z score) = of_Z (score + c).
Proof.
  repeat match goal with
         | |- context [if ?c then _ else _] => destruct c
         end;
    [ exists 3 | exists 2 | exists 1 | exists 0 ];
    rewrite ?of_Z_add, ?Z.add_0_r; (split; [ lia | reflexivity ]).
Qed.

Lemma calculateConsistency_few st beneficiary :
  (List.length (outcomesOf st beneficiary) < 2)%nat ->
  calculateConsistency st beneficiary = of_Z 0.
Proof.
  intros H. unfold calculateConsistency. apply Nat.ltb_lt in H. rewrite H. reflexivity.
Qed.

(** The score of an outcome, given the occurrences the pattern counts and
    a bound on the stored outcomes of the beneficiary. *)
Lemma calculateRiskScore_bound st lagDays beneficiary (k : nat) :
  match JsMap.get (beneficiaryPatterns st) beneficiary with
  | Some p => BeneficiaryPattern.occurrences p = of_nat k
  | None => k = 0%nat
  end ->
  (List.length (outcomesOf st beneficiary) <= k)%nat ->
  exists z,
    calculateRiskScore st lagDays beneficiary = of_Z z /\ 0 <= z <= max_score k.
Proof.
  intros Hk Hlen. unfold calculateRiskScore.
  destruct (lag_points lagDays 0) as (l & Hl & ->). rewrite Z.add_0_l.
  destruct (JsMap.get (beneficiaryPatterns st) beneficiary) as [p | ].
  - rewrite Hk.
    destruct (frequency_points k l) as (f & Hf0 & Hf & ->).
    assert (Hcons : exists c,
               0 <= c <= 3 /\ ((k < 2)%nat -> c = 0)
               /\ (if (BeneficiaryPattern.avgLagDays p >? of_Z 60)%js
                   then
                     if (calculateConsistency st beneficiary >? num 0.8)%js
                     then (of_Z (l + f) + of_Z 3)%js
                     else if (calculateConsistency st beneficiary >? num 0.6)%js
                          then (of_Z (l + f) + of_Z 2)%js
                          else if (calculateConsistency st beneficiary >? num 0.4)%js
                               then (of_Z (l + f) + of_Z 1)%js
                               else of_Z (l + f)
                   else of_Z (l + f)) = of_Z (l + f + c)).
    { destruct (BeneficiaryPattern.avgLagDays p >? of_Z 60)%js.
      - destruct (Nat.lt_ge_cases k 2) as [Hfew | Hmany].
        + rewrite calculateConsistency_few by lia.
          exists 0. rewrite Z.add_0_r. split; [ lia | split; reflexivity ].
        + destruct (consistency_points (calculateConsistency st beneficiary) (l + f))
            as (c & Hc & ->).
          exists c. split; [ lia | split; [ lia | reflexivity ] ].
      - exists 0. rewrite Z.add_0_r. split; [ lia | split; reflexivity ]. }
    destruct Hcons as (c & Hc & Hfew & ->).
    rewrite min_10_of_Z. eexists. split; [ reflexivity | ].
    unfold max_score. rewrite Hf.
    nat_cases; try lia.
    all: specialize (Hfew ltac:(lia)); lia.
  - subst k. rewrite min_10_of_Z. eexists. split; [ reflexivity | ].
    unfold max_score. cbn. lia.
Qed.

End LoaScores.

Section MoreMapFacts2.
Context {V : Type}.

(** [set] adds at most one value, the new one. *)
Lemma JsMap_set_filter_length (P : V -> bool) (m : list (string * V)) (k : string) (v : V) :
  (List.length (List.filter P (JsMap.values (JsMap.set m k v)))
   <= List.length (List.filter P (JsMap.values m)) + (if P v then 1 else 0))%nat.
Proof.
  unfold JsMap.values.
  induction m as [ | [k0 v0] m IH]; cbn.
  - destruct (P v); cbn; lia.
  - destruct (String.eqb k0 k); cbn.
    + destruct (P v), (P v0); cbn; lia.
    + destruct (P v0); cbn; lia.
Qed.

Lemma JsMap_set_keys_NoDup (m : list (string * V)) (k : string) (v : V) :
  List.NoDup (JsMap.keys m) -> List.NoDup (JsMap.keys (JsMap.set m k v)).
Proof.
  unfold JsMap.keys.
  induction m as [ | [k0 v0] m IH]; cbn; intros Hm.
  - apply List.NoDup_cons_iff. split; [ intros [] | constructor ].
  - apply List.NoDup_cons_iff in Hm as [Hk0 Hm].
    destruct (String.eqb k0 k) eqn:E; cbn.
    + apply List.NoDup_cons_iff. auto.
    + apply List.NoDup_cons_iff. split; [ | apply IH; exact Hm ].
      intros Hin. apply Hk0.
      apply in_map_iff in Hin as ([k1 v1] & <- & Hin).
      apply JsMap_set_In in Hin as [Hin | [= -> ->]].
      * apply in_map_iff. exists (k1, v1). auto.
      * cbn in E. rewrite String.eqb_refl in E. discriminate E.
Qed.

Lemma JsMap_In_get (m : list (string * V)) (k : string) (v : V) :
  List.NoDup (JsMap.keys m) -> In (k, v) m -> JsMap.get m k = Some v.
Proof.
  unfold JsMap.keys.
  induction m as [ | [k0 v0] m IH]; cbn; intros Hm Hin; [ contradiction | ].
  apply List.NoDup_cons_iff in Hm as [Hk0 Hm].
  destruct Hin as [[= -> ->] | Hin].
  - rewrite String.eqb_refl. reflexivity.
  - destruct (String.eqb k0 k) eqn:E; [ | apply IH; assumption ].
    apply String.eqb_eq in E as ->. exfalso. apply Hk0.
    apply in_map_iff. exists (k, v). auto.
Qed.

End MoreMapFacts2.

Section LoaAccounting.
Import JS LOA.

Lemma checkLagPatterns_frame st rt k :
  outcomes (checkLagPatterns st rt k) = outcomes st
  /\ beneficiaryPatterns (checkLagPatterns st rt k) = beneficiaryPatterns st
  /\ exists new, lagAlerts (checkLagPatterns st rt k) = lagAlerts st ++ new.
Proof.
  unfold checkLagPatterns.
  destruct (check_loop rt (List.filter isHighRisk (JsMap.values (beneficiaryPatterns st)))
              (st, k)) as (Ho & Hp & Hn & _).
  auto.
Qed.

Lemma cumulated_small (k : nat) : (k < 8)%nat -> cumulated k <= 7 * Z.of_nat k.
Proof.
  intros Hk.
  do 8 (destruct k as [ | k]; [ vm_compute; discriminate | ]). lia.
Qed.

Lemma isHighRisk_total (p : BeneficiaryPattern.t) (k : nat) (s : Z) :
  (1 <= k)%nat ->
  BeneficiaryPattern.occurrences p = of_nat k ->
  BeneficiaryPattern.totalRiskScore p = of_Z s ->
  isHighRisk p = true -> 7 * Z.of_nat k < s.
Proof.
  intros Hk Hocc Htotal. unfold isHighRisk. rewrite Hocc, Htotal.
  unfold of_nat, of_Z. rewrite div_Fin_pos by (apply of_nat_pos; lia).
  unfold num. intros H. apply gtb_Fin in H. rewrite Qred_correct in H.
  destruct (Z_lt_le_dec (7 * Z.of_nat k) s) as [Hlt | Hle]; [ exact Hlt | exfalso ].
  apply (Qlt_irrefl (inject_Z 7)). eapply Qlt_le_trans; [ exact H | ].
  apply Qle_shift_div_r; [ apply of_nat_pos; lia | ].
  rewrite <- inject_Z_mult, <- Zle_Qle. exact Hle.
Qed.

(** One tracked outcome keeps the books. *)
Lemma trackOutcome_accounted st rt outcome :
  accounted st -> accounted (trackOutcome st rt outcome).
Proof.
  intros Hst b. unfold trackOutcome.
  set (lagDays := Math.floor _).
  set (b0 := OutcomeInput.beneficiary outcome).
  set (risk := calculateRiskScore st lagDays b0).
  set (newOutcome := LaggedOutcome.mk _ _ _ _ _ _ _ _ _).
  set (st1 := Build_State _ _ _).
  destruct (checkLagPatterns_frame (updateBeneficiaryPattern st1 rt b0 lagDays risk) rt 1)
    as (Ho & Hp & _).
  assert (Hout : forall b',
             (List.length (outcomesOf (checkLagPatterns
                                          (updateBeneficiaryPattern st1 rt b0 lagDays risk)
                                          rt 1) b')
              <= List.length (outcomesOf st b')
                 + (if String.eqb b0 b' then 1 else 0))%nat).
  { intros b'. unfold outcomesOf. rewrite Ho. cbn [updateBeneficiaryPattern outcomes st1].
    apply (JsMap_set_filter_length
             (fun o => String.eqb (LaggedOutcome.beneficiary o) b')). }
  rewrite Hp. cbn [updateBeneficiaryPattern beneficiaryPatterns st1].
  specialize (Hout b). specialize (Hst b) as Hb.
  destruct (String.eqb b0 b) eqn:E.
  - apply String.eqb_eq in E. subst b. rewrite JsMap_get_set_eq.
    cbn [BeneficiaryPattern.occurrences BeneficiaryPattern.totalRiskScore].
    destruct (JsMap.get (beneficiaryPatterns st) b0) as [p | ] eqn:Hget.
    + destruct Hb as (k & s & Hk & Hocc & Htotal & Hs & Hlen).
      destruct (calculateRiskScore_bound st lagDays b0 k) as (z & Hz & Hzk);
        [ rewrite Hget; exact Hocc | exact Hlen | ].
      exists (S k), (s + z). fold risk in Hz.
      rewrite Hocc, Htotal, Hz. unfold of_nat. rewrite !of_Z_add.
      split_and!; try lia.
      * f_equal. lia.
      * reflexivity.
      * cbn [cumulated]. lia.
      * rewrite Hz in Hout. lia.
    + destruct (calculateRiskScore_bound st lagDays b0 0) as (z & Hz & Hzk);
        [ rewrite Hget; reflexivity | rewrite Hb; cbn; lia | ].
      exists 1%nat, z. fold risk in Hz. rewrite Hz.
      cbn [BeneficiaryPattern.occurrences BeneficiaryPattern.totalRiskScore].
      rewrite !of_Z_add. rewrite Hb, Hz in Hout. cbn [List.length Nat.add] in Hout.
      split_and!; try lia; try reflexivity.
      cbn [cumulated]. unfold max_score in *. cbn in *. lia.
  - apply String.eqb_neq in E. rewrite JsMap_get_set_ne by exact E.
    destruct (JsMap.get (beneficiaryPatterns st) b) as [p | ].
    + destruct Hb as (k & s & Hk & Hocc & Htotal & Hs & Hlen).
      exists k, s. split_and!; try assumption; try lia.
    + rewrite Hb in Hout. cbn in Hout.
      destruct (outcomesOf _ b); [ reflexivity | cbn in Hout; lia ].
Qed.

Lemma reachable_accounted st : reachable st -> accounted st.
Proof.
  induction 1 as [ | st rt outcome _ IH].
  - intros b. reflexivity.
  - apply trackOutcome_accounted. exact IH.
Qed.

Lemma reachable_patterns_NoDup st :
  reachable st -> List.NoDup (JsMap.keys (beneficiaryPatterns st)).
Proof.
  induction 1 as [ | st rt outcome _ IH]; [ constructor | ].
  unfold trackOutcome.
  match goal with
  | |- context [checkLagPatterns ?s rt 1] =>
      destruct (checkLagPatterns_frame s rt 1) as (_ & -> & _)
  end.
  cbn [updateBeneficiaryPattern beneficiaryPatterns].
  apply JsMap_set_keys_NoDup. exact IH.
Qed.

(** X17.  Whatever the state, the lag and the beneficiary, the risk score
    of an outcome is a whole number from 0 to 10, and at most 4 for a
    beneficiary that has no pattern yet: the first outcome of a beneficiary
    is never high-risk. *)
Theorem risk_score_is_from_0_to_10 (st : State) (lagDays : number) (beneficiary : string) :
  exists z,
    calculateRiskScore st lagDays beneficiary = of_Z z
    /\ 0 <= z <= 10
    /\ (JsMap.get (beneficiaryPatterns st) beneficiary = None -> z <= 4).
Proof.
  unfold calculateRiskScore.
  destruct (lag_points lagDays 0) as (l & Hl & ->). rewrite Z.add_0_l.
  destruct (JsMap.get (beneficiaryPatterns st) beneficiary) as [p | ].
  - assert (Hfreq : exists f,
               0 <= f <= 3
               /\ (if (BeneficiaryPattern.occurrences p >? of_Z 10)%js
                   then (of_Z l + of_Z 3)%js
                   else if (BeneficiaryPattern.occurrences p >? of_Z 5)%js
                        then (of_Z l + of_Z 2)%js
                        else if (BeneficiaryPattern.occurrences p >? of_Z 2)%js
                             then (of_Z l + of_Z 1)%js
                             else of_Z l) = of_Z (l + f)).
    { repeat match goal with
             | |- context [if ?c then _ else _] => destruct c
             end;
        [ exists 3 | exists 2 | exists 1 | exists 0 ];
        rewrite ?of_Z_add, ?Z.add_0_r; (split; [ lia | reflexivity ]). }
    destruct Hfreq as (f & Hf & ->).
    destruct (BeneficiaryPattern.avgLagDays p >? of_Z 60)%js.
    + destruct (consistency_points (calculateConsistency st beneficiary) (l + f))
        as (c & Hc & ->).
      rewrite min_10_of_Z. eexists. split; [ reflexivity | ].
      split; [ lia | discriminate ].
    + rewrite min_10_of_Z. eexists. split; [ reflexivity | ].
      split; [ lia | discriminate ].
  - rewrite min_10_of_Z. eexists. split; [ reflexivity | ]. split; lia.
Qed.

(** X18.  A beneficiary needs at least eight tracked outcomes before its
    running average risk can exceed 7.  In every state of the layer, a
    pattern whose average risk is above 7 counts at least 8 occurrences, so
    a pattern alert is on record only if some beneficiary has reached 8
    occurrences. *)
Theorem high_risk_needs_eight_outcomes (st : State) :
  reachable st ->
  (forall beneficiary p,
      JsMap.get (beneficiaryPatterns st) beneficiary = Some p ->
      isHighRisk p = true ->
      exists k : nat, BeneficiaryPattern.occurrences p = of_nat k /\ (8 <= k)%nat)
  /\ (lagAlerts st <> [] ->
      exists beneficiary p (k : nat),
        JsMap.get (beneficiaryPatterns st) beneficiary = Some p
        /\ BeneficiaryPattern.occurrences p = of_nat k /\ (8 <= k)%nat).
Proof.
  intros Hst.
  assert (Hhigh : forall st, reachable st ->
             forall beneficiary p,
               JsMap.get (beneficiaryPatterns st) beneficiary = Some p ->
               isHighRisk p = true ->
               exists k : nat, BeneficiaryPattern.occurrences p = of_nat k /\ (8 <= k)%nat).
  { clear st Hst. intros st Hst b p Hget Hrisk.
    pose proof (reachable_accounted st Hst b) as Hb. rewrite Hget in Hb.
    destruct Hb as (k & s & Hk & Hocc & Htotal & Hs & _).
    exists k. split; [ exact Hocc | ].
    pose proof (isHighRisk_total p k s Hk Hocc Htotal Hrisk) as Hlt.
    destruct (Nat.lt_ge_cases k 8) as [Hsmall | Hok]; [ | exact Hok ].
    pose proof (cumulated_small k Hsmall). lia. }
  split; [ apply Hhigh; exact Hst | ].
  induction Hst as [ | st rt outcome Hst IH]; [ intros H; contradiction H; reflexivity | ].
  intros Halerts.
  pose proof (reachable_track st rt outcome Hst) as Hst'.
  destruct (lagAlerts st) as [ | a0 alerts0] eqn:Hold.
  - (* the first alert is raised by this call *)
    revert Halerts Hst' Hhigh. unfold trackOutcome.
    set (st2 := updateBeneficiaryPattern _ rt _ _ _).
    intros Halerts Hst' Hhigh.
    assert (Hsome : List.filter isHighRisk (JsMap.values (beneficiaryPatterns st2)) <> []).
    { intros Hnone. apply Halerts. unfold checkLagPatterns. rewrite Hnone.
      cbn [List.fold_left fst]. subst st2. cbn [updateBeneficiaryPattern lagAlerts].
      exact Hold. }
    destruct (List.filter isHighRisk (JsMap.values (beneficiaryPatterns st2)))
      as [ | p ps] eqn:Hfilter; [ contradiction Hsome; reflexivity | ].
    assert (Hp : In p (List.filter isHighRisk (JsMap.values (beneficiaryPatterns st2))))
      by (rewrite Hfilter; left; reflexivity).
    apply filter_In in Hp as [Hin Hrisk].
    unfold JsMap.values in Hin. apply in_map_iff in Hin as ([b p'] & Hsnd & Hin).
    cbn in Hsnd. subst p'.
    destruct (checkLagPatterns_frame st2 rt 1) as (_ & Hpat & _).
    pose proof (reachable_patterns_NoDup _ Hst') as Hnodup.
    rewrite Hpat in Hnodup.
    pose proof (JsMap_In_get _ _ _ Hnodup Hin) as Hget.
    rewrite <- Hpat in Hget.
    destruct (Hhigh _ Hst' b p Hget Hrisk) as (k & Hocc & Hk).
    exists b, p, k. auto.
  - (* an alert was already on record *)
    destruct IH as (b & p & k & Hget & Hocc & Hk); [ discriminate | ].
    unfold trackOutcome.
    match goal with
    | |- context [checkLagPatterns ?s rt 1] =>
        destruct (checkLagPatterns_frame s rt 1) as (_ & -> & _)
    end.
    cbn [updateBeneficiaryPattern beneficiaryPatterns].
    destruct (String.eqb (OutcomeInput.beneficiary outcome) b) eqn:E.
    + apply String.eqb_eq in E. rewrite E, Hget.
      eexists b, _, (S k). rewrite JsMap_get_set_eq. split; [ reflexivity | ].
      cbn [BeneficiaryPattern.occurrences]. rewrite Hocc. unfold of_nat.
      rewrite of_Z_add. split; [ f_equal; lia | lia ].
    + apply String.eqb_neq in E.
      exists b, p, k. rewrite JsMap_get_set_ne by exact E. auto.
Qed.

Lemma high_risk_needs_eight_outcomes_witness :
  reachable (Scenario.st_B 8)
  /\ (forall beneficiary p,
         JsMap.get (beneficiaryPatterns (Scenario.st_B 8)) beneficiary = Some p ->
         isHighRisk p = true ->
         exists k : nat, BeneficiaryPattern.occurrences p = of_nat k /\ (8 <= k)%nat)
  /\ (lagAlerts (Scenario.st_B 8) <> [] ->
      exists beneficiary p (k : nat),
        JsMap.get (beneficiaryPatterns (Scenario.st_B 8)) beneficiary = Some p
        /\ BeneficiaryPattern.occurrences p = of_nat k /\ (8 <= k)%nat).
Proof.
  assert (H : reachable (Scenario.st_B 8)).
  { unfold Scenario.st_B. generalize (List.seq 0 8). generalize reachable_initial.
    generalize initial. intros st Hst l. revert st Hst.
    induction l as [ | i l IH]; intros st Hst; cbn [List.fold_left]; [ exact Hst | ].
    apply IH. apply reachable_track. exact Hst. }
  split; [ exact H | ].
  exact (high_risk_needs_eight_outcomes (Scenario.st_B 8) H).
Defined.

End LoaAccounting.

(** * OLI: the break register and the queue *)

Section OliInvariants.
Import JS OLI.

(** The score over its four sub-scores, the last one given. *)
Lemma fatigue_score_points st rt m :
  exists z,
    0 <= z <= 8
    /\ calculateFatigueScore st rt m
       = Math.min (of_Z 10)
           (if (getHoursSinceLastBreak st rt (ObserverMetrics.observerId m) >? of_Z 48)%js
            then of_Z (z + 2)
            else if (getHoursSinceLastBreak st rt (ObserverMetrics.observerId m)
                     >? of_Z 24)%js
                 then of_Z (z + 1)
                 else of_Z z).
Proof.
  unfold calculateFatigueScore.
  destruct (ObserverMetrics.auditsReviewed m >? of_Z 20)%js;
    [ | destruct (ObserverMetrics.auditsReviewed m >? of_Z 10)%js;
        [ | destruct (ObserverMetrics.auditsReviewed m >? of_Z 5)%js ] ];
    (destruct (ObserverMetrics.correctionRate m >? num 0.5)%js;
     [ | destruct (ObserverMetrics.correctionRate m >? num 0.25)%js;
         [ | destruct (ObserverMetrics.correctionRate m >? num 0.1)%js ] ]);
    (destruct (ObserverMetrics.contradictionExposure m >? num 0.7)%js;
     [ | destruct (ObserverMetrics.contradictionExposure m >? num 0.4)%js ]);
    rewrite ?of_Z_add;
    (eexists; split; [ | rewrite ?of_Z_add; reflexivity ]); lia.
Qed.

Lemma updateObserverLoad_breaks st rt observerId task :
  lastBreaks (updateObserverLoad st rt observerId task) = lastBreaks st.
Proof.
  unfold updateObserverLoad, triggerFatigueAlert.
  destruct (FatigueRisk_eqb _ _); reflexivity.
Qed.

Lemma reachable_no_break st : reachable st -> lastBreaks st = [].
Proof.
  induction 1 as [ | st rt observerId task _ IH]; [ reflexivity | ].
  rewrite updateObserverLoad_breaks. exact IH.
Qed.

Lemma no_break_score st :
  reachable st ->
  forall rt m, exists z, calculateFatigueScore st rt m = of_Z z /\ 2 <= z <= 10.
Proof.
  intros Hst rt m.
  destruct (fatigue_score_points st rt m) as (z & Hz & ->).
  unfold getHoursSinceLastBreak. rewrite (reachable_no_break st Hst). cbn [JsMap.get].
  change (of_Z 72 >? of_Z 48)%js with true. cbn iota.
  rewrite min_10_of_Z. eexists. split; [ reflexivity | lia ].
Qed.

(** X20.  No method of the index records a break.  In every state the
    index reaches, the break register is empty, the time since the last
    break reads as the default of 72 hours for every observer at every
    moment, and so the fatigue score is a whole number from 2 to 10: the
    two points for a missing break are always counted. *)
Theorem no_break_is_ever_recorded (st : State) :
  reachable st ->
  lastBreaks st = []
  /\ forall rt m,
       getHoursSinceLastBreak st rt (ObserverMetrics.observerId m) = of_Z 72
       /\ exists z, calculateFatigueScore st rt m = of_Z z /\ 2 <= z <= 10.
Proof.
  intros Hst. pose proof (reachable_no_break st Hst) as Hnone.
  split; [ exact Hnone | ]. intros rt m.
  assert (Hhours : getHoursSinceLastBreak st rt (ObserverMetrics.observerId m) = of_Z 72).
  { unfold getHoursSinceLastBreak. rewrite Hnone. reflexivity. }
  split; [ exact Hhours | ]. apply no_break_score. exact Hst.
Qed.

Lemma updates_reachable st rt ids task :
  reachable st ->
  reachable (List.fold_left (fun s id => updateObserverLoad s rt id task) ids st).
Proof.
  revert st. induction ids as [ | id ids IH]; intros st Hst; cbn [List.fold_left].
  - exact Hst.
  - apply IH. apply reachable_update. exact Hst.
Qed.

Lemma no_break_is_ever_recorded_witness :
  reachable Scenario.st_reviews
  /\ lastBreaks Scenario.st_reviews = []
  /\ forall rt m,
       getHoursSinceLastBreak Scenario.st_reviews rt (ObserverMetrics.observerId m)
       = of_Z 72
       /\ exists z, calculateFatigueScore Scenario.st_reviews rt m = of_Z z /\ 2 <= z <= 10.
Proof.
  assert (H : reachable Scenario.st_reviews)
    by apply updates_reachable, reachable_initial.
  split; [ exact H | ].
  exact (no_break_is_ever_recorded Scenario.st_reviews H).
Defined.

(** What [updateObserverLoad] does when the tier is not high. *)
Lemma updateObserverLoad_calm st rt observerId task :
  (calculateFatigueScore st rt (updatedMetrics st rt observerId) >=? of_Z 7)%js = false ->
  updateObserverLoad st rt observerId task
  = {| observers := JsMap.set (observers st) observerId (updatedMetrics st rt observerId);
       loadAlerts := loadAlerts st;
       cooldownQueue := cooldownQueue st;
       lastBreaks := lastBreaks st |}.
Proof.
  intros Hlow. unfold updateObserverLoad.
  rewrite updatedMetrics_risk, Hlow.
  destruct (_ >=? of_Z 4)%js; reflexivity.
Qed.

Lemma geb_of_Z (a b : Z) : (of_Z a >=? of_Z b)%js = (b <=? a).
Proof.
  unfold geb, leb, of_Z. destruct (b <=? a) eqn:E.
  - apply Qle_bool_iff. rewrite <- Zle_Qle. apply Z.leb_le. exact E.
  - destruct (Qle_bool _ _) eqn:E'; [ | reflexivity ].
    apply Qle_bool_iff in E'. rewrite <- Zle_Qle in E'. apply Z.leb_gt in E. lia.
Qed.

(** X21.  In every state the index reaches, alerts and cooldowns go in
    pairs: the queue holds one cooldown per alert, for the same observer
    and in the same order; every alert is a MANDATORY_COOLDOWN with a whole
    score from 7 to 10, and its cooldown lasts 72 hours when the score is 9
    or 10 and 48 hours otherwise.  A warning, or a cooldown of 24 hours, is
    never issued. *)
Theorem alerts_and_cooldowns_go_in_pairs (st : State) :
  reachable st ->
  Forall2
    (fun alert entry =>
       LoadAlert.action alert = MANDATORY_COOLDOWN
       /\ CooldownEntry.observerId entry = LoadAlert.observerId alert
       /\ CooldownEntry.reason entry = "high_fatigue_risk"%string
       /\ exists z,
            LoadAlert.fatigueScore alert = of_Z z
            /\ 7 <= z <= 10
            /\ CooldownEntry.duration entry = (if 9 <=? z then of_Z 72 else of_Z 48))
    (loadAlerts st) (cooldownQueue st).
Proof.
  induction 1 as [ | st rt observerId task Hst IH]; [ constructor | ].
  destruct (no_break_score st Hst rt (updatedMetrics st rt observerId)) as (z & Hz & Hrange).
  destruct (7 <=? z) eqn:Hhigh.
  - rewrite updateObserverLoad_high by (rewrite Hz, geb_of_Z; exact Hhigh).
    rewrite Hz, geb_of_Z. cbn [loadAlerts cooldownQueue].
    apply Forall2_app; [ exact IH | ]. constructor; [ | constructor ].
    cbn [LoadAlert.action LoadAlert.observerId LoadAlert.triggeredAt LoadAlert.fatigueScore
         CooldownEntry.observerId CooldownEntry.startTime CooldownEntry.reason
         CooldownEntry.duration].
    split_and!; try reflexivity.
    exists z. apply Z.leb_le in Hhigh.
    split_and!; try reflexivity; lia.
  - rewrite updateObserverLoad_calm by (rewrite Hz, geb_of_Z; exact Hhigh).
    exact IH.
Qed.

Lemma alerts_and_cooldowns_go_in_pairs_witness :
  reachable Scenario.st_reviews
  /\ Forall2
       (fun alert entry =>
          LoadAlert.action alert = MANDATORY_COOLDOWN
          /\ CooldownEntry.observerId entry = LoadAlert.observerId alert
          /\ CooldownEntry.reason entry = "high_fatigue_risk"%string
          /\ exists z,
               LoadAlert.fatigueScore alert = of_Z z
               /\ 7 <= z <= 10
               /\ CooldownEntry.duration entry = (if 9 <=? z then of_Z 72 else of_Z 48))
       (loadAlerts Scenario.st_reviews) (cooldownQueue Scenario.st_reviews).
Proof.
  assert (H : reachable Scenario.st_reviews)
    by apply updates_reachable, reachable_initial.
  split; [ exact H | ].
  exact (alerts_and_cooldowns_go_in_pairs Scenario.st_reviews H).
Defined.

End OliInvariants.

Section OliTiers.
Import JS OLI.

(** With an empty break register the score reads the metrics only. *)
Lemma calculateFatigueScore_no_break st st' rt rt' m :
  lastBreaks st = [] -> lastBreaks st' = [] ->
  calculateFatigueScore st' rt' m = calculateFatigueScore st rt m.
Proof.
  intros H H'. unfold calculateFatigueScore, getHoursSinceLastBreak.
  rewrite H, H'. reflexivity.
Qed.

Lemma updateObserverLoad_observers st rt observerId task :
  observers (updateObserverLoad st rt observerId task)
  = JsMap.set (observers st) observerId (updatedMetrics st rt observerId).
Proof.
  unfold updateObserverLoad, triggerFatigueAlert.
  destruct (FatigueRisk_eqb _ _); reflexivity.
Qed.

(** X22.  In every state the index reaches, each observer is filed under
    its own id, its number of reviewed audits is a whole number, at least 1,
    and its stored tier is the tier its stored numbers give at any moment:
    high for a score of 7 or more, medium from 4 on, low below. *)
Theorem stored_tier_matches_the_metrics (st : State) :
  reachable st ->
  forall observerId m,
    JsMap.get (observers st) observerId = Some m ->
    ObserverMetrics.observerId m = observerId
    /\ (exists n : nat, (1 <= n)%nat /\ ObserverMetrics.auditsReviewed m = of_nat n)
    /\ forall rt, ObserverMetrics.fatigueRisk m = calculateFatigueRisk st rt m.
Proof.
  induction 1 as [ | st rt0 id task Hst IH]; [ discriminate | ].
  intros observerId m. rewrite updateObserverLoad_observers.
  pose proof (reachable_no_break st Hst) as Hnone.
  pose proof (reachable_no_break _ (reachable_update st rt0 id task Hst)) as Hnone'.
  destruct (String.eqb id observerId) eqn:E.
  - apply String.eqb_eq in E. subst observerId. rewrite JsMap_get_set_eq.
    intros [= <-]. split_and!.
    + unfold updatedMetrics. cbn [ObserverMetrics.observerId].
      destruct (JsMap.get (observers st) id) as [m0 | ] eqn:Hm0; [ | reflexivity ].
      apply (IH id m0 Hm0).
    + unfold updatedMetrics. cbn [ObserverMetrics.auditsReviewed].
      destruct (JsMap.get (observers st) id) as [m0 | ] eqn:Hm0.
      * destruct (IH id m0 Hm0) as (_ & (n & Hn & ->) & _).
        exists (S n). unfold of_nat. rewrite of_Z_add. split; [ lia | f_equal; lia ].
      * exists 1%nat. split; [ lia | reflexivity ].
    + intros rt. rewrite updatedMetrics_risk. unfold calculateFatigueRisk.
      rewrite (calculateFatigueScore_no_break st _ rt0 rt _ Hnone Hnone'). reflexivity.
  - apply String.eqb_neq in E. rewrite JsMap_get_set_ne by exact E.
    intros Hm. destruct (IH observerId m Hm) as (Hid & Hn & Htier).
    split_and!; [ exact Hid | exact Hn | ].
    intros rt. rewrite (Htier rt). unfold calculateFatigueRisk.
    rewrite (calculateFatigueScore_no_break st _ rt rt _ Hnone Hnone'). reflexivity.
Qed.

Lemma stored_tier_matches_the_metrics_witness :
  reachable Scenario.st_reviews
  /\ forall observerId m,
       JsMap.get (observers Scenario.st_reviews) observerId = Some m ->
       ObserverMetrics.observerId m = observerId
       /\ (exists n : nat, (1 <= n)%nat /\ ObserverMetrics.auditsReviewed m = of_nat n)
       /\ forall rt,
            ObserverMetrics.fatigueRisk m = calculateFatigueRisk Scenario.st_reviews rt m.
Proof.
  assert (H : reachable Scenario.st_reviews)
    by apply updates_reachable, reachable_initial.
  split; [ exact H | ].
  exact (stored_tier_matches_the_metrics Scenario.st_reviews H).
Defined.

End OliTiers.

(** * Numbers kept between two bounds *)

Section MoreRangeFacts.
Import JS.

(** A share [h/t] of a non-empty total. *)
Lemma ratio_within (h t : nat) :
  (h <= t)%nat -> (0 < t)%nat -> within 0 1 (of_nat h / of_nat t)%js.
Proof.
  intros Hle Hpos. unfold of_nat, of_Z.
  rewrite div_Fin_pos by (apply of_nat_pos; exact Hpos).
  unfold num, within. rewrite !Qred_correct.
  pose proof (of_nat_pos t Hpos) as Ht. pose proof (of_nat_nonneg h) as Hh.
  assert (Hht : (inject_Z (Z.of_nat h) <= inject_Z (Z.of_nat t))%Q)
    by (rewrite <- Zle_Qle; lia).
  split.
  - apply Qle_shift_div_l; [ exact Ht | ]. rewrite Qmult_0_l. exact Hh.
  - apply Qle_shift_div_r; [ exact Ht | ]. rewrite Qmult_1_l. exact Hht.
Qed.

Lemma add_within (a b : Q) (x y : number) :
  within 0 a x -> within 0 b y -> within 0 (a + b) (x + y)%js.
Proof.
  destruct x as [ | | | p], y as [ | | | q]; cbn [within]; try tauto.
  intros [H1 H2] [H3 H4]. unfold add, num, within. rewrite Qred_correct. split; lra.
Qed.

Lemma one_minus_within (x : number) :
  within 0 1 x -> within 0 1 (of_Z 1 - x)%js.
Proof.
  destruct x as [ | | | q]; cbn [within]; try tauto. intros [H1 H2].
  unfold sub, neg, add, of_Z, num, within. rewrite !Qred_correct.
  change (inject_Z 1) with 1%Q. split; lra.
Qed.

(** The mean of a sum of [n] shares. *)
Lemma mean_within (n : nat) (x : number) :
  (0 < n)%nat -> within 0 (inject_Z (Z.of_nat n)) x -> within 0 1 (x / of_nat n)%js.
Proof.
  intros Hpos. destruct x as [ | | | q]; cbn [within]; try tauto. intros [H1 H2].
  unfold of_nat, of_Z. pose proof (of_nat_pos n Hpos) as Hn.
  rewrite div_Fin_pos by exact Hn.
  unfold num, within. rewrite !Qred_correct. split.
  - apply Qle_shift_div_l; [ exact Hn | ]. rewrite Qmult_0_l. exact H1.
  - apply Qle_shift_div_r; [ exact Hn | ]. rewrite Qmult_1_l. exact H2.
Qed.

Lemma percent_within (x : number) :
  within 0 1 x -> within 0 100 (x * of_Z 100)%js.
Proof.
  destruct x as [ | | | q]; cbn [within]; try tauto. intros [H1 H2].
  unfold mul, of_Z, num, within. rewrite Qred_correct.
  change (inject_Z 100) with 100%Q. split; lra.
Qed.

(** [Math.round(x)] of a percentage is a whole number from 0 to 100. *)
Lemma round_within (x : number) :
  within 0 100 x -> exists r : Z, 0 <= r <= 100 /\ Math.round x = of_Z r.
Proof.
  destruct x as [ | | | q]; cbn [within]; try tauto. intros [Hlo Hhi].
  exists (Qfloor (q + (1 # 2))). split; [ | reflexivity ]. split.
  - apply (Z.le_trans _ (Qfloor 0)); [ reflexivity | ]. apply Qfloor_resp_le. lra.
  - apply Z.lt_succ_r. rewrite Zlt_Qlt.
    eapply Qle_lt_trans; [ apply Qfloor_le | ].
    change (inject_Z (Z.succ 100)) with 101%Q. lra.
Qed.

Lemma of_Z_within (lo hi r : Z) :
  lo <= r <= hi -> within (inject_Z lo) (inject_Z hi) (of_Z r).
Proof. intros H. unfold of_Z, within. rewrite <- !Zle_Qle. exact H. Qed.

(** [Math.max(0, Math.round(x))] of a percentage. *)
Lemma rounded_within (x : number) :
  within 0 100 x -> within 0 100 (Math.max (of_Z 0) (Math.round x)).
Proof.
  intros H. destruct (round_within x H) as (r & Hr & ->).
  unfold Math.max, of_Z.
  change (ltb (Fin (inject_Z 0)) (Fin (inject_Z r))) with (of_Z r >? of_Z 0)%js.
  rewrite gtb_of_Z. destruct (0 <? r) eqn:E.
  - apply (of_Z_within 0 100). exact Hr.
  - cbn. split; [ apply Qle_refl | discriminate ].
Qed.

End MoreRangeFacts.

(** * Strings: membership and sets *)

Section StrFacts.

Lemma includes_In (xs : list string) (x : string) :
  Str.includes xs x = true <-> In x xs.
Proof.
  unfold Str.includes. rewrite existsb_exists. split.
  - intros (y & Hy & E). apply String.eqb_eq in E. subst y. exact Hy.
  - intros H. exists x. split; [ exact H | apply String.eqb_refl ].
Qed.

Lemma to_set_loop (xs acc : list string) :
  List.NoDup acc ->
  List.NoDup
    (List.fold_left (fun acc x => if Str.includes acc x then acc else acc ++ [x]) xs acc)
  /\ forall x,
       In x (List.fold_left
               (fun acc x => if Str.includes acc x then acc else acc ++ [x]) xs acc)
       <-> In x acc \/ In x xs.
Proof.
  revert acc. induction xs as [ | y xs IH]; intros acc Hacc; cbn [List.fold_left].
  - split; [ exact Hacc | ]. intros x. cbn. tauto.
  - destruct (Str.includes acc y) eqn:E.
    + destruct (IH acc Hacc) as [Hn Hin]. split; [ exact Hn | ].
      intros x. rewrite Hin. apply includes_In in E. cbn. split.
      * tauto.
      * intros [H | [<- | H]]; tauto.
    + assert (Hy : ~ In y acc).
      { intros H. apply includes_In in H. congruence. }
      assert (Hacc' : List.NoDup (acc ++ [y])).
      { apply List.NoDup_app.
        - exact Hacc.
        - apply List.NoDup_cons_iff. split; [ intros [] | constructor ].
        - intros z Hz [<- | []]. exact (Hy Hz). }
      destruct (IH (acc ++ [y]) Hacc') as [Hn Hin]. split; [ exact Hn | ].
      intros x. rewrite Hin, in_app_iff. cbn. tauto.
Qed.

Lemma to_set_NoDup (xs : list string) : List.NoDup (Str.to_set xs).
Proof. apply to_set_loop. constructor. Qed.

Lemma to_set_In (xs : list string) (x : string) : In x (Str.to_set xs) <-> In x xs.
Proof.
  unfold Str.to_set. rewrite (proj2 (to_set_loop xs [] (List.NoDup_nil _))). cbn. tauto.
Qed.

Lemma last_n_length {A : Type} (n : nat) (xs : list A) :
  List.length (Str.last_n n xs) = Nat.min n (List.length xs).
Proof. unfold Str.last_n. rewrite List.length_skipn. lia. Qed.

End StrFacts.

(** * PDS: the drift is a share *)

Section PdsBounds.
Import JS PDS.

Lemma matchScore_within (kws : list string) (f : UsageEvent.t -> list string)
    (events : list UsageEvent.t) (acc : number) (k : nat) :
  kws <> [] ->
  within 0 (inject_Z (Z.of_nat k)) acc ->
  within 0 (inject_Z (Z.of_nat (k + List.length events)))
    (List.fold_left
       (fun matchScore event =>
          (matchScore
           + of_nat (List.length (List.filter (fun w => Str.includes (f event) w) kws))
             / of_nat (List.length kws))%js)
       events acc).
Proof.
  intros Hk. revert acc k. induction events as [ | e events IH]; intros acc k Hacc.
  - cbn [List.fold_left List.length]. rewrite Nat.add_0_r. exact Hacc.
  - cbn [List.fold_left List.length].
    replace (k + S (List.length events))%nat with (S k + List.length events)%nat by lia.
    apply IH.
    replace (inject_Z (Z.of_nat (S k))) with (inject_Z (Z.of_nat k) + 1)%Q.
    + apply add_within; [ exact Hacc | ].
      apply ratio_within; [ apply filter_length_le | ].
      destruct kws; [ congruence | cbn; lia ].
    + rewrite Nat2Z.inj_succ. unfold Z.succ. rewrite inject_Z_plus. reflexivity.
Qed.

Lemma semanticDivergence_within (purpose : SystemPurpose.t) (events : list UsageEvent.t) :
  extractKeywords (SystemPurpose.originalIntent purpose) <> [] ->
  events <> [] ->
  within 0 1 (calculateSemanticDivergence purpose events).
Proof.
  intros Hk He. unfold calculateSemanticDivergence.
  apply one_minus_within, mean_within.
  - rewrite last_n_length. destruct events; [ congruence | cbn; lia ].
  - apply (matchScore_within _ (fun event => extractKeywords (UsageEvent.description event))
             _ _ 0%nat Hk).
    cbn. split; apply Qle_refl.
Qed.

Lemma usagePatternShift_within (events : list UsageEvent.t) :
  within 0 1 (calculateUsagePatternShift events).
Proof.
  unfold calculateUsagePatternShift.
  destruct (List.length events <? 20)%nat eqn:E.
  - cbn. split; discriminate.
  - apply Nat.ltb_ge in E. apply one_minus_within, ratio_within.
    + apply List.NoDup_incl_length; [ apply to_set_NoDup | ].
      intros x Hx. rewrite to_set_In, filter_In in Hx. destruct Hx as [Hx _].
      rewrite to_set_In, in_app_iff. left. exact Hx.
    + destruct events as [ | e events]; [ cbn in E; lia | ].
      cbn [List.firstn List.map].
      assert (Hin : In (UsageEvent.eventType e)
                      (Str.to_set
                         (Str.to_set (UsageEvent.eventType e
                                      :: List.map UsageEvent.eventType (List.firstn 9 events))
                          ++ Str.to_set
                               (List.map UsageEvent.eventType (Str.last_n 10 (e :: events)))))).
      { rewrite to_set_In, in_app_iff, to_set_In. left. left. reflexivity. }
      destruct (Str.to_set _); [ contradiction | cbn; lia ].
Qed.

Lemma mix_within (x y : number) :
  within 0 1 x -> within 0 1 y -> within 0 1 (x * num 0.7 + y * num 0.3)%js.
Proof.
  destruct x as [ | | | p], y as [ | | | q]; cbn [within]; try tauto.
  intros [H1 H2] [H3 H4]. unfold mul, add, num, within. rewrite !Qred_correct.
  split; lra.
Qed.

(** The drift of a purpose whose intent has a keyword, and of an unknown
    purpose, is a share. *)
Lemma overallDrift_within (st : State) (rt : Runtime) (purposeId : string) :
  (forall purpose,
     JsMap.get (purposes st) purposeId = Some purpose ->
     extractKeywords (SystemPurpose.originalIntent purpose) <> []) ->
  within 0 1 (DriftMetrics.overallDrift (calculateDrift st rt purposeId)).
Proof.
  intros Hk. unfold calculateDrift.
  destruct (JsMap.get (purposes st) purposeId) as [purpose | ];
    [ | cbn; split; discriminate ].
  destruct (List.length _ <? 10)%nat eqn:E; [ cbn; split; discriminate | ].
  apply Nat.ltb_ge in E. cbn [DriftMetrics.overallDrift].
  apply mix_within.
  - apply semanticDivergence_within; [ apply Hk; reflexivity | ].
    destruct (default [] _); [ cbn in E; lia | discriminate ].
  - apply usagePatternShift_within.
Qed.

(** Without a keyword every event adds [0/0]. *)
Lemma matchScore_NaN (f : UsageEvent.t -> number) (events : list UsageEvent.t) :
  List.fold_left (fun matchScore event => (matchScore + f event)%js) events NaN = NaN.
Proof. induction events as [ | e events IH]; cbn; [ reflexivity | exact IH ]. Qed.

Lemma semanticDivergence_NaN (purpose : SystemPurpose.t) (events : list UsageEvent.t) :
  extractKeywords (SystemPurpose.originalIntent purpose) = [] ->
  events <> [] ->
  calculateSemanticDivergence purpose events = NaN.
Proof.
  intros Hk He. unfold calculateSemanticDivergence. rewrite Hk.
  assert (Hrecent : Str.last_n 20 events <> []).
  { intros H. apply (f_equal (@List.length _)) in H. rewrite last_n_length in H.
    destruct events; [ congruence | cbn in H; lia ]. }
  destruct (Str.last_n 20 events) as [ | e recent]; [ congruence | ].
  cbn [List.fold_left List.filter List.length].
  change (of_Z 0 + of_nat 0 / of_nat 0)%js with NaN.
  rewrite (matchScore_NaN (fun _ => (of_nat 0 / of_nat 0)%js)). reflexivity.
Qed.

End PdsBounds.

(** * PDS: alerts, the pause and recommitments *)

Section PdsInvariants.
Import JS PDS.

(** A drift above the alert threshold is a finite share, and belongs to a
    purpose whose intent has a keyword. *)
Lemma drift_over_threshold (st : State) (rt : Runtime) (purposeId : string) :
  (DriftMetrics.overallDrift (calculateDrift st rt purposeId) >? num 0.3)%js = true ->
  exists d : Q,
    DriftMetrics.overallDrift (calculateDrift st rt purposeId) = Fin d
    /\ (3 # 10 < d)%Q /\ (d <= 1)%Q
    /\ exists purpose,
         JsMap.get (purposes st) purposeId = Some purpose
         /\ extractKeywords (SystemPurpose.originalIntent purpose) <> [].
Proof.
  intros Hover.
  destruct (JsMap.get (purposes st) purposeId) as [purpose | ] eqn:Hp.
  - destruct (extractKeywords (SystemPurpose.originalIntent purpose)) as [ | k kws] eqn:Hk.
    + exfalso. revert Hover. unfold calculateDrift. rewrite Hp.
      destruct (List.length _ <? 10)%nat eqn:E; [ cbn; discriminate | ].
      apply Nat.ltb_ge in E. cbn [DriftMetrics.overallDrift].
      rewrite semanticDivergence_NaN; [ cbn; discriminate | exact Hk | ].
      destruct (default [] _); [ cbn in E; lia | discriminate ].
    + assert (Hw : within 0 1 (DriftMetrics.overallDrift (calculateDrift st rt purposeId))).
      { apply overallDrift_within. intros p. rewrite Hp. intros E. injection E as E. subst p. rewrite Hk.
        discriminate. }
      destruct (DriftMetrics.overallDrift (calculateDrift st rt purposeId)) as [ | | | d];
        cbn [within] in Hw; try contradiction.
      exists d. change (num 0.3) with (Fin (3 # 10)) in Hover. apply gtb_Fin in Hover.
      split_and!; [ reflexivity | exact Hover | apply Hw | ].
      exists purpose. split; [ reflexivity | rewrite Hk; discriminate ].
  - exfalso. revert Hover. unfold calculateDrift. rewrite Hp. cbn. discriminate.
Qed.

Lemma triggerDriftAlert_calibrated (st : State) (rt : Runtime) (k : nat)
    (purposeId : string) (metrics : DriftMetrics.t) (d : Q) :
  DriftMetrics.overallDrift metrics = Fin d -> (3 # 10 < d)%Q -> (d <= 1)%Q ->
  exists alert,
    calibrated alert
    /\ driftAlerts (triggerDriftAlert st rt k purposeId metrics) = driftAlerts st ++ [alert]
    /\ systemPaused (triggerDriftAlert st rt k purposeId metrics)
       = (if Action_eqb (DriftAlert.action alert) PAUSE_SYSTEM then true
          else systemPaused st).
Proof.
  intros Hd Hlo Hhi. unfold triggerDriftAlert. rewrite Hd.
  change (num 0.5) with (Fin (1 # 2)).
  destruct (Fin d >? Fin (1 # 2))%js eqn:E; cbn.
  - eexists. split_and!; [ | reflexivity | reflexivity ].
    exists d. cbn. apply gtb_Fin in E.
    split_and!; try reflexivity; try assumption. tauto.
  - eexists. split_and!; [ | reflexivity | reflexivity ].
    exists d. cbn. apply gtb_Fin_false in E.
    split_and!; try reflexivity; try assumption.
    split; [ discriminate | ]. intros H. exfalso. lra.
Qed.

(** What one [trackUsage] does to the alerts and the pause. *)
Lemma trackUsage_alerts (st : State) (rt : Runtime) (purposeId : string)
    (event : EventInput.t) :
  (driftAlerts (trackUsage st rt purposeId event) = driftAlerts st
   /\ systemPaused (trackUsage st rt purposeId event) = systemPaused st)
  \/ exists alert purpose,
       calibrated alert
       /\ JsMap.get (purposes st) purposeId = Some purpose
       /\ extractKeywords (SystemPurpose.originalIntent purpose) <> []
       /\ driftAlerts (trackUsage st rt purposeId event) = driftAlerts st ++ [alert]
       /\ systemPaused (trackUsage st rt purposeId event)
          = (if Action_eqb (DriftAlert.action alert) PAUSE_SYSTEM then true
             else systemPaused st).
Proof.
  unfold trackUsage.
  destruct (_ mod 10 =? 0)%nat; [ | left; split; reflexivity ].
  match goal with |- context [checkDrift ?s _ _ _] => set (st1 := s) end.
  unfold checkDrift.
  destruct (_ >? num 0.3)%js eqn:Hover; [ | left; split; reflexivity ].
  right. apply drift_over_threshold in Hover as (d & Hd & Hlo & Hhi & purpose & Hp & Hk).
  destruct (triggerDriftAlert_calibrated st1 rt 1 purposeId
              (calculateDrift st1 rt purposeId) d Hd Hlo Hhi)
    as (alert & Hal & Hal' & Hpause).
  exists alert, purpose. split_and!; assumption.
Qed.

Lemma tracks_reachable (rt : Z -> Runtime) (purposeId : string) (event : Z -> EventInput.t)
    (times : list Z) (st : State) :
  reachable st ->
  reachable
    (List.fold_left (fun st t => trackUsage st (rt t) purposeId (event t)) times st).
Proof.
  revert st. induction times as [ | t times IH]; intros st Hst; cbn; [ exact Hst | ].
  apply IH, reachable_track, Hst.
Qed.

(** X23.  In every state the sentinel reaches, each open alert carries a
    finite drift above the threshold 0.3 and at most 1, the threshold 0.3,
    and the action PAUSE_SYSTEM exactly when its drift is above 0.5; and
    while the system is paused one of the open alerts is a pause alert. *)
Theorem drift_alerts_are_calibrated (st : State) :
  reachable st ->
  Forall calibrated (driftAlerts st)
  /\ (systemPaused st = true ->
      Exists (fun alert => DriftAlert.action alert = PAUSE_SYSTEM) (driftAlerts st)).
Proof.
  induction 1 as [ | st rt purpose Hst [IHa IHp] | st rt purposeId event Hst [IHa IHp]
                   | st rt purposeId statement Hst [IHa IHp] ].
  - split; [ constructor | discriminate ].
  - split; [ exact IHa | exact IHp ].
  - destruct (trackUsage_alerts st rt purposeId event)
      as [[-> ->] | (alert & purpose & Hal & _ & _ & -> & ->)].
    + split; [ exact IHa | exact IHp ].
    + split.
      * apply List.Forall_app. split; [ exact IHa | constructor; [ exact Hal | constructor ] ].
      * destruct (DriftAlert.action alert) eqn:E; cbn; intros Hp; apply List.Exists_app.
        -- right. constructor. exact E.
        -- left. exact (IHp Hp).
  - unfold recommit.
    destruct (JsMap.get (purposes st) purposeId) as [purpose | ];
      [ | split; [ exact IHa | exact IHp ] ].
    destruct (_ <? num 0.7)%js; [ split; [ exact IHa | exact IHp ] | ].
    cbn [fst driftAlerts systemPaused]. split.
    + apply List.Forall_forall. intros a Ha. apply filter_In in Ha as [Ha _].
      exact (proj1 (List.Forall_forall _ _) IHa a Ha).
    + destruct (systemPaused st); discriminate.
Qed.

Lemma drift_alerts_are_calibrated_witness :
  reachable Scenario.st_paused
  /\ Forall calibrated (driftAlerts Scenario.st_paused)
  /\ (systemPaused Scenario.st_paused = true ->
      Exists (fun alert => DriftAlert.action alert = PAUSE_SYSTEM)
        (driftAlerts Scenario.st_paused)).
Proof.
  assert (H : reachable Scenario.st_paused).
  { apply (tracks_reachable (fun t => Scenario.rt_at t (of_Z 0)) Scenario.decay_id
             Scenario.off_purpose).
    apply reachable_register, reachable_initial. }
  split; [ exact H | ].
  exact (drift_alerts_are_calibrated Scenario.st_paused H).
Defined.

(** X24.  Usage tracked for a purpose that was never registered, or whose
    declared intent has no word longer than three characters, never raises
    an alert and never pauses the system, whatever the events say; its
    trend always reads STABLE. *)
Theorem usage_without_keywords_never_alerts (st : State) (rt : Runtime)
    (purposeId : string) (event : EventInput.t) :
  (forall purpose,
     JsMap.get (purposes st) purposeId = Some purpose ->
     extractKeywords (SystemPurpose.originalIntent purpose) = []) ->
  driftAlerts (trackUsage st rt purposeId event) = driftAlerts st
  /\ systemPaused (trackUsage st rt purposeId event) = systemPaused st
  /\ DriftMetrics.trend (calculateDrift (trackUsage st rt purposeId event) rt purposeId)
     = STABLE.
Proof.
  intros Hk. split_and!.
  - destruct (trackUsage_alerts st rt purposeId event)
      as [[H _] | (alert & purpose & _ & Hp & Hne & _)]; [ exact H | ].
    exfalso. apply Hne, Hk, Hp.
  - destruct (trackUsage_alerts st rt purposeId event)
      as [[_ H] | (alert & purpose & _ & Hp & Hne & _)]; [ exact H | ].
    exfalso. apply Hne, Hk, Hp.
  - assert (Hpurposes : purposes (trackUsage st rt purposeId event) = purposes st).
    { unfold trackUsage. destruct (_ mod 10 =? 0)%nat; [ | reflexivity ].
      unfold checkDrift. destruct (_ >? num 0.3)%js; [ | reflexivity ].
      unfold triggerDriftAlert. destruct (Action_eqb _ _); reflexivity. }
    unfold calculateDrift. rewrite Hpurposes.
    destruct (JsMap.get (purposes st) purposeId) as [purpose | ] eqn:Hp; [ | reflexivity ].
    destruct (List.length _ <? 10)%nat eqn:E; [ reflexivity | ].
    apply Nat.ltb_ge in E. cbn [DriftMetrics.trend].
    rewrite semanticDivergence_NaN; [ reflexivity | apply Hk; reflexivity | ].
    destruct (default [] _); [ cbn in E; lia | discriminate ].
Qed.

Lemma usage_without_keywords_never_alerts_witness :
  driftAlerts
    (trackUsage Scenario.st_short_ten (Scenario.rt_at 11 (of_Z 0)) Scenario.short_id
       (Scenario.usage 11))
  = driftAlerts Scenario.st_short_ten
  /\ systemPaused
       (trackUsage Scenario.st_short_ten (Scenario.rt_at 11 (of_Z 0)) Scenario.short_id
          (Scenario.usage 11))
     = systemPaused Scenario.st_short_ten
  /\ DriftMetrics.trend
       (calculateDrift
          (trackUsage Scenario.st_short_ten (Scenario.rt_at 11 (of_Z 0)) Scenario.short_id
             (Scenario.usage 11))
          (Scenario.rt_at 11 (of_Z 0)) Scenario.short_id)
     = STABLE.
Proof.
  apply (usage_without_keywords_never_alerts Scenario.st_short_ten
           (Scenario.rt_at 11 (of_Z 0)) Scenario.short_id (Scenario.usage 11)).
  intros purpose H. vm_compute in H. injection H as <-. reflexivity.
Defined.

Lemma filter_all {A : Type} (f : A -> bool) (l : list A) :
  (forall x, In x l -> f x = true) -> List.filter f l = l.
Proof.
  induction l as [ | a l IH]; intros H; cbn; [ reflexivity | ].
  rewrite (H a (or_introl eq_refl)). f_equal. apply IH. intros x Hx. apply H. right. exact Hx.
Qed.

(** X25.  A recommitment that repeats every keyword of the declared intent
    (for instance the intent itself, word for word) is accepted for a
    registered purpose: [recommit] returns true, no alert of that purpose
    stays open and the system is not paused afterwards. *)
Theorem recommitment_repeating_the_intent_is_accepted (st : State) (rt : Runtime)
    (purposeId statement : string) (purpose : SystemPurpose.t) :
  JsMap.get (purposes st) purposeId = Some purpose ->
  (forall k,
     In k (extractKeywords (SystemPurpose.originalIntent purpose)) ->
     In k (extractKeywords statement)) ->
  snd (recommit st rt purposeId statement) = true
  /\ Forall (fun alert => DriftAlert.purposeId alert <> purposeId)
       (driftAlerts (fst (recommit st rt purposeId statement)))
  /\ systemPaused (fst (recommit st rt purposeId statement)) = false.
Proof.
  intros Hp Hall.
  assert (Hlt : (verifyRecommitmentAlignment (SystemPurpose.originalIntent purpose)
                   statement <? num 0.7)%js = false).
  { unfold verifyRecommitmentAlignment. rewrite filter_all.
    - destruct (extractKeywords (SystemPurpose.originalIntent purpose)) as [ | k kws];
        [ reflexivity | ].
      set (n := List.length (k :: kws)).
      assert (Hn : (0 < n)%nat) by (subst n; cbn; lia). clearbody n.
      unfold of_nat, of_Z. rewrite div_Fin_pos by (apply of_nat_pos; exact Hn).
      change (num 0.7) with (Fin (7 # 10)). apply gtb_Fin_false.
      pose proof (of_nat_pos n Hn) as Hq. unfold num. rewrite Qred_correct.
      apply Qle_shift_div_l; [ exact Hq | ]. lra.
    - intros k Hk. apply includes_In, Hall, Hk. }
  unfold recommit. rewrite Hp, Hlt. cbn [fst snd driftAlerts systemPaused].
  split_and!.
  - reflexivity.
  - apply List.Forall_forall. intros a Ha. apply filter_In in Ha as [_ Ha].
    apply negb_true_iff, String.eqb_neq in Ha. exact Ha.
  - destruct (systemPaused st); reflexivity.
Qed.

Lemma recommitment_repeating_the_intent_is_accepted_witness :
  snd (recommit Scenario.st_paused (Scenario.rt_at 20 (of_Z 0)) Scenario.decay_id
         "Detect institutional decay early") = true
  /\ Forall (fun alert => DriftAlert.purposeId alert <> Scenario.decay_id)
       (driftAlerts
          (fst (recommit Scenario.st_paused (Scenario.rt_at 20 (of_Z 0)) Scenario.decay_id
                  "Detect institutional decay early")))
  /\ systemPaused
       (fst (recommit Scenario.st_paused (Scenario.rt_at 20 (of_Z 0)) Scenario.decay_id
               "Detect institutional decay early")) = false.
Proof.
  apply (recommitment_repeating_the_intent_is_accepted Scenario.st_paused
           (Scenario.rt_at 20 (of_Z 0)) Scenario.decay_id
           "Detect institutional decay early" Scenario.decay_purpose).
  - vm_compute. reflexivity.
  - intros k Hk. exact Hk.
Defined.

Lemma totalDrift_within (st : State) (rt : Runtime) (ids : list string)
    (acc : number * nat) :
  (forall purposeId purpose,
     JsMap.get (purposes st) purposeId = Some purpose ->
     extractKeywords (SystemPurpose.originalIntent purpose) <> []) ->
  within 0 (inject_Z (Z.of_nat (snd acc))) (fst acc) ->
  let result :=
    List.fold_left
      (fun acc purposeId =>
         let metrics := calculateDrift st rt purposeId in
         ((fst acc + DriftMetrics.overallDrift metrics)%js, S (snd acc)))
      ids acc in
  within 0 (inject_Z (Z.of_nat (snd result))) (fst result)
  /\ snd result = (snd acc + List.length ids)%nat.
Proof.
  intros Hk. revert acc. induction ids as [ | purposeId ids IH]; intros acc Hacc.
  - cbn. split; [ exact Hacc | lia ].
  - cbn [List.fold_left List.length]. cbn zeta.
    set (acc' := ((fst acc + DriftMetrics.overallDrift (calculateDrift st rt purposeId))%js,
                  S (snd acc))).
    assert (Hacc' : within 0 (inject_Z (Z.of_nat (snd acc'))) (fst acc')); [ | 
      pose proof (IH acc' Hacc') as H; cbn zeta in H; destruct H as [H1 H2] ].
    + subst acc'. cbn [fst snd].
      replace (inject_Z (Z.of_nat (S (snd acc)))) with (inject_Z (Z.of_nat (snd acc)) + 1)%Q.
      * apply add_within; [ exact Hacc | ]. apply overallDrift_within.
        intros purpose. apply Hk.
      * rewrite Nat2Z.inj_succ. unfold Z.succ. rewrite inject_Z_plus. reflexivity.
    + split; [ exact H1 | ]. rewrite H2. subst acc'. cbn [snd]. lia.
Qed.

(** X26.  When every registered purpose has a keyword in its declared
    intent, the resilience score of the sentinel is a number between 0 and
    100, in every state and at every moment. *)
Theorem pds_resilience_within (st : State) (rt : Runtime) :
  (forall purposeId purpose,
     JsMap.get (purposes st) purposeId = Some purpose ->
     extractKeywords (SystemPurpose.originalIntent purpose) <> []) ->
  within 0 100 (calculateResilience st rt).
Proof.
  intros Hk. unfold calculateResilience.
  pose proof (totalDrift_within st rt (JsMap.keys (purposes st)) (of_Z 0, 0%nat) Hk) as H.
  cbn zeta in H.
  destruct (List.fold_left _ (JsMap.keys (purposes st)) (of_Z 0, 0%nat))
    as [totalDrift purposeCount].
  cbn [fst snd] in H. destruct H as [H _]; [ cbn; split; apply Qle_refl | ].
  destruct (purposeCount =? 0)%nat eqn:E.
  - cbn. split; discriminate.
  - apply Nat.eqb_neq in E.
    apply rounded_within, percent_within, one_minus_within, mean_within; [ lia | exact H ].
Qed.

Lemma pds_resilience_within_witness :
  within 0 100 (calculateResilience Scenario.st_paused (Scenario.rt_at 20 (of_Z 0))).
Proof.
  apply (pds_resilience_within Scenario.st_paused (Scenario.rt_at 20 (of_Z 0))).
  intros purposeId purpose H. apply JsMap_get_In in H. vm_compute in H.
  destruct H as [H | []]. injection H as _ <-. vm_compute. discriminate.
Defined.

End PdsInvariants.

(** * RPL: the [ReasoningProvenanceLayer] class *)

Section RplInvariants.
Import JS RPL.

Lemma In_firstn_In {A : Type} (n : nat) (l : list A) (x : A) :
  In x (List.firstn n l) -> In x l.
Proof.
  revert l. induction n as [ | n IH]; intros [ | a l]; cbn; try tauto.
  intros [H | H]; [ left; exact H | right; apply IH; exact H ].
Qed.

(** Whatever the dominant framework, two others are queued. *)
Lemma queued_for_two (alert : DominanceAlert.t) :
  List.length (queued_for alert) = 2%nat
  /\ ~ In (DominanceAlert.framework alert) (queued_for alert).
Proof.
  split.
  - unfold queued_for, getAlternativeFrameworks. cbn [List.filter].
    repeat match goal with
           | |- context [String.eqb ?a ?b] => destruct (String.eqb a b) eqn:?
           end;
      cbn; try reflexivity;
      repeat match goal with
             | H : String.eqb _ _ = true |- _ => apply String.eqb_eq in H
             end;
      congruence.
  - intros H. apply In_firstn_In in H. unfold getAlternativeFrameworks in H.
    apply filter_In in H as [_ H]. rewrite String.eqb_refl in H. discriminate.
Qed.

Lemma triggerDominanceAlert_flagged (st : State) (rt : Runtime) (k : nat)
    (framework : string) (dominance : number) :
  (dominance >? num 0.7)%js = true ->
  exists alert,
    flagged alert
    /\ DominanceAlert.framework alert = framework
    /\ DominanceAlert.dominance alert = dominance
    /\ frames (triggerDominanceAlert st rt k framework dominance) = frames st
    /\ dominanceAlerts (triggerDominanceAlert st rt k framework dominance)
       = dominanceAlerts st ++ [alert]
    /\ frameworkRotationQueue (triggerDominanceAlert st rt k framework dominance)
       = frameworkRotationQueue st ++ queued_for alert.
Proof.
  intros Hover. eexists. split_and!; cycle 4.
  - reflexivity.
  - reflexivity.
  - split_and!; [ exact Hover | reflexivity | reflexivity | reflexivity ].
  - reflexivity.
  - reflexivity.
  - reflexivity.
Qed.

(** The layer's bookkeeping: every alert is as [triggerDominanceAlert]
    writes it and the queue holds what was pushed for each alert. *)
Lemma dominance_loop (rt : Runtime) (totalWeight : number)
    (frameworkWeights : list (string * number)) (st : State) (k : nat) :
  Forall flagged (dominanceAlerts st) ->
  frameworkRotationQueue st = List.flat_map queued_for (dominanceAlerts st) ->
  let st' :=
    fst (List.fold_left
           (fun acc entry =>
              let dominance := (snd entry / totalWeight)%js in
              if (dominance >? num 0.7)%js
              then (triggerDominanceAlert (fst acc) rt (snd acc) (fst entry) dominance,
                    S (snd acc))
              else acc)
           frameworkWeights (st, k)) in
  Forall flagged (dominanceAlerts st')
  /\ frameworkRotationQueue st' = List.flat_map queued_for (dominanceAlerts st').
Proof.
  revert st k. induction frameworkWeights as [ | entry ws IH]; intros st k Hal Hq; cbn zeta.
  - cbn. split; assumption.
  - cbn [List.fold_left].
    destruct (snd entry / totalWeight >? num 0.7)%js eqn:Hover.
    + destruct (triggerDominanceAlert_flagged st rt k (fst entry) _ Hover)
        as (alert & Hfl & _ & _ & _ & Hal' & Hq').
      cbn [fst snd]. apply IH.
      * rewrite Hal'. apply List.Forall_app. split; [ exact Hal | ].
        constructor; [ exact Hfl | constructor ].
      * rewrite Hq', Hal', Hq, List.flat_map_app. cbn. rewrite app_nil_r. reflexivity.
    + apply IH; assumption.
Qed.

(** X27.  In every state the layer reaches, each dominance alert names a
    share above the threshold 0.7, carries that threshold, the
    recommendation built for its framework and the level read off its
    share; and the rotation queue is, alert by alert and in order, the two
    alternatives pushed for each alert, neither of which is the framework
    the alert names: nothing is ever taken out of the alerts or the queue. *)
Theorem rotation_queue_follows_the_alerts (st : State) :
  reachable st ->
  Forall flagged (dominanceAlerts st)
  /\ frameworkRotationQueue st = List.flat_map queued_for (dominanceAlerts st)
  /\ List.length (frameworkRotationQueue st) = (2 * List.length (dominanceAlerts st))%nat
  /\ Forall (fun alert => ~ In (DominanceAlert.framework alert) (queued_for alert))
       (dominanceAlerts st).
Proof.
  intros Hst.
  assert (H : Forall flagged (dominanceAlerts st)
              /\ frameworkRotationQueue st = List.flat_map queued_for (dominanceAlerts st)).
  { induction Hst as [ | st rt frame Hst [IHa IHq]].
    - split; [ constructor | reflexivity ].
    - unfold trackReasoning, checkFrameworkDominance.
      destruct (weighFrames _) as [frameworkWeights totalWeight].
      apply (dominance_loop rt totalWeight frameworkWeights); cbn; assumption. }
  destruct H as [Ha Hq]. split_and!; [ exact Ha | exact Hq | | ].
  - rewrite Hq. clear.
    induction (dominanceAlerts st) as [ | alert alerts IH]; cbn [List.flat_map List.length].
    + reflexivity.
    + rewrite List.length_app, IH, (proj1 (queued_for_two alert)). lia.
  - apply List.Forall_forall. intros alert _. apply queued_for_two.
Qed.

Lemma rotation_queue_follows_the_alerts_witness :
  reachable Scenario.st_mixed
  /\ Forall flagged (dominanceAlerts Scenario.st_mixed)
  /\ frameworkRotationQueue Scenario.st_mixed
     = List.flat_map queued_for (dominanceAlerts Scenario.st_mixed)
  /\ List.length (frameworkRotationQueue Scenario.st_mixed)
     = (2 * List.length (dominanceAlerts Scenario.st_mixed))%nat
  /\ Forall (fun alert => ~ In (DominanceAlert.framework alert) (queued_for alert))
       (dominanceAlerts Scenario.st_mixed).
Proof.
  assert (H : reachable Scenario.st_mixed)
    by (repeat apply reachable_track; apply reachable_initial).
  split; [ exact H | ].
  exact (rotation_queue_follows_the_alerts Scenario.st_mixed H).
Defined.

End RplInvariants.

Section MoreMapFacts3.
Context {V : Type}.

Lemma JsMap_set_values_Forall (P : V -> Prop) (m : list (string * V)) (k : string) (v : V) :
  Forall P (JsMap.values m) -> P v -> Forall P (JsMap.values (JsMap.set m k v)).
Proof.
  unfold JsMap.values. intros Hm Hv. induction m as [ | [k0 v0] m IH]; cbn.
  - constructor; [ exact Hv | constructor ].
  - apply List.Forall_cons_iff in Hm as [H0 Hm]. destruct (String.eqb k0 k); cbn.
    + constructor; assumption.
    + constructor; [ exact H0 | apply IH; exact Hm ].
Qed.

Lemma JsMap_set_entries_Forall (P : string * V -> Prop) (m : list (string * V))
    (k : string) (v : V) :
  Forall P m -> (forall k', P (k', v)) -> Forall P (JsMap.set m k v).
Proof.
  intros Hm Hv. induction m as [ | [k0 v0] m IH]; cbn.
  - constructor; [ apply Hv | constructor ].
  - apply List.Forall_cons_iff in Hm as [H0 Hm]. destruct (String.eqb k0 k); cbn.
    + constructor; [ apply Hv | exact Hm ].
    + constructor; [ exact H0 | apply IH; exact Hm ].
Qed.

Lemma JsMap_set_not_empty (m : list (string * V)) (k : string) (v : V) :
  JsMap.values (JsMap.set m k v) <> [].
Proof.
  destruct m as [ | [k0 v0] m]; cbn; [ discriminate | ].
  destruct (String.eqb k0 k); discriminate.
Qed.

End MoreMapFacts3.

Section RplWeights.
Import JS RPL.

Lemma Qred_one (t : Q) : (0 < t)%Q -> Qred (t / t) = 1%Q.
Proof.
  intros Ht. change 1%Q with (Qred 1). apply Qred_complete.
  apply Qmult_inv_r. intros H. rewrite H in Ht. exact (Qlt_irrefl 0 Ht).
Qed.

Lemma number_or_positive (t : Q) (d : number) : (0 < t)%Q -> number_or (Fin t) d = Fin t.
Proof.
  intros Ht. cbn. destruct (Qeq_bool t 0) eqn:E; [ | reflexivity ].
  apply Qeq_bool_iff in E. rewrite E in Ht. exfalso. exact (Qlt_irrefl 0 Ht).
Qed.

(** The weights of frames that all name the framework [F]. *)
Lemma single_weights (F : string) (l : list ReasoningFrame.t) (t : Q) :
  Forall (fun frame => ReasoningFrame.framework frame = F /\ positive frame) l ->
  (0 < t)%Q ->
  exists t' : Q,
    (0 < t')%Q
    /\ List.fold_left
         (fun acc frame =>
            let currentWeight :=
              match JsMap.get (fst acc) (ReasoningFrame.framework frame) with
              | Some w => number_or w (of_Z 0)
              | None => of_Z 0
              end in
            (JsMap.set (fst acc) (ReasoningFrame.framework frame)
               (currentWeight + ReasoningFrame.confidenceWeight frame)%js,
             (snd acc + ReasoningFrame.confidenceWeight frame)%js))
         l ([(F, Fin t)], Fin t)
       = ([(F, Fin t')], Fin t').
Proof.
  intros Hl. revert t. induction Hl as [ | frame l [HF (w & Hw & Hpos)] _ IH]; intros t Ht.
  - exists t. split; [ exact Ht | reflexivity ].
  - cbn [List.fold_left fst snd]. rewrite HF, Hw. cbn [JsMap.get JsMap.set].
    rewrite String.eqb_refl, (number_or_positive t _ Ht).
    cbn [add]. apply IH. unfold num. rewrite Qred_correct. lra.
Qed.

Lemma single_weighFrames (F : string) (st : State) :
  Forall (fun frame => ReasoningFrame.framework frame = F /\ positive frame)
    (JsMap.values (frames st)) ->
  JsMap.values (frames st) <> [] ->
  exists t : Q, (0 < t)%Q /\ weighFrames st = ([(F, Fin t)], Fin t).
Proof.
  unfold weighFrames. destruct (JsMap.values (frames st)) as [ | frame l]; [ congruence | ].
  intros Hl _. apply List.Forall_cons_iff in Hl as [[HF (w & Hw & Hpos)] Hl].
  cbn [List.fold_left fst snd JsMap.get]. rewrite HF, Hw. cbn [JsMap.set of_Z add].
  apply (single_weights F l _ Hl). unfold num. rewrite Qred_correct.
  change (inject_Z 0) with 0%Q. lra.
Qed.

(** X28.  While every stored frame names one framework and has a weight
    on the documented scale (above 0, at most 1), each further frame of
    that framework with a weight on that scale raises one more alert, with
    the share 1 and the level HIGH, and queues two more rotations: alerts
    are not deduplicated.  From the empty layer this is the very first
    frame.  The scale matters: the total is a sum of weights and the share
    is total / total, which is 1 as long as the total is a finite number
    above zero. *)
Theorem every_frame_of_a_single_framework_alerts (st : State) (rt : Runtime)
    (frame : FrameInput.t) :
  Forall (fun stored =>
            ReasoningFrame.framework stored = FrameInput.framework frame
            /\ on_scale (ReasoningFrame.confidenceWeight stored))
    (JsMap.values (frames st)) ->
  on_scale (FrameInput.confidenceWeight frame) ->
  exists alert,
    dominanceAlerts (trackReasoning st rt frame) = dominanceAlerts st ++ [alert]
    /\ DominanceAlert.framework alert = FrameInput.framework frame
    /\ DominanceAlert.dominance alert = of_Z 1
    /\ DominanceAlert.riskLevel alert = HIGH
    /\ frameworkRotationQueue (trackReasoning st rt frame)
       = frameworkRotationQueue st ++ queued_for alert.
Proof.
  intros Hst (w & Hw & Hpos & _). unfold trackReasoning.
  assert (Hst' : Forall (fun stored =>
                           ReasoningFrame.framework stored = FrameInput.framework frame
                           /\ positive stored)
                   (JsMap.values (frames st))).
  { eapply List.Forall_impl; [ | exact Hst ].
    intros stored [HF (q & Hq & Hq0 & _)]. split; [ exact HF | ]. exists q. auto. }
  match goal with |- context [checkFrameworkDominance ?s _ _] => set (st1 := s) end.
  destruct (single_weighFrames (FrameInput.framework frame) st1) as (t & Ht & Hweigh).
  - apply JsMap_set_values_Forall; [ exact Hst' | ].
    split; [ reflexivity | ]. exists w. split; [ exact Hw | exact Hpos ].
  - apply JsMap_set_not_empty.
  - unfold checkFrameworkDominance. rewrite Hweigh.
    cbn [List.fold_left fst snd]. rewrite (div_Fin_pos t t Ht). unfold num.
    rewrite (Qred_one t Ht). change (Fin 1 >? Fin (Qred 0.7))%js with true. cbn iota.
    destruct (triggerDominanceAlert_flagged st1 rt 1 (FrameInput.framework frame) (Fin 1)
                eq_refl) as (alert & Hfl & Hname & Hdom & _ & Ha & Hq).
    exists alert. split_and!.
    + exact Ha.
    + exact Hname.
    + exact Hdom.
    + destruct Hfl as (_ & _ & _ & ->). rewrite Hdom. reflexivity.
    + exact Hq.
Qed.

Lemma every_frame_of_a_single_framework_alerts_witness :
  exists alert,
    dominanceAlerts Scenario.st_devil
    = dominanceAlerts
        (trackReasoning initial (Scenario.rt_at 1 (of_Z 0))
           (Scenario.frame_of "Devil_Lens_Critique" 0.8)) ++ [alert]
    /\ DominanceAlert.framework alert = "Devil_Lens_Critique"
    /\ DominanceAlert.dominance alert = of_Z 1
    /\ DominanceAlert.riskLevel alert = HIGH
    /\ frameworkRotationQueue Scenario.st_devil
       = frameworkRotationQueue
           (trackReasoning initial (Scenario.rt_at 1 (of_Z 0))
              (Scenario.frame_of "Devil_Lens_Critique" 0.8)) ++ queued_for alert.
Proof.
  apply (every_frame_of_a_single_framework_alerts
           (trackReasoning initial (Scenario.rt_at 1 (of_Z 0))
              (Scenario.frame_of "Devil_Lens_Critique" 0.8))
           (Scenario.rt_at 2 (of_Z 0)) (Scenario.frame_of "Devil_Lens_Critique" 0.9)).
  - constructor; [ | constructor ].
    split; [ reflexivity | ]. exists (4 # 5)%Q.
    split_and!; [ reflexivity | reflexivity | discriminate | vm_compute; reflexivity ].
  - exists (9 # 10)%Q.
    split_and!; [ reflexivity | reflexivity | discriminate | vm_compute; reflexivity ].
Defined.

(** With positive weights every framework's weight is positive and at most
    the total. *)
Lemma positive_weights (l : list ReasoningFrame.t) (acc : list (string * number) * number) :
  Forall positive l ->
  (exists t : Q,
      snd acc = Fin t /\ (0 <= t)%Q
      /\ Forall (fun entry => exists v : Q, snd entry = Fin v /\ (0 < v)%Q /\ (v <= t)%Q)
           (fst acc)) ->
  exists t : Q,
    snd (List.fold_left
           (fun acc frame =>
              let currentWeight :=
                match JsMap.get (fst acc) (ReasoningFrame.framework frame) with
                | Some w => number_or w (of_Z 0)
                | None => of_Z 0
                end in
              (JsMap.set (fst acc) (ReasoningFrame.framework frame)
                 (currentWeight + ReasoningFrame.confidenceWeight frame)%js,
               (snd acc + ReasoningFrame.confidenceWeight frame)%js))
           l acc) = Fin t
    /\ (0 <= t)%Q
    /\ Forall (fun entry => exists v : Q, snd entry = Fin v /\ (0 < v)%Q /\ (v <= t)%Q)
         (fst (List.fold_left
                 (fun acc frame =>
                    let currentWeight :=
                      match JsMap.get (fst acc) (ReasoningFrame.framework frame) with
                      | Some w => number_or w (of_Z 0)
                      | None => of_Z 0
                      end in
                    (JsMap.set (fst acc) (ReasoningFrame.framework frame)
                       (currentWeight + ReasoningFrame.confidenceWeight frame)%js,
                     (snd acc + ReasoningFrame.confidenceWeight frame)%js))
                 l acc)).
Proof.
  intros Hl. revert acc. induction Hl as [ | frame l (w & Hw & Hpos) _ IH]; intros acc Hacc.
  - exact Hacc.
  - cbn [List.fold_left]. apply IH. clear IH.
    destruct acc as [weights total]. destruct Hacc as (t & Ht & Hnn & Hall).
    cbn [fst snd] in *. subst total. rewrite Hw.
    exists (Qred (t + w)). split_and!.
    + reflexivity.
    + rewrite Qred_correct. lra.
    + assert (Hcur : exists c : Q,
                 match JsMap.get weights (ReasoningFrame.framework frame) with
                 | Some x => number_or x (of_Z 0)
                 | None => of_Z 0
                 end = Fin c /\ (0 <= c)%Q /\ (c <= t)%Q).
      { destruct (JsMap.get weights (ReasoningFrame.framework frame)) as [x | ] eqn:Hget.
        - apply JsMap_get_In in Hget.
          destruct (proj1 (List.Forall_forall _ _) Hall _ Hget) as (v & Hv & Hv0 & Hvt).
          cbn [snd] in Hv. subst x. rewrite (number_or_positive v _ Hv0).
          exists v. split_and!; [ reflexivity | lra | exact Hvt ].
        - exists 0%Q. split_and!; [ reflexivity | lra | exact Hnn ]. }
      destruct Hcur as (c & -> & Hc0 & Hct). cbn [add].
      apply JsMap_set_entries_Forall.
      * apply List.Forall_forall. intros entry Hentry.
        destruct (proj1 (List.Forall_forall _ _) Hall _ Hentry) as (v & Hv & Hv0 & Hvt).
        exists v. split_and!; [ exact Hv | exact Hv0 | ]. rewrite Qred_correct. lra.
      * intros k'. exists (Qred (c + w)). cbn [snd]. split_and!.
        -- reflexivity.
        -- rewrite Qred_correct. lra.
        -- rewrite !Qred_correct. lra.
Qed.

Lemma maxDominance_within (t : Q) (weights : list number) (acc : number) :
  Forall (fun x => exists v : Q, x = Fin v /\ (0 < v)%Q /\ (v <= t)%Q) weights ->
  within 0 1 acc ->
  within 0 1
    (List.fold_left
       (fun maxDominance weight =>
          let dominance := (weight / Fin t)%js in
          if (dominance >? maxDominance)%js then dominance else maxDominance)
       weights acc).
Proof.
  intros Hw. revert acc. induction Hw as [ | x weights (v & -> & Hv0 & Hvt) _ IH];
    intros acc Hacc; cbn [List.fold_left]; [ exact Hacc | ].
  apply IH. cbn zeta. destruct (_ >? acc)%js; [ | exact Hacc ].
  assert (Ht : (0 < t)%Q) by lra.
  rewrite (div_Fin_pos v t Ht). unfold num, within. rewrite Qred_correct. split.
  - apply Qle_shift_div_l; [ exact Ht | ]. lra.
  - apply Qle_shift_div_r; [ exact Ht | ]. lra.
Qed.

(** X29.  While every stored frame has a positive weight, the resilience
    score of the layer is a whole number from 0 to 100. *)
Theorem rpl_resilience_within (st : State) :
  Forall positive (JsMap.values (frames st)) ->
  exists r : Z, 0 <= r <= 100 /\ calculateResilience st = of_Z r.
Proof.
  intros Hst. unfold calculateResilience, weighFrames.
  destruct (positive_weights (JsMap.values (frames st)) ([], of_Z 0) Hst)
    as (t & Ht & Hnn & Hall).
  { exists 0%Q. split_and!; [ reflexivity | apply Qle_refl | constructor ]. }
  destruct (List.fold_left _ (JsMap.values (frames st)) ([], of_Z 0))
    as [frameworkWeights totalWeight].
  cbn [fst snd] in Ht, Hall. subst totalWeight.
  apply round_within, percent_within, one_minus_within, maxDominance_within.
  - unfold JsMap.values. apply List.Forall_map. exact Hall.
  - cbn. split; [ apply Qle_refl | discriminate ].
Qed.

Lemma rpl_resilience_within_witness :
  exists r : Z, 0 <= r <= 100 /\ calculateResilience Scenario.st_mixed = of_Z r.
Proof.
  apply (rpl_resilience_within Scenario.st_mixed).
  vm_compute. repeat constructor.
  - exists (4 # 5)%Q. split; reflexivity.
  - exists (9 # 10)%Q. split; reflexivity.
  - exists (3 # 5)%Q. split; reflexivity.
Defined.

End RplWeights.
